(** * go-astilectron-bundler: a shallow embedding of [bundler.go]

    The bundler is a straight-line driver around the file system, the
    network and a few external tools.  This development embeds

    - the lexical path functions of Go's [path/filepath] the bundler relies
      on ([Clean], [Join], [Base], [Ext], [IsAbs]) and [strings.Replace];
    - a world made of a file system, a remote store, a cancellation context
      and an event log, with a state-and-error monad over it;
    - the functions of [bundler.go], line by line, over that monad;

    and proves the properties the specification states about them. *)

From Stdlib Require Import Ascii.
From stdpp Require Import gmap strings list fin_maps.

(** ** Strings *)

Module Str.

Definition isSep (c : ascii) : bool := Ascii.eqb c "/"%char.
Definition isDot (c : ascii) : bool := Ascii.eqb c "."%char.

(** [strings.ContainsRune(s, '/')] *)
Fixpoint hasSep (s : string) : bool :=
  match s with
  | EmptyString => false
  | String c r => isSep c || hasSep r
  end.

(** [strings.Replace(s, " ", "-", -1)]: the pattern is one byte long, so
    every occurrence is one character and occurrences never overlap. *)
Fixpoint replaceSpaces (s : string) : string :=
  match s with
  | EmptyString => EmptyString
  | String c r =>
      String (if Ascii.eqb c " "%char then "-"%char else c) (replaceSpaces r)
  end.

(** [strings.Split(s, "/")] *)
Fixpoint split (s : string) : list string :=
  match s with
  | EmptyString => [EmptyString]
  | String c r =>
      if isSep c then EmptyString :: split r
      else match split r with
           | h :: t => String c h :: t
           | [] => [String c EmptyString]
           end
  end.

(** [strings.Join(l, "/")] *)
Fixpoint join (l : list string) : string :=
  match l with
  | [] => EmptyString
  | [x] => x
  | x :: t => x +:+ "/" +:+ join t
  end.

(** [strings.Contains(s, sub)] *)
Fixpoint contains (s sub : string) : bool :=
  String.prefix sub s
  || match s with
     | EmptyString => false
     | String _ r => contains r sub
     end.

(** [strings.TrimPrefix(s, p)] *)
Definition trimPrefix (s p : string) : string :=
  if String.prefix p s
  then String.substring (String.length p) (String.length s - String.length p) s
  else s.

End Str.

(** The characters a Rocq string cannot hold as they stand. *)
Definition dq : string := String "034"%char EmptyString.
Definition nl : string := String "010"%char EmptyString.
Definition tab : string := String "009"%char EmptyString.

(** ** [path/filepath], Unix flavour

    [Clean] is the standard library's lexical normaliser.  The Go code
    walks the bytes with a write buffer and a [dotdot] mark; here the same
    rules are applied element by element: empty and [.] elements are
    dropped, [..] removes the last real element, is dropped at the root and
    is kept in front of a relative path. *)

Module filepath.

Definition Separator : string := "/".

Definition IsAbs (p : string) : bool :=
  match p with
  | String c _ => Str.isSep c
  | EmptyString => false
  end.

(** One element of the walk; [st] is the output written so far, last
    element first. *)
Definition cleanStep (rooted : bool) (st : list string) (e : string)
  : list string :=
  if String.eqb e "" then st
  else if String.eqb e "." then st
  else if String.eqb e ".." then
    match st with
    | top :: rest =>
        if String.eqb top ".." then e :: st else rest
    | [] => if rooted then st else [e]
    end
  else e :: st.

Definition Clean (path : string) : string :=
  if String.eqb path "" then "."
  else
    let rooted := IsAbs path in
    let st := fold_left (cleanStep rooted) (Str.split path) [] in
    if rooted then "/" +:+ Str.join (rev st)
    else match st with
         | [] => "."
         | _ => Str.join (rev st)
         end.

(** [Join]: leading empty elements are skipped, the rest is joined with
    the separator and cleaned. *)
Fixpoint Join (elem : list string) : string :=
  match elem with
  | [] => ""
  | e :: rest =>
      if String.eqb e "" then Join rest
      else Clean (Str.join elem)
  end.

(** Strip trailing separators. *)
Fixpoint trimTrailing (p : string) : string :=
  match p with
  | EmptyString => EmptyString
  | String c r =>
      let r' := trimTrailing r in
      if Str.isSep c && String.eqb r' "" then EmptyString else String c r'
  end.

Definition Base (path : string) : string :=
  if String.eqb path "" then "."
  else
    let b := List.last (Str.split (trimTrailing path)) "" in
    if String.eqb b "" then "/" else b.

(** [Ext]: the suffix starting at the last dot of the last element. *)
Fixpoint Ext (path : string) : string :=
  match path with
  | EmptyString => EmptyString
  | String c r =>
      if existsb (fun x => Str.isSep x || Str.isDot x) (String.list_ascii_of_string r)
      then Ext r
      else if Str.isDot c then path else EmptyString
  end.

(** [Abs] on Unix: an absolute path is cleaned, a relative one is joined
    to the working directory, whose lookup can fail. *)
Definition Abs {E} (getwd : string * option E) (path : string)
  : string * option E :=
  if IsAbs path then (Clean path, None)
  else match getwd with
       | (wd, None) => (Join [wd; path], None)
       | (_, Some e) => ("", Some e)
       end.

(** A plain element: what one level of a directory tree is named. *)
Definition plain (n : string) : bool :=
  negb (String.eqb n "") && negb (Str.hasSep n)
  && negb (String.eqb n ".") && negb (String.eqb n "..").

(** A cleaned absolute path below the root. *)
Definition cleanAbs (p : string) : bool :=
  IsAbs p && String.eqb (Clean p) p && negb (String.eqb p "/").

End filepath.

(** ** Errors

    [errors.Wrap] and [errors.Wrapf] keep the wrapped error as the cause;
    [errors.Cause] walks down to the innermost one. *)

Inductive error : Type :=
  | Canceled                          (* context.Canceled *)
  | ErrNotExist (path : string)       (* ENOENT *)
  | ErrPermission (path : string)     (* EACCES *)
  | ErrIsDir (path : string)          (* EISDIR *)
  | ErrNotDir (path : string)         (* ENOTDIR *)
  | ErrIO (op : string)               (* any other failure of a call *)
  | ErrHTTP (url : string)            (* the download source did not answer *)
  | ErrExit (out : string)            (* a subprocess exited non-zero *)
  | Errorf (msg : string)             (* fmt.Errorf *)
  | Wrap (cause : error) (msg : string).

Fixpoint Cause (e : error) : error :=
  match e with
  | Wrap c _ => Cause c
  | _ => e
  end.

(** [os.IsNotExist]; a nil error is not one. *)
Definition IsNotExist (e : option error) : bool :=
  match e with
  | Some (ErrNotExist _) => true
  | _ => false
  end.

(** ** The world the bundler runs in *)

Inductive node : Type :=
  | File (mode : N) (data : string)
  | Dir.

(** [exec.Cmd], as far as the bundler fills it. *)
Record Cmd := mkCmd {
  Path : string;
  Args : list string;
  Env : list string
}.

(** [bindata.Config], as far as the bundler fills it. *)
Module bindata.
Record Config := mkConfig {
  Input : list (string * bool);      (* path, recursive *)
  Output : string;
  Prefix : string;
  Package : string;
  Tags : string
}.
End bindata.

Inductive event : Type :=
  | EvFetch (src dst : string)        (* a network fetch *)
  | EvExec (c : Cmd)                  (* a subprocess was started *)
  | EvTranslate (c : bindata.Config)   (* the embedding generator ran *)
  | EvRsrc (out arch icon : string).  (* the icon embedder ran *)

(** What the process reads from its host and never writes. *)
Record Host := mkHost {
  environ : gmap string string;
  getwd : string * option error;      (* os.Getwd *)
  tempDir : string;                   (* os.TempDir *)
  timeNow : string;                   (* time.Now().String() *)
  remote : gmap string string;        (* download source -> body *)
  denied : gset string;               (* paths whose stat and open get EACCES *)
  cancelAt : option nat;              (* the step before which Stop is called *)
  faults : gset nat                   (* steps whose call fails for an outside reason *)
}.

Definition Getenv (h : Host) (k : string) : string := default "" (environ h !! k).

(** The state of a run.  [clock] counts the steps performed so far: every
    system call, tool invocation and context check is one step. *)
Record World := mkWorld {
  host : Host;
  fs : gmap string node;
  clock : nat;
  events : list event
}.

Definition tick (w : World) : World :=
  mkWorld (host w) (fs w) (S (clock w)) (events w).
Definition setFs (m : gmap string node) (w : World) : World :=
  mkWorld (host w) m (clock w) (events w).
Definition log (e : event) (w : World) : World :=
  mkWorld (host w) (fs w) (clock w) (events w ++ [e]).

(** [ctx.Err()]: nil until the context is cancelled, [context.Canceled]
    from then on. *)
Definition fired (w : World) : bool :=
  match cancelAt (host w) with
  | Some n => bool_decide (n ≤ clock w)
  | None => false
  end.
Definition ctxErr (w : World) : option error :=
  if fired w then Some Canceled else None.

Definition faulty (w : World) : bool := bool_decide (clock w ∈ faults (host w)).

(** A Go function returning only [error]. *)
Definition io : Type := World → World * option error.

Definition ret : io := λ w, (w, None).
Definition fail (e : error) : io := λ w, (w, Some e).

(** [if err = f(); err != nil { return }], then the rest. *)
Definition andThen (f k : io) : io :=
  λ w, match f w with
       | (w1, None) => k w1
       | (w1, Some e) => (w1, Some e)
       end.
Infix ">>" := andThen (at level 65, right associativity).

(** [err = errors.Wrap(err, msg)] on the failure path of [f]. *)
Definition wrapping (msg : string) (f : io) : io :=
  λ w, match f w with
       | (w1, Some e) => (w1, Some (Wrap e msg))
       | r => r
       end.

(** [if b.ctx.Err() != nil { return b.ctx.Err() }] *)
Definition checkCtx : io := λ w, (tick w, ctxErr w).

(** ** The file system

    Paths are compared as the strings the bundler builds.  An entry does not
    need its parent to exist; what a real call would refuse for that reason
    is among the outside failures of [faults]. *)

(** [stripPrefix d p = Some r] exactly when [p = d +:+ r]. *)
Fixpoint stripPrefix (d p : string) : option string :=
  match d with
  | EmptyString => Some p
  | String a d' =>
      match p with
      | String b p' => if Ascii.eqb a b then stripPrefix d' p' else None
      | EmptyString => None
      end
  end.

(** [p] is [d] or lies below it. *)
Definition under (d p : string) : bool :=
  match stripPrefix d p with
  | Some EmptyString => true
  | Some (String c _) => Str.isSep c
  | None => false
  end.

(** [p] lies strictly below [d]. *)
Definition inside (d p : string) : bool :=
  match stripPrefix d p with
  | Some (String c _) => Str.isSep c
  | _ => false
  end.

(** The non-empty prefixes of a list, shortest first. *)
Fixpoint inits (l : list string) : list (list string) :=
  match l with
  | [] => []
  | x :: r => [x] :: map (cons x) (inits r)
  end.

(** The directories [MkdirAll] walks through: every ancestor of [p], then
    [p] itself. *)
Definition dirsOf (p : string) : list string :=
  filter (λ d, d ≠ "") (map Str.join (inits (Str.split p))).

Fixpoint mkdirs (ds : list string) (m : gmap string node)
  : gmap string node * option error :=
  match ds with
  | [] => (m, None)
  | d :: r =>
      match m !! d with
      | Some (File _ _) => (m, Some (ErrNotDir d))
      | Some Dir => mkdirs r m
      | None => mkdirs r (<[d := Dir]> m)
      end
  end.

(** The entries of [src] and below, moved below [dst]. *)
Definition rerooted (src dst : string) (m : gmap string node)
  : gmap string node :=
  list_to_map
    (omap (λ kv : string * node,
             (λ r, (dst +:+ r, kv.2)) <$> stripPrefix src kv.1)
          (map_to_list (filter (λ kv : string * node, under src kv.1 = true) m))).

Definition without (d : string) (m : gmap string node) : gmap string node :=
  filter (λ kv : string * node, under d kv.1 = false) m.

(** What an archive or an embedding of a set of entries holds. *)
Definition render (m : gmap string node) : string :=
  foldr (λ (kv : string * node) acc,
           kv.1 +:+ ":" +:+ match kv.2 with File _ d => d | Dir => "/" end
           +:+ ";" +:+ acc)
        "" (map_to_list m).

Definition subtree (d : string) (m : gmap string node) : gmap string node :=
  filter (λ kv : string * node, under d kv.1 = true) m.

(** *** System calls and library calls

    The calls below belong to Go's standard library and to the libraries
    the bundler imports (go-astilectron, go-astitools); each is written down
    by what it does to the world as the bundler uses it.  Each call is one
    step.  A call that takes the context looks at it on entry; a call in
    flight when the context is cancelled runs to its end. *)

(** A call with no context. *)
Definition syscall (op : string) (body : World → World * option error) : io :=
  λ w, if faulty w then (tick w, Some (ErrIO op)) else body (tick w).

(** A call that is given the context. *)
Definition ctxcall (op : string) (body : World → World * option error) : io :=
  λ w, if fired w then (tick w, Some Canceled) else syscall op body w.

(** [os.Stat], keeping only the error. *)
Definition os_Stat (p : string) (w : World) : World * option error :=
  (tick w,
   if bool_decide (p ∈ denied (host w)) then Some (ErrPermission p)
   else match fs w !! p with
        | Some _ => None
        | None => Some (ErrNotExist p)
        end).

(** [os.RemoveAll]: the path and everything below it; no error when there
    is nothing to remove, and nothing at all for the empty path. *)
Definition os_RemoveAll (p : string) : io :=
  syscall "removeall" (λ w,
    if String.eqb p "" then (w, None)
    else (setFs (without p (fs w)) w, None)).

(** [os.MkdirAll]: creates what is missing, from the root down, and stops
    at an ancestor that is a file. *)
Definition os_MkdirAll (p : string) (perm : N) : io :=
  syscall "mkdirall" (λ w,
    let '(m, e) := mkdirs (dirsOf p) (fs w) in (setFs m w, e)).

(** [os.Chmod] *)
Definition os_Chmod (p : string) (mode : N) : io :=
  syscall "chmod" (λ w,
    if bool_decide (p ∈ denied (host w)) then (w, Some (ErrPermission p))
    else match fs w !! p with
         | Some (File _ d) => (setFs (<[p := File mode d]> (fs w)) w, None)
         | Some Dir => (w, None)
         | None => (w, Some (ErrNotExist p))
         end).

(** [ioutil.WriteFile]: creates the file with [perm], or truncates an
    existing one and keeps its permissions. *)
Definition ioutil_WriteFile (p data : string) (perm : N) : io :=
  syscall "writefile" (λ w,
    match fs w !! p with
    | Some Dir => (w, Some (ErrIsDir p))
    | Some (File m _) => (setFs (<[p := File m data]> (fs w)) w, None)
    | None => (setFs (<[p := File perm data]> (fs w)) w, None)
    end).

(** Writing a copy of [src] at [dst]: a file, or a directory and what is
    below it. *)
Definition place (src dst : string) (w : World) : World * option error :=
  if bool_decide (src ∈ denied (host w)) then (w, Some (ErrPermission src))
  else match fs w !! src with
       | None => (w, Some (ErrNotExist src))
       | Some (File m d) =>
           match fs w !! dst with
           | Some Dir => (w, Some (ErrIsDir dst))
           | _ => (setFs (<[dst := File m d]> (fs w)) w, None)
           end
       | Some Dir =>
           (setFs (<[dst := Dir]> (rerooted src dst (fs w) ∪ fs w)) w, None)
       end.

(** [astios.Copy(ctx, src, dst)] *)
Definition astios_Copy (src dst : string) : io :=
  ctxcall "copy" (place src dst).

(** [astios.Move(ctx, src, dst)]: the copy, then the source is gone. *)
Definition astios_Move (src dst : string) : io :=
  ctxcall "move" (λ w,
    match fs w !! src, place src dst w with
    | Some n, (w1, None) =>
        (setFs (match n with
                | File _ _ => <[dst := n]> (delete src (fs w))
                | Dir => <[dst := Dir]> (rerooted src dst (fs w) ∪ without src (fs w))
                end) w1, None)
    | _, r => r
    end).

(** [astilectron.Download(ctx, client, src, dst)]: fetches [src] and writes
    the body at [dst]. *)
Definition astilectron_Download (src dst : string) : io :=
  ctxcall "download" (λ w,
    let w := log (EvFetch src dst) w in
    match remote (host w) !! src with
    | None => (w, Some (ErrHTTP src))
    | Some body =>
        match fs w !! dst with
        | Some Dir => (w, Some (ErrIsDir dst))
        | _ => (setFs (<[dst := File 420 body]> (fs w)) w, None)
        end
    end).

(** [astizip.Zip(ctx, src, dst, root)]: archives the directory [src]
    into the file [dst]. *)
Definition astizip_Zip (src dst root : string) : io :=
  ctxcall "zip" (λ w,
    match fs w !! src with
    | None => (w, Some (ErrNotExist src))
    | Some _ =>
        match fs w !! dst with
        | Some Dir => (w, Some (ErrIsDir dst))
        | _ => (setFs (<[dst := File 420 (root +:+ "=" +:+ render (subtree src (fs w)))]>
                         (fs w)) w, None)
        end
    end).

(** *** External tools *)

(** The path after [-o] on a compiler command line. *)
Fixpoint outputArg (args : list string) : option string :=
  match args with
  | [] => None
  | a :: r =>
      if String.eqb a "-o"
      then match r with p :: _ => Some p | [] => None end
      else outputArg r
  end.

(** [cmd.CombinedOutput()] for the compiler: it runs to its end whatever
    the context says, gets the environment of [Env] and nothing else, and
    writes the binary its arguments (after the program name) ask for. *)
Definition exec_CombinedOutput (c : Cmd) (w : World)
  : World * (string * option error) :=
  let w1 := log (EvExec c) (tick w) in
  if faulty w then (w1, ("build diagnostics", Some (ErrExit "exit status 1")))
  else match outputArg (tail (Args c)) with
       | None => (w1, ("", None))
       | Some p =>
           match fs w !! p with
           | Some Dir => (w1, (p +:+ " is a directory", Some (ErrExit "exit status 1")))
           | _ => (setFs (<[p := File 493 (String.concat " " (Env c ++ Args c))]> (fs w)) w1,
                   ("", None))
           end
       end.

(** [bindata.Translate]: every input has to exist; one source file holding
    what is below the inputs is written at [Output]. *)
Definition bindata_Translate (c : bindata.Config) : io :=
  syscall "bindata" (λ w,
    let w := log (EvTranslate c) w in
    match List.find (λ i : string * bool, bool_decide (fs w !! i.1 = None)) (bindata.Input c) with
    | Some i => (w, Some (ErrNotExist i.1))
    | None =>
        match fs w !! bindata.Output c with
        | Some Dir => (w, Some (ErrIsDir (bindata.Output c)))
        | _ =>
            let data :=
              render (filter (λ kv : string * node,
                                existsb (λ i : string * bool, under i.1 kv.1) (bindata.Input c) = true)
                             (fs w)) in
            (setFs (<[bindata.Output c := File 420 (bindata.Package c +:+ ":" +:+ bindata.Tags c +:+ ":" +:+ data)]>
                      (fs w)) w, None)
        end
    end).

(** [rsrc.Embed(out, arch, manifest, icon)] *)
Definition rsrc_Embed (out arch icon : string) : io :=
  syscall "rsrc" (λ w,
    let w := log (EvRsrc out arch icon) w in
    match fs w !! icon with
    | Some (File _ d) =>
        match fs w !! out with
        | Some Dir => (w, Some (ErrIsDir out))
        | _ => (setFs (<[out := File 420 (arch +:+ ":" +:+ d)]> (fs w)) w, None)
        end
    | Some Dir => (w, Some (ErrIsDir icon))
    | None => (w, Some (ErrNotExist icon))
    end).

(** ** [bundler.go] *)

(** The constants and functions of the go-astilectron library the bundler
    uses, and the two archive names the package declares next to
    [bundler.go]. *)
Record Astilectron := mkAstilectron {
  IsValidOS : string → bool;
  VersionAstilectron : string;
  VersionElectron : string;
  AstilectronDownloadSrc : string;
  ElectronDownloadSrc : string → string → string;
  zipNameAstilectron : string;
  zipNameElectron : string
}.

Record ConfigurationEnvironment := mkEnv {
  Arch : string;
  OS : string;
  Tags : string
}.

Record Configuration := mkConfiguration {
  AppName : string;
  CachePath : string;
  Environments : list ConfigurationEnvironment;
  IconPathDarwin : string;
  IconPathLinux : string;
  IconPathWindows : string;
  InputPath : string;
  GoBinaryPath : string;
  OutputPath : string;
  BindOutput : string;
  BindPackage : string;
  BindTags : string;
  AstilectronPath : string;
  EnvironmentFilter : string
}.

(** The [Bundler]; its http client and its context live in the world. *)
Record Bundler := mkBundler {
  appName : string;
  environments : list ConfigurationEnvironment;
  pathAstilectron : string;
  pathBuild : string;
  pathCache : string;
  pathIconDarwin : string;
  pathIconLinux : string;
  pathIconWindows : string;
  pathInput : string;
  pathGoBinary : string;
  pathOutput : string;
  pathResources : string;
  pathVendor : string;
  pathBindOutput : string;
  bindPackage : string;
  bindTags : string;
  environmentFilter : string
}.

(** [len(s) > 0] *)
Definition nonEmpty (s : string) : bool := negb (String.eqb s "").

(** [absPath] *)
Definition absPath (h : Host) (configPath : string)
    (defaultPathFn : option (Host → string * option error))
  : string * option error :=
  if nonEmpty configPath then
    match filepath.Abs (getwd h) configPath with
    | (o, Some err) =>
        (o, Some (Wrap err ("filepath.Abs of " +:+ configPath +:+ " failed")))
    | (o, None) => (o, None)
    end
  else
    match defaultPathFn with
    | Some fn =>
        match fn h with
        | (o, Some err) =>
            (o, Some (Wrap err ("default path function to compute absPath of "
                                +:+ configPath +:+ " failed")))
        | (o, None) => (o, None)
        end
    | None => ("", None)
    end.

(** [os.Getwd] as a default path function. *)
Definition os_Getwd (h : Host) : string * option error := getwd h.

Section Bundler.

Context (A : Astilectron).

(** [regexp.MatchString(pattern, s)] *)
Context (regexp_MatchString : string → string → bool * option error).

(** [New]: the first failure ends the construction; the half-filled
    bundler Go returns next to the error is of no use and is dropped. *)
Definition New (h : Host) (c : Configuration) : Bundler + error :=
  match List.find (λ env, negb (IsValidOS A (OS env))) (Environments c) with
  | Some env => inr (Errorf ("OS " +:+ OS env +:+ " is invalid"))
  | None =>
  match absPath h (AstilectronPath c) None with
  | (_, Some err) => inr err
  | (pAstilectron, None) =>
  match absPath h (CachePath c)
          (Some (λ h, (filepath.Join [tempDir h; "astibundler"], None))) with
  | (_, Some err) => inr err
  | (pCache, None) =>
  match absPath h (IconPathDarwin c) None with
  | (_, Some err) => inr err
  | (pIconDarwin, None) =>
  match absPath h (IconPathLinux c) None with
  | (_, Some err) => inr err
  | (pIconLinux, None) =>
  match absPath h (IconPathWindows c) None with
  | (_, Some err) => inr err
  | (pIconWindows, None) =>
  match absPath h (InputPath c) (Some os_Getwd) with
  | (_, Some err) => inr err
  | (pInput, None) =>
  match absPath h (OutputPath c) (Some os_Getwd) with
  | (_, Some err) => inr err
  | (pOutput, None) =>
      inl {| appName := AppName c;
             environments := Environments c;
             pathAstilectron := pAstilectron;
             pathBuild :=
               Str.trimPrefix
                 (Str.trimPrefix pInput (filepath.Join [Getenv h "GOPATH"; "src"]))
                 filepath.Separator;
             pathCache := pCache;
             pathIconDarwin := pIconDarwin;
             pathIconLinux := pIconLinux;
             pathIconWindows := pIconWindows;
             pathInput := pInput;
             pathGoBinary :=
               if nonEmpty (GoBinaryPath c) then GoBinaryPath c else "go";
             pathOutput := pOutput;
             pathResources := filepath.Join [pInput; "resources"];
             pathVendor := filepath.Join [pInput; "vendor"];
             pathBindOutput :=
               if nonEmpty (BindOutput c)
               then filepath.Join [pInput; BindOutput c] else pInput;
             bindPackage :=
               if nonEmpty (BindPackage c) then BindPackage c else "main";
             bindTags := if nonEmpty (BindTags c) then BindTags c else "";
             environmentFilter :=
               if nonEmpty (EnvironmentFilter c) then EnvironmentFilter c else "" |}
  end end end end end end end
  end.

(** [ClearCache] *)
Definition ClearCache (b : Bundler) : io :=
  wrapping ("removing " +:+ pathCache b +:+ " failed")
    (os_RemoveAll (pathCache b)).

(** [reset] *)
Definition reset (b : Bundler) : io :=
  foldr (λ path k,
           wrapping ("mkdirall " +:+ path +:+ " failed") (os_MkdirAll path 511) >> k)
        ret [pathCache b; pathOutput b].

(** [provisionVendorZip] *)
Definition provisionVendorZip (b : Bundler)
    (pathDownload pathCache pathVendor : string) : io :=
  λ w,
    let '(w1, errStat) := os_Stat pathCache w in
    ((if IsNotExist errStat then
        wrapping ("downloading " +:+ pathDownload +:+ " into " +:+ pathCache
                  +:+ " failed")
          (astilectron_Download pathDownload pathCache)
      else ret)
     >> checkCtx
     >> wrapping ("copying " +:+ pathCache +:+ " to " +:+ pathVendor +:+ " failed")
          (astios_Copy pathCache pathVendor)
     >> checkCtx) w1.

(** The cache entries of the two archives. *)
Definition cacheAstilectron (b : Bundler) : string :=
  filepath.Join [pathCache b; "astilectron-" +:+ VersionAstilectron A +:+ ".zip"].
Definition cacheElectron (b : Bundler) (oS arch : string) : string :=
  filepath.Join [pathCache b;
                 "electron-" +:+ oS +:+ "-" +:+ arch +:+ "-"
                 +:+ VersionElectron A +:+ ".zip"].

(** [provisionVendorAstilectron] *)
Definition provisionVendorAstilectron (b : Bundler) : io :=
  let p := cacheAstilectron b in
  (if nonEmpty (pathAstilectron b) then
     wrapping ("zipping " +:+ pathAstilectron b +:+ " into " +:+ p +:+ " failed")
       (astizip_Zip (pathAstilectron b) p ("astilectron-" +:+ VersionAstilectron A))
     >> checkCtx
   else ret)
  >> provisionVendorZip b (AstilectronDownloadSrc A) p
       (filepath.Join [pathVendor b; zipNameAstilectron A]).

(** [provisionVendorElectron] *)
Definition provisionVendorElectron (b : Bundler) (oS arch : string) : io :=
  provisionVendorZip b (ElectronDownloadSrc A oS arch) (cacheElectron b oS arch)
    (filepath.Join [pathVendor b; zipNameElectron A]).

(** [provisionVendor] *)
Definition provisionVendor (b : Bundler) (oS arch : string) : io :=
  wrapping ("removing " +:+ pathVendor b +:+ " failed")
    (os_RemoveAll (pathVendor b))
  >> wrapping ("mkdirall " +:+ pathVendor b +:+ " failed")
       (os_MkdirAll (pathVendor b) 511)
  >> wrapping "provisioning astilectron vendor failed"
       (provisionVendorAstilectron b)
  >> wrapping ("provisioning electron vendor for OS " +:+ oS +:+ " and arch "
               +:+ arch +:+ " failed")
       (provisionVendorElectron b oS arch).

(** The configuration [BindData] hands to the embedding generator. *)
Definition bindataConfig (b : Bundler) (os : string) : bindata.Config :=
  {| bindata.Input := [(filepath.Join [pathInput b; "resources"], true);
                       (filepath.Join [pathInput b; "vendor"], true)];
     bindata.Output := filepath.Join [pathBindOutput b; "bind_" +:+ os +:+ ".go"];
     bindata.Prefix := pathInput b;
     bindata.Package := bindPackage b;
     bindata.Tags :=
       if nonEmpty (bindTags b)
       then os +:+ nl +:+ "// +build " +:+ bindTags b +:+ ""
       else os |}.

(** [BindData] *)
Definition BindData (b : Bundler) (os arch tags : string) : io :=
  wrapping "provisioning the vendor failed" (provisionVendor b os arch)
  >> bindata_Translate (bindataConfig b os).

(** [addWindowsSyso] *)
Definition addWindowsSyso (b : Bundler) (arch : string) : io :=
  if nonEmpty (pathIconWindows b) then
    let p := filepath.Join [pathInput b; "windows.syso"] in
    wrapping ("running rsrc for icon " +:+ pathIconWindows b +:+ " into " +:+ p
              +:+ " failed")
      (rsrc_Embed p arch (pathIconWindows b))
  else ret.

(** [ldflags]: Go ranges over the map in an order of its own; the entries
    are kept here in the order they were put in. *)
Definition ldflags : Type := list (string * list string).

(** [ldflags.string] *)
Definition ldflags_string (l : ldflags) : string :=
  String.concat " "
    (flat_map (λ kss : string * list string,
                 map (λ s, "-" +:+ kss.1 +:+ " " +:+ s) kss.2) l).

(** The name [Bundle] matches the filter against. *)
Definition eName (e : ConfigurationEnvironment) : string :=
  let eName := OS e +:+ "-" in
  let eName :=
    if negb (String.eqb (Tags e) "")
    then eName +:+ Str.replaceSpaces (Tags e) +:+ "-" else eName in
  eName +:+ Arch e.

(** The folder [bundle] removes, creates and fills. *)
Definition environmentPath (b : Bundler) (e : ConfigurationEnvironment) : string :=
  let environmentPath := filepath.Join [pathOutput b; OS e] in
  let environmentPath :=
    if nonEmpty (Tags e)
    then environmentPath +:+ "-" +:+ Str.replaceSpaces (Tags e)
    else environmentPath in
  environmentPath +:+ "-" +:+ Arch e.

(** The link flags of one build. *)
Definition buildLdflags (b : Bundler) (e : ConfigurationEnvironment) (h : Host)
  : ldflags :=
  let l := [("X", [dq +:+ bindPackage b +:+ ".BuiltAt=" +:+ timeNow h +:+ dq])] in
  if String.eqb (OS e) "windows" then l ++ [("H", ["windowsgui"])] else l.

(** The compiler command of one build, with the environment it is given. *)
Definition buildCmd (b : Bundler) (e : ConfigurationEnvironment) (h : Host)
    (binaryPath : string) : Cmd :=
  {| Path := pathGoBinary b;
     Args := [pathGoBinary b; "build"; "-ldflags"; ldflags_string (buildLdflags b e h);
              "-o"; binaryPath; "-tags"; Tags e; pathBuild b];
     Env := ["GOARCH=" +:+ Arch e;
             "GOOS=" +:+ OS e;
             "GOPATH=" +:+ Getenv h "GOPATH";
             "PATH=" +:+ Getenv h "PATH"] |}.

(** The text [finishDarwin] writes as [Info.plist]. *)
Definition infoPlist (appName iconExt : string) : string :=
  "<?xml version=" +:+ dq +:+ "1.0" +:+ dq +:+ " encoding=" +:+ dq +:+ "UTF-8" +:+ dq
  +:+ "?><!DOCTYPE plist PUBLIC " +:+ dq +:+ "-//Apple//DTD PLIST 1.0//EN" +:+ dq
  +:+ " " +:+ dq +:+ "http://www.apple.com/DTDs/PropertyList-1.0.dtd" +:+ dq +:+ ">" +:+ nl
  +:+ "<plist version=" +:+ dq +:+ "1.0" +:+ dq +:+ ">" +:+ nl
  +:+ tab +:+ "<dict>" +:+ nl
  +:+ tab +:+ tab +:+ "<key>CFBundleIconFile</key>" +:+ nl
  +:+ tab +:+ tab +:+ "<string>" +:+ appName +:+ iconExt +:+ "</string>" +:+ nl
  +:+ tab +:+ tab +:+ "<key>CFBundleDisplayName</key>" +:+ nl
  +:+ tab +:+ tab +:+ "<string>" +:+ appName +:+ "</string>" +:+ nl
  +:+ tab +:+ tab +:+ "<key>CFBundleExecutable</key>" +:+ nl
  +:+ tab +:+ tab +:+ "<string>" +:+ appName +:+ "</string>" +:+ nl
  +:+ tab +:+ tab +:+ "<key>CFBundleName</key>" +:+ nl
  +:+ tab +:+ tab +:+ "<string>" +:+ appName +:+ "</string>" +:+ nl
  +:+ tab +:+ tab +:+ "<key>CFBundleIdentifier</key>" +:+ nl
  +:+ tab +:+ tab +:+ "<string>com." +:+ appName +:+ "</string>" +:+ nl
  +:+ tab +:+ "</dict>" +:+ nl
  +:+ "</plist>".

(** The paths of a darwin bundle. *)
Definition contentsPath (b : Bundler) (environmentPath : string) : string :=
  filepath.Join [environmentPath; appName b +:+ ".app"; "Contents"].
Definition macOSPath (b : Bundler) (environmentPath : string) : string :=
  filepath.Join [contentsPath b environmentPath; "MacOS"].
Definition macOSBinaryPath (b : Bundler) (environmentPath : string) : string :=
  filepath.Join [macOSPath b environmentPath; appName b].
Definition resourcesPath (b : Bundler) (environmentPath : string) : string :=
  filepath.Join [contentsPath b environmentPath; "Resources"].
Definition iconPath (b : Bundler) (environmentPath : string) : string :=
  filepath.Join [resourcesPath b environmentPath;
                 appName b +:+ filepath.Ext (pathIconDarwin b)].
Definition plistPath (b : Bundler) (environmentPath : string) : string :=
  filepath.Join [contentsPath b environmentPath; "Info.plist"].

(** [finishDarwin] *)
Definition finishDarwin (b : Bundler) (environmentPath binaryPath : string) : io :=
  let macOSPath := macOSPath b environmentPath in
  let macOSBinaryPath := macOSBinaryPath b environmentPath in
  wrapping ("mkdirall of " +:+ macOSPath +:+ " failed") (os_MkdirAll macOSPath 511)
  >> wrapping ("moving " +:+ binaryPath +:+ " to " +:+ macOSBinaryPath +:+ " failed")
       (astios_Move binaryPath macOSBinaryPath)
  >> checkCtx
  >> wrapping ("chmoding " +:+ macOSBinaryPath +:+ " failed")
       (os_Chmod macOSBinaryPath 511)
  >> (if nonEmpty (pathIconDarwin b) then
        let resourcesPath := resourcesPath b environmentPath in
        let ip := iconPath b environmentPath in
        wrapping ("mkdirall of " +:+ resourcesPath +:+ " failed")
          (os_MkdirAll resourcesPath 511)
        >> wrapping ("copying " +:+ pathIconDarwin b +:+ " to " +:+ ip +:+ " failed")
             (astios_Copy (pathIconDarwin b) ip)
        >> checkCtx
      else ret)
  >> let fp := plistPath b environmentPath in
     wrapping ("adding Info.plist to " +:+ fp +:+ " failed")
       (ioutil_WriteFile fp
          (infoPlist (appName b) (filepath.Ext (pathIconDarwin b))) 511).

(** [finishLinux] *)
Definition finishLinux (b : Bundler) (environmentPath binaryPath : string) : io :=
  let linuxBinaryPath := filepath.Join [environmentPath; appName b] in
  wrapping ("moving " +:+ binaryPath +:+ " to " +:+ linuxBinaryPath +:+ " failed")
    (astios_Move binaryPath linuxBinaryPath)
  >> checkCtx.

(** [finishWindows] *)
Definition finishWindows (b : Bundler) (environmentPath binaryPath : string) : io :=
  let windowsBinaryPath := filepath.Join [environmentPath; appName b +:+ ".exe"] in
  wrapping ("moving " +:+ binaryPath +:+ " to " +:+ windowsBinaryPath +:+ " failed")
    (astios_Move binaryPath windowsBinaryPath)
  >> checkCtx.

(** The last step of [bundle]: the switch on the OS. *)
Definition finish (b : Bundler) (e : ConfigurationEnvironment)
    (environmentPath binaryPath : string) : io :=
  if String.eqb (OS e) "darwin" then finishDarwin b environmentPath binaryPath
  else if String.eqb (OS e) "linux" then finishLinux b environmentPath binaryPath
  else if String.eqb (OS e) "windows" then finishWindows b environmentPath binaryPath
  else fail (Errorf ("OS " +:+ OS e +:+ " is not yet implemented")).

(** The compiler run of [bundle]. *)
Definition build (b : Bundler) (e : ConfigurationEnvironment) (binaryPath : string)
  : io :=
  λ w,
    let cmd := buildCmd b e (host w) binaryPath in
    let '(w1, (o, err)) := exec_CombinedOutput cmd w in
    match err with
    | Some err => (w1, Some (Wrap err ("building failed: " +:+ o)))
    | None => (w1, None)
    end.

(** [bundle] *)
Definition bundle (b : Bundler) (e : ConfigurationEnvironment) : io :=
  let environmentPath := environmentPath b e in
  wrapping ("removing " +:+ environmentPath +:+ " failed")
    (os_RemoveAll environmentPath)
  >> wrapping ("mkdirall " +:+ environmentPath +:+ " failed")
       (os_MkdirAll environmentPath 511)
  >> wrapping "binding data failed" (BindData b (OS e) (Arch e) (Tags e))
  >> (if String.eqb (OS e) "windows"
      then wrapping "adding windows .syso failed" (addWindowsSyso b (Arch e))
      else ret)
  >> let binaryPath := filepath.Join [environmentPath; "binary"] in
     build b e binaryPath
     >> finish b e environmentPath binaryPath.

(** The loop of [Bundle]. *)
Fixpoint bundleEach (b : Bundler) (es : list ConfigurationEnvironment) : io :=
  match es with
  | [] => ret
  | e :: rest =>
      let run :=
        wrapping ("bundling for environment " +:+ OS e +:+ "/" +:+ Arch e +:+ " failed")
          (bundle b e)
        >> bundleEach b rest in
      if negb (String.eqb (environmentFilter b) "") then
        match regexp_MatchString (environmentFilter b) (eName e) with
        | (_, Some err) => fail (Wrap err "environment matching failed")
        | (m, None) => if negb m then bundleEach b rest else run
        end
      else run
  end.

(** [Bundle] *)
Definition Bundle (b : Bundler) : io :=
  wrapping "resetting bundler failed" (reset b)
  >> bundleEach b (environments b).

End Bundler.

(** ** The vocabulary of the properties *)

(** [m] leaves every existing entry outside [S] as it is. *)
Definition keeps (S : string → Prop) (m : io) : Prop :=
  ∀ w w' r p n, m w = (w', r) → ¬ S p → fs w !! p = Some n → fs w' !! p = Some n.

(** Every entry after [m] was there before, or lies in [T]. *)
Definition adds (T : string → Prop) (m : io) : Prop :=
  ∀ w w' r p n, m w = (w', r) → fs w' !! p = Some n → fs w !! p = Some n ∨ T p.

(** [m] does not touch what the process reads from its host. *)
Definition sameHost (m : io) : Prop :=
  ∀ w w' r, m w = (w', r) → host w' = host w.

(** A property list of string entries, as the bundler lays it out. *)
Definition plistEntry (kv : string * string) : string :=
  tab +:+ tab +:+ "<key>" +:+ kv.1 +:+ "</key>" +:+ nl
  +:+ tab +:+ tab +:+ "<string>" +:+ kv.2 +:+ "</string>" +:+ nl.

Definition plistDoc (entries : list (string * string)) : string :=
  "<?xml version=" +:+ dq +:+ "1.0" +:+ dq +:+ " encoding=" +:+ dq +:+ "UTF-8" +:+ dq
  +:+ "?><!DOCTYPE plist PUBLIC " +:+ dq +:+ "-//Apple//DTD PLIST 1.0//EN" +:+ dq
  +:+ " " +:+ dq +:+ "http://www.apple.com/DTDs/PropertyList-1.0.dtd" +:+ dq +:+ ">" +:+ nl
  +:+ "<plist version=" +:+ dq +:+ "1.0" +:+ dq +:+ ">" +:+ nl
  +:+ tab +:+ "<dict>" +:+ nl
  +:+ foldr (λ kv acc, plistEntry kv +:+ acc) "" entries
  +:+ tab +:+ "</dict>" +:+ nl
  +:+ "</plist>".

(** [os.Setenv] on the host, before the run. *)
Definition setenv (k v : string) (h : Host) : Host :=
  mkHost (<[k := v]> (environ h)) (getwd h) (tempDir h) (timeNow h) (remote h)
         (denied h) (cancelAt h) (faults h).

(** The same host when [Stop] is called before step [n]. *)
Definition cancelHost (n : nat) (h : Host) : Host :=
  mkHost (environ h) (getwd h) (tempDir h) (timeNow h) (remote h)
         (denied h) (Some n) (faults h).
Definition cancelWorld (n : nat) (w : World) : World :=
  mkWorld (cancelHost n (host w)) (fs w) (clock w) (events w).

(** [m] under cancellation: compared with a run nobody cancels, the run
    cancelled before step [n] either ends with an error whose cause is the
    context's, or goes the same way; when [strict], going the same way to
    success means step [n] was never reached. *)
Definition cancellable (strict : bool) (m : io) : Prop :=
  ∀ w n w0 r0,
    cancelAt (host w) = None → m w = (w0, r0) →
    (∃ wc e, m (cancelWorld n w) = (wc, Some e) ∧ Cause e = Canceled)
    ∨ (m (cancelWorld n w) = (cancelWorld n w0, r0)
       ∧ (strict = true → r0 = None → clock w0 ≤ n)).

(** The body of a call does not look at the context. *)
Definition oblivious (body : World → World * option error) : Prop :=
  ∀ n w, body (cancelWorld n w) = (cancelWorld n (body w).1, (body w).2).


(** ** [astilectron-bundler/main.go]

    The command once the configuration file is decoded: the flags are laid
    over the configuration, the bundler is built and the subcommand is run.
    [astilog.Fatal] ends the process; the error it is given is the result. *)

Module main.

Record Flags := mkFlags {
  astilectronPath : string;          (* -a *)
  darwin : bool;                     (* -d *)
  linux : bool;                      (* -l *)
  windows : bool;                    (* -w *)
  environmentFilter : string         (* -e *)
}.

(** The environments after the three toggles and the default. *)
Definition environments (f : Flags) (GOARCH GOOS : string)
    (envs : list ConfigurationEnvironment) : list ConfigurationEnvironment :=
  let envs := if darwin f then envs ++ [mkEnv "amd64" "darwin" ""] else envs in
  let envs := if linux f then envs ++ [mkEnv "amd64" "linux" ""] else envs in
  let envs := if windows f then envs ++ [mkEnv "amd64" "windows" ""] else envs in
  if Nat.eqb (length envs) 0 then [mkEnv GOARCH GOOS ""] else envs.

(** The configuration the bundler is built from. *)
Definition configure (f : Flags) (GOARCH GOOS : string) (c : Configuration)
  : Configuration :=
  {| AppName := AppName c;
     CachePath := CachePath c;
     Environments := environments f GOARCH GOOS (Environments c);
     IconPathDarwin := IconPathDarwin c;
     IconPathLinux := IconPathLinux c;
     IconPathWindows := IconPathWindows c;
     InputPath := InputPath c;
     GoBinaryPath := GoBinaryPath c;
     OutputPath := OutputPath c;
     BindOutput := BindOutput c;
     BindPackage := BindPackage c;
     BindTags := BindTags c;
     AstilectronPath :=
       if nonEmpty (astilectronPath f) then astilectronPath f else AstilectronPath c;
     EnvironmentFilter :=
       if nonEmpty (environmentFilter f) then environmentFilter f
       else EnvironmentFilter c |}.

(** The switch on the subcommand. *)
Definition dispatch (A : Astilectron)
    (regexp_MatchString : string → string → bool * option error)
    (GOARCH GOOS : string) (s : string) (b : Bundler) : io :=
  if String.eqb s "bd" then
    wrapping "binding data failed" (BindData A b GOOS GOARCH "")
  else if String.eqb s "cc" then
    wrapping "clearing cache failed" (ClearCache b)
  else
    wrapping "bundling failed" (Bundle A regexp_MatchString b).

(** [main], from the decoded configuration on. *)
Definition run (A : Astilectron)
    (regexp_MatchString : string → string → bool * option error)
    (f : Flags) (GOARCH GOOS : string) (s : string) (c : Configuration) : io :=
  λ w,
    match New A (host w) (configure f GOARCH GOOS c) with
    | inr err => (w, Some (Wrap err "building bundler failed"))
    | inl b => dispatch A regexp_MatchString GOARCH GOOS s b w
    end.

End main.

(** The bundler [b] with another environment filter. *)
Definition withFilter (f : string) (b : Bundler) : Bundler :=
  mkBundler (appName b) (environments b) (pathAstilectron b) (pathBuild b)
    (pathCache b) (pathIconDarwin b) (pathIconLinux b) (pathIconWindows b)
    (pathInput b) (pathGoBinary b) (pathOutput b) (pathResources b) (pathVendor b)
    (pathBindOutput b) (bindPackage b) (bindTags b) f.

(** The bundler [b] with a local copy of the framework at [p]. *)
Definition withAstilectron (p : string) (b : Bundler) : Bundler :=
  mkBundler (appName b) (environments b) p (pathBuild b)
    (pathCache b) (pathIconDarwin b) (pathIconLinux b) (pathIconWindows b)
    (pathInput b) (pathGoBinary b) (pathOutput b) (pathResources b) (pathVendor b)
    (pathBindOutput b) (bindPackage b) (bindTags b) (environmentFilter b).





(** [m] calls out to the network and to the tools only as [full] lists it:
    what it appends to the event log is a selection of [full], in the order
    of [full]. *)
Definition emits (full : list event) (m : io) : Prop :=
  ∀ w w' r, m w = (w', r) → ∃ l, events w' = events w ++ l ∧ l `sublist_of` full.

(** The calls of one [bundle], in the order of the source: the download of
    the framework (none with a local copy), the download of Electron, the
    embedding generator, the icon embedder (windows with an icon only), the
    compiler. *)
Definition bundleCalls (A : Astilectron) (b : Bundler) (e : ConfigurationEnvironment)
    (h : Host) : list event :=
  (if nonEmpty (pathAstilectron b) then []
   else [EvFetch (AstilectronDownloadSrc A) (cacheAstilectron A b)])
  ++ [EvFetch (ElectronDownloadSrc A (OS e) (Arch e)) (cacheElectron A b (OS e) (Arch e));
      EvTranslate (bindataConfig b (OS e))]
  ++ (if String.eqb (OS e) "windows" && nonEmpty (pathIconWindows b)
      then [EvRsrc (filepath.Join [pathInput b; "windows.syso"]) (Arch e)
              (pathIconWindows b)]
      else [])
  ++ [EvExec (buildCmd b e h (filepath.Join [environmentPath b e; "binary"]))].

(** The two downloads of a provisioning, in the order of the source: the
    framework (none with a local copy), then the runtime of the OS and
    architecture. *)
Definition fetches (A : Astilectron) (b : Bundler) (oS arch : string) : list event :=
  (if nonEmpty (pathAstilectron b) then []
   else [EvFetch (AstilectronDownloadSrc A) (cacheAstilectron A b)])
  ++ [EvFetch (ElectronDownloadSrc A oS arch) (cacheElectron A b oS arch)].

(** ** A concrete run

    The library at one release, a host, a project and the configurations
    the examples below run the bundler on. *)

Module Demo.

(** [regexp.MatchString] on a pattern without metacharacters: the pattern
    occurs in the string. *)
Definition matchLiteral (pat s : string) : bool * option error :=
  (Str.contains s pat, None).

Definition lib : Astilectron :=
  {| IsValidOS := λ os, bool_decide (os ∈ ["darwin"; "linux"; "windows"]);
     VersionAstilectron := "0.6.0";
     VersionElectron := "1.6.5";
     AstilectronDownloadSrc := "https://example.org/astilectron/v0.6.0.zip";
     ElectronDownloadSrc := λ os arch,
       "https://example.org/electron/v1.6.5/" +:+ os +:+ "-" +:+ arch +:+ ".zip";
     zipNameAstilectron := "astilectron.zip";
     zipNameElectron := "electron.zip" |}.

Definition machine : Host :=
  {| environ := {[ "GOPATH" := "/go"; "PATH" := "/usr/bin"; "HOME" := "/home/dev" ]};
     getwd := ("/go/src/app", None);
     tempDir := "/tmp";
     timeNow := "2017-06-01 10:00:00";
     remote := {[ AstilectronDownloadSrc lib := "ASTILECTRON";
                  ElectronDownloadSrc lib "linux" "amd64" := "ELECTRON-LINUX";
                  ElectronDownloadSrc lib "darwin" "amd64" := "ELECTRON-DARWIN" ]};
     denied := ∅;
     cancelAt := None;
     faults := ∅ |}.

Definition linux : ConfigurationEnvironment := mkEnv "amd64" "linux" "".
Definition darwin : ConfigurationEnvironment := mkEnv "amd64" "darwin" "".
Definition windows : ConfigurationEnvironment := mkEnv "amd64" "windows" "".

(** Environments with build tags: two tags, and a tag holding a separator. *)
Definition tagged : ConfigurationEnvironment := mkEnv "amd64" "linux" "gui debug".
Definition slashed : ConfigurationEnvironment := mkEnv "amd64" "linux" "a/b".


Definition config (envs : list ConfigurationEnvironment) (icon : string)
  : Configuration :=
  {| AppName := "Demo"; CachePath := ""; Environments := envs;
     IconPathDarwin := icon; IconPathLinux := ""; IconPathWindows := "";
     InputPath := ""; GoBinaryPath := ""; OutputPath := "/out";
     BindOutput := ""; BindPackage := ""; BindTags := "";
     AstilectronPath := ""; EnvironmentFilter := "" |}.

(** The bundler [New] builds, or an empty one when it refuses. *)
Definition bundler (c : Configuration) : Bundler :=
  match New lib machine c with
  | inl b => b
  | inr _ => mkBundler "" [] "" "" "" "" "" "" "" "" "" "" "" "" "" "" ""
  end.

Definition world : World :=
  {| host := machine;
     fs := {[ "/go/src/app/resources" := Dir;
              "/icons/demo.icns" := File 420 "ICON" ]};
     clock := 0;
     events := [] |}.

(** The project once the compiler has written the darwin binary. *)
Definition built : World :=
  mkWorld machine
    (<["/out/darwin-amd64/binary" := File 493 "BINARY"]>
       (<["/out/darwin-amd64" := Dir]> (fs world)))
    0 [].

(** The same project when the cache entry of the framework cannot be
    examined. *)
Definition deniedWorld : World :=
  mkWorld
    (mkHost (environ machine) (getwd machine) (tempDir machine)
       (timeNow machine) (remote machine)
       {[ "/tmp/astibundler/astilectron-0.6.0.zip" ]} None ∅)
    (fs world) 0 [].

End Demo.

(** * Properties *)

(** The path functions on a few inputs. *)

Example Clean_ex1 : filepath.Clean "/a//b/./c/../d/" = "/a/b/d".
Proof. reflexivity. Qed.
Example Clean_ex2 : filepath.Clean "../../a/.." = "../..".
Proof. reflexivity. Qed.
Example Clean_ex3 : filepath.Clean "/../a" = "/a".
Proof. reflexivity. Qed.
Example Clean_ex4 : filepath.Clean "a/.." = ".".
Proof. reflexivity. Qed.
Example Join_ex1 : filepath.Join ["/out"; "linux"] = "/out/linux".
Proof. reflexivity. Qed.
Example Join_ex2 : filepath.Join [""; ""; "a"; ""; "b"] = "a/b".
Proof. reflexivity. Qed.
Example Base_ex1 : filepath.Base "/out/linux-a/b-amd64//" = "b-amd64".
Proof. reflexivity. Qed.
Example Base_ex2 : filepath.Base "///" = "/".
Proof. reflexivity. Qed.
Example Ext_ex1 : filepath.Ext "/icons/app.v2/icon.icns" = ".icns".
Proof. reflexivity. Qed.
Example Ext_ex2 : filepath.Ext "/icons/app.v2/icon" = "".
Proof. reflexivity. Qed.

(** ** Strings *)

Lemma sapp_cons c (a b : string) : String c a +:+ b = String c (a +:+ b).
Proof. reflexivity. Qed.

Lemma sapp_nil_r (a : string) : a +:+ "" = a.
Proof. induction a as [|c a IH]; [done|]. by rewrite sapp_cons, IH. Qed.

Lemma sapp_assoc (a b c : string) : (a +:+ b) +:+ c = a +:+ b +:+ c.
Proof. induction a as [|x a IH]; [done|]. by rewrite !sapp_cons, IH. Qed.

Lemma sapp_eq_nil (a b : string) : a +:+ b = "" → a = "" ∧ b = "".
Proof. destruct a; [done|]. by rewrite sapp_cons. Qed.

Lemma sapp_length (a b : string) :
  String.length (a +:+ b) = String.length a + String.length b.
Proof. induction a as [|x a IH]; [done|]. rewrite sapp_cons. simpl. by rewrite IH. Qed.

Lemma hasSep_app (a b : string) :
  Str.hasSep (a +:+ b) = Str.hasSep a || Str.hasSep b.
Proof.
  induction a as [|x a IH]; [done|].
  rewrite sapp_cons. simpl. by rewrite IH, orb_assoc.
Qed.

Lemma hasSep_replaceSpaces (s : string) :
  Str.hasSep (Str.replaceSpaces s) = Str.hasSep s.
Proof.
  induction s as [|c s IH]; [done|]. simpl. rewrite IH. f_equal.
  destruct (Ascii.eqb_spec c " "%char) as [->|]; done.
Qed.

Lemma split_nonempty (s : string) : Str.split s ≠ [].
Proof.
  induction s as [|c s IH]; [done|]. simpl.
  destruct (Str.isSep c); [done|]. by destruct (Str.split s).
Qed.

Lemma split_app_sep (a b : string) :
  Str.split (a +:+ "/" +:+ b) = Str.split a ++ Str.split b.
Proof.
  induction a as [|c a IH]; [done|].
  rewrite sapp_cons. simpl. rewrite IH.
  destruct (Str.isSep c); [done|].
  pose proof (split_nonempty a). by destruct (Str.split a).
Qed.

Lemma split_sepfree (s : string) : Str.hasSep s = false → Str.split s = [s].
Proof.
  induction s as [|c s IH]; [done|]. simpl.
  intros [Hc Hs]%orb_false_elim. rewrite Hc, (IH Hs). done.
Qed.

Lemma join_snoc (l : list string) (x : string) :
  l ≠ [] → Str.join (l ++ [x]) = Str.join l +:+ "/" +:+ x.
Proof.
  induction l as [|y l IH]; [done|]. intros _.
  destruct l as [|z l]; [done|].
  change (Str.join ((y :: z :: l) ++ [x]))
    with (y +:+ "/" +:+ Str.join ((z :: l) ++ [x])).
  rewrite IH by done.
  change (Str.join (y :: z :: l)) with (y +:+ "/" +:+ Str.join (z :: l)).
  by rewrite !sapp_assoc.
Qed.

(** ** Paths *)

Lemma plain_spec (n : string) :
  filepath.plain n = true ↔
  n ≠ "" ∧ Str.hasSep n = false ∧ n ≠ "." ∧ n ≠ "..".
Proof.
  unfold filepath.plain.
  rewrite !andb_true_iff, !negb_true_iff, !String.eqb_neq. tauto.
Qed.

Lemma cleanStep_plain (rooted : bool) (st : list string) (n : string) :
  filepath.plain n = true → filepath.cleanStep rooted st n = n :: st.
Proof.
  intros (H1 & _ & H2 & H3)%plain_spec. unfold filepath.cleanStep.
  apply String.eqb_neq in H1, H2, H3. by rewrite H1, H2, H3.
Qed.

Lemma IsAbs_app (p q : string) : p ≠ "" → filepath.IsAbs (p +:+ q) = filepath.IsAbs p.
Proof. by destruct p. Qed.

(** Cleaning a path that ends in a plain element keeps that element last. *)
Lemma Clean_snoc_stack (p n : string) :
  p ≠ "" → filepath.plain n = true →
  filepath.Clean (p +:+ "/" +:+ n) =
  (if filepath.IsAbs p then "/" else "")
  +:+ Str.join (rev (fold_left (filepath.cleanStep (filepath.IsAbs p)) (Str.split p) [])
                ++ [n]).
Proof.
  intros Hp Hn. unfold filepath.Clean.
  destruct (String.eqb_spec (p +:+ "/" +:+ n) "") as [[? _]%sapp_eq_nil|_]; [done|].
  rewrite IsAbs_app, split_app_sep, fold_left_app by done.
  rewrite split_sepfree by (by apply plain_spec in Hn as (_ & ? & _)).
  simpl fold_left. rewrite cleanStep_plain by done. simpl rev.
  by destruct (filepath.IsAbs p).
Qed.

Lemma cleanAbs_spec (p : string) :
  filepath.cleanAbs p = true ↔
  filepath.IsAbs p = true ∧ filepath.Clean p = p ∧ p ≠ "/".
Proof.
  unfold filepath.cleanAbs.
  rewrite !andb_true_iff, negb_true_iff, String.eqb_neq, String.eqb_eq. tauto.
Qed.

(** Below a cleaned absolute path, joining a plain element is appending it. *)
Lemma Clean_snoc (c n : string) :
  filepath.cleanAbs c = true → filepath.plain n = true →
  filepath.Clean (c +:+ "/" +:+ n) = c +:+ "/" +:+ n.
Proof.
  intros (Habs & Hc & Hroot)%cleanAbs_spec Hn.
  assert (c ≠ "") as Hne by (by destruct c).
  rewrite Clean_snoc_stack by done. rewrite Habs.
  revert Hc. unfold filepath.Clean.
  destruct (String.eqb_spec c "") as [|_]; [done|]. rewrite Habs.
  set (st := fold_left _ _ _). intros Hc.
  destruct (rev st) as [|x l] eqn:Hst.
  { by rewrite <- Hc in Hroot. }
  rewrite join_snoc by done. rewrite <- sapp_assoc. by rewrite Hc.
Qed.

Lemma cleanAbs_snoc (c n : string) :
  filepath.cleanAbs c = true → filepath.plain n = true →
  filepath.cleanAbs (c +:+ "/" +:+ n) = true.
Proof.
  intros Hc Hn. apply cleanAbs_spec. split_and!.
  - apply cleanAbs_spec in Hc as (? & _ & _). by destruct c.
  - by apply Clean_snoc.
  - apply cleanAbs_spec in Hc as (? & _ & ?). by destruct c as [|x [|y c]].
Qed.

Lemma Join2 (c n : string) :
  filepath.cleanAbs c = true → filepath.plain n = true →
  filepath.Join [c; n] = c +:+ "/" +:+ n.
Proof.
  intros Hc Hn. simpl.
  destruct (String.eqb_spec c "") as [->|_]; [done|]. by apply Clean_snoc.
Qed.

Lemma Join3 (c n1 n2 : string) :
  filepath.cleanAbs c = true → filepath.plain n1 = true → filepath.plain n2 = true →
  filepath.Join [c; n1; n2] = c +:+ "/" +:+ n1 +:+ "/" +:+ n2.
Proof.
  intros Hc H1 H2. simpl.
  destruct (String.eqb_spec c "") as [->|_]; [done|].
  rewrite <- (sapp_assoc c "/"), <- (sapp_assoc (c +:+ "/")), (sapp_assoc c "/" n1).
  rewrite Clean_snoc; [by rewrite !sapp_assoc | by apply cleanAbs_snoc | done].
Qed.

Lemma trimTrailing_sepfree (t : string) :
  Str.hasSep t = false → filepath.trimTrailing t = t.
Proof.
  induction t as [|c t IH]; [done|]. simpl.
  intros [Hc Ht]%orb_false_elim. by rewrite Hc, IH.
Qed.

Lemma trimTrailing_app (a t : string) :
  t ≠ "" → Str.hasSep t = false → filepath.trimTrailing (a +:+ t) = a +:+ t.
Proof.
  intros Hne Ht. induction a as [|c a IH].
  - by apply trimTrailing_sepfree.
  - rewrite sapp_cons. simpl. rewrite IH.
    destruct (String.eqb_spec (a +:+ t) "") as [[_ ?]%sapp_eq_nil|_]; [done|].
    by rewrite andb_false_r.
Qed.

(** The base of a path is its last element. *)
Lemma Base_snoc (y t : string) :
  t ≠ "" → Str.hasSep t = false → filepath.Base (y +:+ "/" +:+ t) = t.
Proof.
  intros Hne Ht. unfold filepath.Base.
  destruct (String.eqb_spec (y +:+ "/" +:+ t) "") as [[_ ?]%sapp_eq_nil|_]; [done|].
  rewrite <- sapp_assoc. rewrite (trimTrailing_app (y +:+ "/") t Hne Ht). rewrite sapp_assoc.
  rewrite split_app_sep, (split_sepfree t), List.last_last by done.
  by apply String.eqb_neq in Hne as ->.
Qed.

Lemma Base_sepfree (t : string) :
  t ≠ "" → Str.hasSep t = false → filepath.Base t = t.
Proof.
  intros Hne Ht. unfold filepath.Base.
  apply String.eqb_neq in Hne as Hne'. rewrite Hne'.
  rewrite trimTrailing_sepfree, split_sepfree by done. simpl. by rewrite Hne'.
Qed.

Lemma Clean_plain (n : string) : filepath.plain n = true → filepath.Clean n = n.
Proof.
  intros Hn. pose proof Hn as (Hne & Hs & _)%plain_spec. unfold filepath.Clean.
  apply String.eqb_neq in Hne as ->.
  assert (filepath.IsAbs n = false) as ->.
  { destruct n as [|c n]; [done|]. simpl in *. by apply orb_false_elim in Hs as [? _]. }
  rewrite split_sepfree by done. simpl. by rewrite cleanStep_plain.
Qed.

(** Whatever the first element, joining a plain element to it gives a path
    whose last element is that one. *)
Lemma Join2_shape (p n : string) :
  filepath.plain n = true →
  filepath.Join [p; n] = n ∨ ∃ y, filepath.Join [p; n] = y +:+ "/" +:+ n.
Proof.
  intros Hn. pose proof Hn as (Hne & _)%plain_spec. simpl.
  destruct (String.eqb_spec p "") as [->|Hp].
  - apply String.eqb_neq in Hne as ->. left. by apply Clean_plain.
  - rewrite Clean_snoc_stack by done.
    destruct (rev _) as [|x l].
    + destruct (filepath.IsAbs p); [right; by exists ""|by left].
    + right. rewrite join_snoc by done. rewrite <- sapp_assoc. eauto.
Qed.

(** ** The two names of an environment *)

Lemma eName_assoc (e : ConfigurationEnvironment) :
  eName e =
  OS e +:+ "-" +:+
    (if nonEmpty (Tags e) then Str.replaceSpaces (Tags e) +:+ "-" else "") +:+ Arch e.
Proof.
  unfold eName, nonEmpty. destruct (negb _); by rewrite ?sapp_assoc.
Qed.

Lemma environmentPath_assoc (b : Bundler) (e : ConfigurationEnvironment) :
  environmentPath b e =
  filepath.Join [pathOutput b; OS e] +:+ "-" +:+
    (if nonEmpty (Tags e) then Str.replaceSpaces (Tags e) +:+ "-" else "") +:+ Arch e.
Proof.
  unfold environmentPath. destruct (nonEmpty _); by rewrite ?sapp_assoc.
Qed.

Lemma eName_sepfree (e : ConfigurationEnvironment) :
  Str.hasSep (OS e) = false → Str.hasSep (Tags e) = false → Str.hasSep (Arch e) = false →
  Str.hasSep (eName e) = false.
Proof.
  intros Ho Ht Ha. rewrite eName_assoc.
  destruct (nonEmpty _);
    by rewrite !hasSep_app, ?hasSep_replaceSpaces, Ho, ?Ht, Ha.
Qed.

Lemma environmentPath_eName (b : Bundler) (e : ConfigurationEnvironment) :
  filepath.plain (OS e) = true →
  environmentPath b e = eName e ∨ ∃ y, environmentPath b e = y +:+ "/" +:+ eName e.
Proof.
  intros Ho. rewrite environmentPath_assoc, eName_assoc.
  destruct (Join2_shape (pathOutput b) (OS e) Ho) as [->|[y ->]]; [by left|].
  right. exists y. by rewrite !sapp_assoc.
Qed.

(** C10, as amended: for an environment whose OS is a plain path element and
    whose tags and architecture hold no path separator, the name [Bundle]
    matches the filter against is the base name of the folder [bundle]
    removes and creates. *)
Theorem eName_is_Base_environmentPath (b : Bundler) (e : ConfigurationEnvironment) :
  filepath.plain (OS e) = true →
  Str.hasSep (Tags e) = false →
  Str.hasSep (Arch e) = false →
  filepath.Base (environmentPath b e) = eName e.
Proof.
  intros Ho Ht Ha. pose proof Ho as (Hne & Hs & _)%plain_spec.
  assert (eName e ≠ "") as Hn.
  { rewrite eName_assoc. by destruct (OS e). }
  pose proof (eName_sepfree e Hs Ht Ha) as Hsf.
  destruct (environmentPath_eName b e Ho) as [->|[y ->]].
  - by apply Base_sepfree.
  - by apply Base_snoc.
Qed.

(** ** Paths below a directory *)

Lemma stripPrefix_app (d r : string) : stripPrefix d (d +:+ r) = Some r.
Proof.
  induction d as [|c d IH]; [done|]. rewrite sapp_cons. simpl.
  by rewrite Ascii.eqb_refl.
Qed.

Lemma stripPrefix_Some (d p r : string) : stripPrefix d p = Some r → p = d +:+ r.
Proof.
  revert p. induction d as [|c d IH]; intros p; simpl.
  - by intros [= ->].
  - destruct p as [|x p]; [done|].
    destruct (Ascii.eqb_spec c x) as [->|]; [|done].
    intros ->%IH. by rewrite sapp_cons.
Qed.

Lemma inside_spec (d p : string) :
  inside d p = true ↔ ∃ r, p = d +:+ "/" +:+ r.
Proof.
  unfold inside. split.
  - destruct (stripPrefix d p) as [[|c r]|] eqn:H; try done.
    intros ->%Ascii.eqb_eq. exists r. by apply stripPrefix_Some in H.
  - intros [r ->]. by rewrite stripPrefix_app.
Qed.

Lemma under_spec (d p : string) :
  under d p = true ↔ p = d ∨ inside d p = true.
Proof.
  unfold under, inside. split.
  - destruct (stripPrefix d p) as [[|c r]|] eqn:H; try done; [|by right].
    intros _. left. apply stripPrefix_Some in H. by rewrite sapp_nil_r in H.
  - intros [->|H].
    + by rewrite <- (sapp_nil_r d) at 2; rewrite stripPrefix_app.
    + by destruct (stripPrefix d p) as [[|c r]|].
Qed.

Lemma under_refl (d : string) : under d d = true.
Proof. apply under_spec. by left. Qed.

Lemma inside_under (d p : string) : inside d p = true → under d p = true.
Proof. intros. apply under_spec. by right. Qed.

Lemma inside_length (d p : string) :
  inside d p = true → String.length d < String.length p.
Proof. intros [r ->]%inside_spec. rewrite !sapp_length. simpl. lia. Qed.

Lemma inside_irrefl (d : string) : inside d d = false.
Proof.
  destruct (inside d d) eqn:H; [|done]. apply inside_length in H. lia.
Qed.

Lemma inside_trans (a b c : string) :
  inside a b = true → under b c = true → inside a c = true.
Proof.
  intros [r ->]%inside_spec [->|[r' ->]%inside_spec]%under_spec;
    apply inside_spec; [by eexists|].
  exists (r +:+ "/" +:+ r'). by rewrite !sapp_assoc.
Qed.

Lemma under_trans (a b c : string) :
  under a b = true → under b c = true → under a c = true.
Proof.
  intros [->|H]%under_spec ?; [done|]. apply inside_under. by eapply inside_trans.
Qed.

Lemma inside_snoc (d n : string) : inside d (d +:+ "/" +:+ n) = true.
Proof. apply inside_spec. by eexists. Qed.

(** Two different plain children of a directory are not below each other. *)
Lemma under_sibling (d n1 n2 p : string) :
  Str.hasSep n1 = false → Str.hasSep n2 = false → n1 ≠ n2 →
  under (d +:+ "/" +:+ n1) p = true → under (d +:+ "/" +:+ n2) p = false.
Proof.
  intros H1 H2 Hne Hp. destruct (under (d +:+ "/" +:+ n2) p) eqn:Hq; [|done].
  exfalso. apply Hne.
  assert (∀ a b x y : string, Str.hasSep a = false → Str.hasSep b = false →
            a +:+ x = b +:+ y → (x = "" ∨ ∃ r, x = "/" +:+ r) →
            (y = "" ∨ ∃ r, y = "/" +:+ r) → a = b) as Haux.
  { clear. induction a as [|c a IH]; intros [|c' b] x y Ha Hb Heq Hx Hy; try done.
    - simpl in Hb. apply orb_false_elim in Hb as [Hb _].
      destruct Hx as [->|[r ->]]; [done|]. injection Heq as <- _. done.
    - simpl in Ha. apply orb_false_elim in Ha as [Ha _].
      destruct Hy as [->|[r ->]]; [done|]. injection Heq as -> _. done.
    - simpl in Ha, Hb. apply orb_false_elim in Ha as [_ Ha], Hb as [_ Hb].
      rewrite !sapp_cons in Heq. injection Heq as -> Heq. f_equal. eauto. }
  apply under_spec in Hp as [->|[r ->]%inside_spec];
    apply under_spec in Hq as [Hq|[r' Hq]%inside_spec];
    rewrite ?sapp_assoc in Hq; do 2 apply (inj _) in Hq.
  - done.
  - apply (Haux n1 n2 "" ("/" +:+ r')); [done|done| |by left|right; eauto].
    by rewrite sapp_nil_r.
  - apply (Haux n1 n2 ("/" +:+ r) ""); [done|done| |right; eauto|by left].
    by rewrite sapp_nil_r.
  - apply (Haux n1 n2 ("/" +:+ r) ("/" +:+ r')); [done|done|done|right; eauto..].
Qed.

(** ** The directories of [MkdirAll] *)

Lemma join_split (p : string) : Str.join (Str.split p) = p.
Proof.
  induction p as [|c p IH]; [done|]. simpl.
  pose proof (split_nonempty p) as Hne.
  destruct (Str.isSep c) eqn:Hc.
  - apply Ascii.eqb_eq in Hc as ->.
    destruct (Str.split p) as [|h t]; [done|].
    change (Str.join ("" :: h :: t)) with ("" +:+ "/" +:+ Str.join (h :: t)).
    by rewrite IH.
  - destruct (Str.split p) as [|h [|h' t]]; [done|..].
    + simpl in *. by rewrite IH.
    + change (Str.join (String c h :: h' :: t))
        with (String c (h +:+ "/" +:+ Str.join (h' :: t))).
      by rewrite <- IH.
Qed.

Lemma join_app (l1 l2 : list string) :
  l1 ≠ [] → l2 ≠ [] → Str.join (l1 ++ l2) = Str.join l1 +:+ "/" +:+ Str.join l2.
Proof.
  intros H1 H2. induction l1 as [|x l1 IH]; [done|].
  destruct l1 as [|y l1].
  - destruct l2; done.
  - change (Str.join ((x :: y :: l1) ++ l2))
      with (x +:+ "/" +:+ Str.join ((y :: l1) ++ l2)).
    rewrite IH by done.
    change (Str.join (x :: y :: l1)) with (x +:+ "/" +:+ Str.join (y :: l1)).
    by rewrite !sapp_assoc.
Qed.

Lemma elem_of_inits (l l' : list string) :
  l' ∈ inits l → l' ≠ [] ∧ ∃ k, l = l' ++ k.
Proof.
  revert l'. induction l as [|x l IH]; intros l'; simpl.
  - by intros ?%elem_of_nil.
  - intros [->|(l'' & -> & [? [k ->]]%IH)%list_elem_of_fmap]%elem_of_cons.
    + split; [done|]. by exists l.
    + split; [done|]. by exists k.
Qed.

Lemma inits_self (l : list string) : l ≠ [] → l ∈ inits l.
Proof.
  induction l as [|x l IH]; [done|]. intros _. simpl.
  destruct l as [|y l]; [by left|].
  right. apply list_elem_of_fmap. exists (y :: l). split; [done|]. by apply IH.
Qed.


Lemma dirsOf_self (p : string) : p ≠ "" → p ∈ dirsOf p.
Proof.
  intros Hp. unfold dirsOf. apply list_elem_of_filter. split; [done|].
  apply list_elem_of_fmap. exists (Str.split p). split; [by rewrite join_split|].
  apply inits_self, split_nonempty.
Qed.


Lemma mkdirs_keeps ds (m m' : gmap string node) e p n :
  mkdirs ds m = (m', e) → m !! p = Some n → m' !! p = Some n.
Proof.
  revert m. induction ds as [|d ds IH]; intros m; simpl.
  - by intros [= <- _].
  - destruct (m !! d) as [[]|] eqn:Hd; [by intros [= <- _]|by apply IH|].
    intros H Hp. eapply IH; [done|].
    rewrite lookup_insert_ne; [done|]. intros ->. congruence.
Qed.

Lemma mkdirs_adds ds (m m' : gmap string node) e p n :
  mkdirs ds m = (m', e) → m' !! p = Some n → m !! p = Some n ∨ (p ∈ ds ∧ n = Dir).
Proof.
  revert m. induction ds as [|d ds IH]; intros m; simpl.
  - intros [= <- _]. by left.
  - destruct (m !! d) as [[]|] eqn:Hd.
    + intros [= <- _]. by left.
    + intros H Hp. destruct (IH _ H Hp) as [?|[? ?]]; [by left|right].
      split; [by right|done].
    + intros H Hp. destruct (IH _ H Hp) as [Hl|[? ?]].
      * destruct (decide (d = p)) as [->|Hne].
        -- rewrite lookup_insert_eq in Hl. injection Hl as <-. right. split; [by left|done].
        -- rewrite lookup_insert_ne in Hl by done. by left.
      * right. split; [by right|done].
Qed.

Lemma mkdirs_ok ds (m m' : gmap string node) d :
  mkdirs ds m = (m', None) → d ∈ ds → m' !! d = Some Dir.
Proof.
  revert m. induction ds as [|x ds IH]; intros m; simpl.
  - by intros _ ?%elem_of_nil.
  - destruct (m !! x) as [[]|] eqn:Hx; [done|..]; intros H [->|Hd]%elem_of_cons; eauto.
    + eapply mkdirs_keeps; done.
    + eapply mkdirs_keeps; [done|]. apply lookup_insert_eq.
Qed.

(** ** What a copied tree is made of *)

Lemma rerooted_under (src dst : string) (m : gmap string node) k n :
  rerooted src dst m !! k = Some n → under dst k = true.
Proof.
  unfold rerooted. intros H%elem_of_list_to_map_2.
  apply list_elem_of_omap in H as ([k0 n0] & Hin & Heq).
  apply elem_of_map_to_list, map_lookup_filter_Some in Hin as [_ Hu].
  simpl in *. destruct (stripPrefix src k0) as [r|] eqn:Hs; [|done].
  injection Heq as <- <-. apply under_spec.
  unfold under in Hu. rewrite Hs in Hu. destruct r as [|c r].
  - left. apply sapp_nil_r.
  - right. apply Ascii.eqb_eq in Hu as ->. apply inside_snoc.
Qed.

Lemma without_lookup (d : string) (m : gmap string node) p :
  without d m !! p = if under d p then None else m !! p.
Proof.
  unfold without. destruct (under d p) eqn:Hu.
  - apply map_lookup_filter_None. right. intros n _. simpl. by rewrite Hu.
  - destruct (m !! p) as [n|] eqn:Hp.
    + by apply map_lookup_filter_Some.
    + apply map_lookup_filter_None. by left.
Qed.

(** ** Frames of the combinators *)

Ltac io_cases :=
  repeat (simplify_eq/=; try case_match); simplify_eq/=.



Lemma sameHost_ret : sameHost ret.
Proof. by intros w w' r [= <- _]. Qed.

Lemma sameHost_fail e : sameHost (fail e).
Proof. by intros w w' r [= <- _]. Qed.

Lemma sameHost_checkCtx : sameHost checkCtx.
Proof. by intros w w' r [= <- _]. Qed.

Lemma sameHost_andThen m k : sameHost m → sameHost k → sameHost (m >> k).
Proof.
  intros Hm Hk w w' r. unfold andThen.
  destruct (m w) as [w1 [e|]] eqn:E.
  - intros [= <- _]. eauto.
  - intros ->%Hk. eauto.
Qed.

Lemma keeps_wrapping S msg m : keeps S m → keeps S (wrapping msg m).
Proof.
  intros Hm w w' r p n. unfold wrapping.
  destruct (m w) as [w1 [e|]] eqn:E; intros [= <- _]; eauto.
Qed.
Lemma sameHost_wrapping msg m : sameHost m → sameHost (wrapping msg m).
Proof.
  intros Hm w w' r. unfold wrapping.
  destruct (m w) as [w1 [e|]] eqn:E; intros [= <- _]; eauto.
Qed.

Lemma keeps_syscall S op body : keeps S body → keeps S (syscall op body).
Proof.
  intros H w w' r p n. unfold syscall. destruct (faulty w).
  - by intros [= <- _].
  - intros Hb. by apply (H _ _ _ _ _ Hb).
Qed.
Lemma adds_syscall T op body : adds T body → adds T (syscall op body).
Proof.
  intros H w w' r p n. unfold syscall. destruct (faulty w).
  - intros [= <- _]. by left.
  - intros Hb. by apply (H _ _ _ _ _ Hb).
Qed.
Lemma sameHost_syscall op body : sameHost body → sameHost (syscall op body).
Proof.
  intros H w w' r. unfold syscall. destruct (faulty w).
  - by intros [= <- _].
  - by intros ->%H.
Qed.

Lemma keeps_ctxcall S op body : keeps S body → keeps S (ctxcall op body).
Proof.
  intros H w w' r p n. unfold ctxcall. destruct (fired w).
  - by intros [= <- _].
  - by apply keeps_syscall.
Qed.
Lemma adds_ctxcall T op body : adds T body → adds T (ctxcall op body).
Proof.
  intros H w w' r p n. unfold ctxcall. destruct (fired w).
  - intros [= <- _]. by left.
  - by apply adds_syscall.
Qed.
Lemma sameHost_ctxcall op body : sameHost body → sameHost (ctxcall op body).
Proof.
  intros H w w' r. unfold ctxcall. destruct (fired w).
  - by intros [= <- _].
  - by apply sameHost_syscall.
Qed.

(** ** Frames of the calls *)

Lemma keeps_RemoveAll d : keeps (λ p, under d p = true) (os_RemoveAll d).
Proof.
  apply keeps_syscall. intros w w' r p n Hm Hp Hl. io_cases; [done|].
  rewrite without_lookup. by destruct (under d p).
Qed.
Lemma sameHost_RemoveAll d : sameHost (os_RemoveAll d).
Proof. apply sameHost_syscall. intros w w' r Hm. by io_cases. Qed.

(** After it, nothing is left at the path or below. *)
Lemma RemoveAll_gone d w w' p :
  d ≠ "" → os_RemoveAll d w = (w', None) → under d p = true → fs w' !! p = None.
Proof.
  unfold os_RemoveAll, syscall. intros Hd Hm Hp.
  apply String.eqb_neq in Hd. rewrite Hd in Hm. io_cases.
  by rewrite without_lookup, Hp.
Qed.

Lemma keeps_MkdirAll S d perm : keeps S (os_MkdirAll d perm).
Proof.
  apply keeps_syscall. intros w w' r p n Hm _ Hl.
  destruct (mkdirs (dirsOf d) (fs (w))) as [m e] eqn:E. io_cases.
  by eapply mkdirs_keeps.
Qed.
Lemma adds_MkdirAll d perm : adds (λ p, p ∈ dirsOf d) (os_MkdirAll d perm).
Proof.
  apply adds_syscall. intros w w' r p n Hm Hl.
  destruct (mkdirs (dirsOf d) (fs (w))) as [m e] eqn:E. io_cases.
  destruct (mkdirs_adds _ _ _ _ _ _ E Hl) as [?|[? _]]; eauto.
Qed.
Lemma sameHost_MkdirAll d perm : sameHost (os_MkdirAll d perm).
Proof.
  apply sameHost_syscall. intros w w' r Hm.
  destruct (mkdirs (dirsOf d) (fs (w))) as [m e] eqn:E. by io_cases.
Qed.
Lemma MkdirAll_ok d perm w w' :
  d ≠ "" → os_MkdirAll d perm w = (w', None) → fs w' !! d = Some Dir.
Proof.
  unfold os_MkdirAll, syscall. intros Hd Hm. destruct (faulty w); [done|].
  destruct (mkdirs (dirsOf d) (fs (tick w))) as [m e] eqn:E. io_cases.
  eapply mkdirs_ok; [done|]. by apply dirsOf_self.
Qed.

Lemma sameHost_Chmod q mode : sameHost (os_Chmod q mode).
Proof. apply sameHost_syscall. intros w w' r Hm. by io_cases. Qed.

Lemma sameHost_WriteFile q data perm : sameHost (ioutil_WriteFile q data perm).
Proof. apply sameHost_syscall. intros w w' r Hm. by io_cases. Qed.

Lemma keeps_place src dst : keeps (λ p, under dst p = true) (place src dst).
Proof.
  intros w w' r p n Hm Hp Hl. unfold place in Hm. io_cases; try done.
  - rewrite lookup_insert_ne; [done|]. intros ->. by rewrite under_refl in Hp.
  - rewrite lookup_insert_ne; [done|]. intros ->. by rewrite under_refl in Hp.
  - rewrite lookup_insert_ne by (intros ->; by rewrite under_refl in Hp).
    apply lookup_union_Some_raw. right. split; [|done].
    destruct (rerooted src dst (fs w) !! p) eqn:E; [|done].
    by apply rerooted_under in E.
Qed.
Lemma adds_place src dst : adds (λ p, under dst p = true) (place src dst).
Proof.
  intros w w' r p n Hm Hl. unfold place in Hm. io_cases; eauto.
  - destruct (decide (dst = p)) as [->|]; [right; apply under_refl|].
    rewrite lookup_insert_ne in Hl; eauto.
  - destruct (decide (dst = p)) as [->|]; [right; apply under_refl|].
    rewrite lookup_insert_ne in Hl; eauto.
  - destruct (decide (dst = p)) as [->|]; [right; apply under_refl|].
    rewrite lookup_insert_ne in Hl by done.
    apply lookup_union_Some_raw in Hl as [?%rerooted_under|[_ ?]]; eauto.
Qed.
Lemma sameHost_place src dst : sameHost (place src dst).
Proof. intros w w' r Hm. unfold place in Hm. by io_cases. Qed.

Lemma keeps_Copy src dst : keeps (λ p, under dst p = true) (astios_Copy src dst).
Proof. apply keeps_ctxcall, keeps_place. Qed.
Lemma adds_Copy src dst : adds (λ p, under dst p = true) (astios_Copy src dst).
Proof. apply adds_ctxcall, adds_place. Qed.
Lemma sameHost_Copy src dst : sameHost (astios_Copy src dst).
Proof. apply sameHost_ctxcall, sameHost_place. Qed.

Lemma keeps_Move src dst :
  keeps (λ p, under src p = true ∨ under dst p = true) (astios_Move src dst).
Proof.
  apply keeps_ctxcall. intros w w' r p n Hm Hp Hl.
  assert (under src p = false ∧ under dst p = false) as [Hs Hd].
  { destruct (under src p), (under dst p); naive_solver. }
  destruct (fs w !! src) as [k|] eqn:Hsrc;
    destruct (place src dst w) as [w1 [e|]] eqn:Hpl; simplify_eq/=;
    try (eapply keeps_place; [done| |done]; congruence).
  destruct k.
  - rewrite lookup_insert_ne, lookup_delete_ne; [done|..]; intros ->;
      by rewrite under_refl in *.
  - rewrite lookup_insert_ne by (intros ->; by rewrite under_refl in Hd).
    apply lookup_union_Some_raw. right. split.
    + destruct (rerooted src dst (fs w) !! p) eqn:E; [|done].
      apply rerooted_under in E. congruence.
    + by rewrite without_lookup, Hs.
Qed.
Lemma sameHost_Move src dst : sameHost (astios_Move src dst).
Proof.
  apply sameHost_ctxcall. intros w w' r Hm.
  destruct (fs w !! src) as [k|] eqn:Hsrc;
    destruct (place src dst w) as [w1 [e|]] eqn:Hpl; simplify_eq/=;
    by apply sameHost_place in Hpl.
Qed.

Lemma sameHost_Download src dst : sameHost (astilectron_Download src dst).
Proof. apply sameHost_ctxcall. intros w w' r Hm. by io_cases. Qed.

Lemma sameHost_Zip src dst root : sameHost (astizip_Zip src dst root).
Proof. apply sameHost_ctxcall. intros w w' r Hm. by io_cases. Qed.

Lemma sameHost_Translate c : sameHost (bindata_Translate c).
Proof. apply sameHost_syscall. intros w w' r Hm. by io_cases. Qed.

Lemma sameHost_Embed out arch icon : sameHost (rsrc_Embed out arch icon).
Proof. apply sameHost_syscall. intros w w' r Hm. by io_cases. Qed.

(** The compiler writes where [-o] says. *)
Lemma ldflags_string_head b e h :
  ∃ r, ldflags_string (buildLdflags b e h) = "-X" +:+ r.
Proof.
  unfold buildLdflags, ldflags_string. destruct (String.eqb (OS e) "windows"); simpl;
    eexists; reflexivity.
Qed.

Lemma buildCmd_outputArg b e h binaryPath :
  outputArg (tail (Args (buildCmd b e h binaryPath))) = Some binaryPath.
Proof.
  simpl. destruct (ldflags_string_head b e h) as [r ->]. reflexivity.
Qed.

Lemma sameHost_build b e binaryPath : sameHost (build b e binaryPath).
Proof.
  intros w w' r Hm. unfold build, exec_CombinedOutput in Hm.
  rewrite buildCmd_outputArg in Hm. by io_cases.
Qed.

(** ** What a successful step has done *)

Lemma andThen_ok (m k : io) w w' :
  (m >> k) w = (w', None) → ∃ w1, m w = (w1, None) ∧ k w1 = (w', None).
Proof.
  unfold andThen. destruct (m w) as [w1 [e|]]; [done|]. eauto.
Qed.

Lemma wrapping_ok msg (m : io) w w' :
  wrapping msg m w = (w', None) → m w = (w', None).
Proof. unfold wrapping. by destruct (m w) as [w1 [e|]]. Qed.

Lemma checkCtx_ok w w' :
  checkCtx w = (w', None) → w' = tick w ∧ fired w = false.
Proof.
  unfold checkCtx, ctxErr. destruct (fired w); [done|]. by intros [= <-].
Qed.

Lemma syscall_ok op body w w' :
  syscall op body w = (w', None) → faulty w = false ∧ body (tick w) = (w', None).
Proof. unfold syscall. by destruct (faulty w). Qed.

Lemma ctxcall_ok op body w w' :
  ctxcall op body w = (w', None) →
  fired w = false ∧ faulty w = false ∧ body (tick w) = (w', None).
Proof.
  unfold ctxcall. destruct (fired w); [done|]. by intros [??]%syscall_ok.
Qed.

Lemma place_ok src dst w w' :
  place src dst w = (w', None) →
  ∃ n, fs w !! src = Some n ∧ (src ∉ denied (host w))
       ∧ fs w' !! dst = Some n
       ∧ events w' = events w ∧ host w' = host w ∧ clock w' = clock w
       ∧ (∀ m d, n = File m d → fs w' = <[dst := n]> (fs w)).
Proof.
  unfold place. case_bool_decide; [done|].
  destruct (fs w !! src) as [[m d|]|] eqn:Hs; [| |done].
  - destruct (fs w !! dst) as [[]|] eqn:Hd; intros [= <-]; simpl;
      (eexists; split_and!; try done; by rewrite lookup_insert_eq).
  - intros [= <-]. simpl.
    eexists; split_and!; try done; by rewrite lookup_insert_eq.
Qed.

Lemma Copy_ok src dst w w' :
  astios_Copy src dst w = (w', None) →
  ∃ n, fs w !! src = Some n ∧ (src ∉ denied (host w))
       ∧ fs w' !! dst = Some n
       ∧ events w' = events w ∧ host w' = host w ∧ clock w' = S (clock w)
       ∧ (∀ m d, n = File m d → fs w' = <[dst := n]> (fs w)).
Proof.
  intros (_ & _ & H)%ctxcall_ok. apply place_ok in H as (n & ?). exists n. naive_solver.
Qed.

Lemma Download_ok src dst w w' :
  astilectron_Download src dst w = (w', None) →
  ∃ body, remote (host w) !! src = Some body
          ∧ fs w' = <[dst := File 420 body]> (fs w)
          ∧ events w' = events w ++ [EvFetch src dst]
          ∧ host w' = host w ∧ clock w' = S (clock w).
Proof.
  intros (_ & _ & H)%ctxcall_ok. simpl in H.
  destruct (remote (host w) !! src) as [body|]; [|done].
  exists body. destruct (fs w !! dst) as [[]|]; by simplify_eq/=.
Qed.

Lemma Stat_result p w :
  os_Stat p w
  = (tick w,
     if bool_decide (p ∈ denied (host w)) then Some (ErrPermission p)
     else match fs w !! p with Some _ => None | None => Some (ErrNotExist p) end).
Proof. done. Qed.

Lemma Chmod_ok p mode w w' :
  os_Chmod p mode w = (w', None) →
  host w' = host w ∧
  ((∃ m d, fs w !! p = Some (File m d) ∧ fs w' = <[p := File mode d]> (fs w))
   ∨ (fs w !! p = Some Dir ∧ fs w' = fs w)).
Proof.
  intros [_ H]%syscall_ok. simpl in H. case_bool_decide; [done|].
  destruct (fs w !! p) as [[m d|]|]; simplify_eq/=; naive_solver.
Qed.

Lemma WriteFile_ok p data perm w w' :
  ioutil_WriteFile p data perm w = (w', None) →
  ∃ m, fs w' = <[p := File m data]> (fs w)
       ∧ (fs w !! p = None → m = perm).
Proof.
  intros [_ H]%syscall_ok. simpl in H.
  destruct (fs w !! p) as [[m d|]|]; simplify_eq/=; eexists; split; done.
Qed.

Lemma Move_ok src dst w w' :
  astios_Move src dst w = (w', None) →
  ∃ n, fs w !! src = Some n ∧ fs w' !! dst = Some n
       ∧ (∀ m d, n = File m d → fs w' = <[dst := n]> (delete src (fs w))).
Proof.
  intros (_ & _ & H)%ctxcall_ok. simpl in H.
  destruct (fs w !! src) as [n|] eqn:Hs.
  - destruct (place src dst (tick w)) as [w1 [e|]] eqn:Hp; [done|].
    injection H as <-. exists n. simpl. split; [done|].
    destruct n; (split; [by rewrite lookup_insert_eq|done]).
  - unfold place in H. case_bool_decide; [done|]. simpl in H. by rewrite Hs in H.
Qed.

(** ** [absPath] *)

Lemma IsAbs_Clean (p : string) :
  filepath.IsAbs p = true → filepath.IsAbs (filepath.Clean p) = true.
Proof.
  intros H. unfold filepath.Clean. rewrite H.
  by destruct (String.eqb_spec p "") as [->|_].
Qed.

Lemma IsAbs_Join2 (wd p : string) :
  filepath.IsAbs wd = true → filepath.IsAbs (filepath.Join [wd; p]) = true.
Proof.
  intros H. simpl. destruct (String.eqb_spec wd "") as [->|Hne]; [done|].
  apply IsAbs_Clean. by destruct wd.
Qed.

Lemma IsAbs_Abs {E} (wd : string) (e : option E) (p o : string) :
  filepath.IsAbs wd = true → filepath.Abs (wd, e) p = (o, None) →
  filepath.IsAbs o = true.
Proof.
  intros Hwd. unfold filepath.Abs. destruct (filepath.IsAbs p) eqn:Hp.
  - intros [= <-]. by apply IsAbs_Clean.
  - destruct e; [done|]. intros [= <-]. by apply IsAbs_Join2.
Qed.

(** C6: [absPath] on a non-empty path gives its absolute form and fails
    only when making it absolute fails, wrapping that failure; on an empty
    path it gives exactly what the default function gives, wrapping its
    failure; on an empty path with no default function it gives the empty
    path and no error. *)
Theorem absPath_resolves (h : Host) (c : ascii) (s : string)
    (fn : Host → string * option error)
    (d : option (Host → string * option error)) :
  let p := String c s in
  (∀ o, filepath.Abs (getwd h) p = (o, None) → absPath h p d = (o, None))
  ∧ (∀ o e, filepath.Abs (getwd h) p = (o, Some e) →
       absPath h p d = (o, Some (Wrap e ("filepath.Abs of " +:+ p +:+ " failed"))))
  ∧ (∀ o, filepath.IsAbs (getwd h).1 = true → absPath h p d = (o, None) →
       filepath.IsAbs o = true)
  ∧ (∀ o, fn h = (o, None) → absPath h "" (Some fn) = (o, None))
  ∧ (∀ o e, fn h = (o, Some e) →
       absPath h "" (Some fn)
       = (o, Some (Wrap e "default path function to compute absPath of  failed")))
  ∧ absPath h "" None = ("", None).
Proof.
  intros p. unfold absPath. change (nonEmpty p) with true.
  change (nonEmpty "") with false. cbv iota. split_and!.
  - by intros o ->.
  - by intros o e ->.
  - intros o Hwd. destruct (filepath.Abs (getwd h) p) as [o' [e|]] eqn:E; [done|].
    intros [= <-]. destruct (getwd h) as [wd e]. by eapply IsAbs_Abs.
  - by intros o ->.
  - by intros o e ->.
  - done.
Qed.

Lemma absPath_resolves_witness :
  absPath Demo.machine "out" None = ("/go/src/app/out", None)
  ∧ filepath.IsAbs "/go/src/app/out" = true
  ∧ absPath Demo.machine "" (Some os_Getwd) = ("/go/src/app", None).
Proof.
  destruct (absPath_resolves Demo.machine "o" "ut" os_Getwd None)
    as (H1 & _ & H3 & H4 & _ & _).
  split_and!.
  - apply H1. reflexivity.
  - apply H3; [reflexivity|]. apply H1. reflexivity.
  - apply H4. reflexivity.
Defined.

(** ** The environment of the compiler *)

(** C7: the compiler is started once, with an environment of exactly four
    entries, GOARCH, GOOS, GOPATH and PATH, and no other variable of the
    host changes what it is given. *)
Theorem compiler_environment (b : Bundler) (e : ConfigurationEnvironment)
    (binaryPath : string) (w : World) :
  (∃ c, events (build b e binaryPath w).1 = events w ++ [EvExec c]
        ∧ Env c = ["GOARCH=" +:+ Arch e; "GOOS=" +:+ OS e;
                   "GOPATH=" +:+ Getenv (host w) "GOPATH";
                   "PATH=" +:+ Getenv (host w) "PATH"]
        ∧ length (Env c) = 4)
  ∧ ∀ k v, k ≠ "GOPATH" → k ≠ "PATH" →
      Env (buildCmd b e (setenv k v (host w)) binaryPath)
      = Env (buildCmd b e (host w) binaryPath).
Proof.
  split.
  - exists (buildCmd b e (host w) binaryPath). split_and!; [|done..].
    unfold build, exec_CombinedOutput. rewrite buildCmd_outputArg.
    by repeat case_match; simplify_eq/=.
  - intros k v H1 H2. unfold buildCmd, Getenv, setenv. simpl.
    by rewrite !lookup_insert_ne.
Qed.

Lemma compiler_environment_witness :
  Env (buildCmd (Demo.bundler (Demo.config [Demo.linux] "")) Demo.linux
         (setenv "HOME" "/root" Demo.machine) "/out/linux-amd64/binary")
  = ["GOARCH=amd64"; "GOOS=linux"; "GOPATH=/go"; "PATH=/usr/bin"].
Proof.
  pose proof (compiler_environment (Demo.bundler (Demo.config [Demo.linux] ""))
                Demo.linux "/out/linux-amd64/binary" Demo.world) as [_ H].
  refine (eq_trans (H "HOME" "/root" _ _) _); [done|done|reflexivity].
Defined.

(** ** [provisionVendorZip] and the cache *)

Ltac run_io :=
  unfold provisionVendorZip, os_Stat, andThen, wrapping, checkCtx, ret,
    astilectron_Download, astios_Copy, ctxcall, syscall, place, ctxErr in *.

Lemma provisionVendorZip_unfold (b : Bundler) (src cache vend : string) (w : World) :
  provisionVendorZip b src cache vend w
  = ((if IsNotExist (os_Stat cache w).2
      then wrapping ("downloading " +:+ src +:+ " into " +:+ cache +:+ " failed")
             (astilectron_Download src cache)
      else ret)
     >> checkCtx
     >> wrapping ("copying " +:+ cache +:+ " to " +:+ vend +:+ " failed")
          (astios_Copy cache vend)
     >> checkCtx) (tick w).
Proof. done. Qed.

(** C9: whenever the stat of the cache path gives anything but a not-exist
    error, a permission error included, no download happens, the error of
    the stat is dropped, and the function goes on with the context check and
    the copy of the cache entry. *)
Theorem stat_error_counts_as_hit (b : Bundler) (src cache vend : string) (w : World) :
  (cache ∈ denied (host w) →
     (os_Stat cache w).2 = Some (ErrPermission cache)
     ∧ IsNotExist (os_Stat cache w).2 = false)
  ∧ (IsNotExist (os_Stat cache w).2 = false →
     provisionVendorZip b src cache vend w
     = (checkCtx
        >> wrapping ("copying " +:+ cache +:+ " to " +:+ vend +:+ " failed")
             (astios_Copy cache vend)
        >> checkCtx) (tick w)
     ∧ events (provisionVendorZip b src cache vend w).1 = events w).
Proof.
  split.
  - intros Hd. unfold os_Stat. simpl. by rewrite bool_decide_eq_true_2.
  - intros Hs. unfold provisionVendorZip.
    destruct (os_Stat cache w) as [w1 errStat] eqn:E. simpl in Hs. rewrite Hs.
    assert (w1 = tick w) as -> by (unfold os_Stat in E; by simplify_eq).
    split; [done|]. clear E Hs. run_io. by repeat case_match; simplify_eq/=.
Qed.

Lemma stat_error_counts_as_hit_witness :
  provisionVendorZip (Demo.bundler (Demo.config [Demo.linux] ""))
    (AstilectronDownloadSrc Demo.lib) "/tmp/astibundler/astilectron-0.6.0.zip"
    "/go/src/app/vendor/astilectron.zip" Demo.deniedWorld
  = (mkWorld (host Demo.deniedWorld) (fs Demo.deniedWorld) 3 [],
     Some (Wrap (ErrPermission "/tmp/astibundler/astilectron-0.6.0.zip")
             "copying /tmp/astibundler/astilectron-0.6.0.zip to /go/src/app/vendor/astilectron.zip failed")).
Proof.
  destruct (stat_error_counts_as_hit (Demo.bundler (Demo.config [Demo.linux] ""))
              (AstilectronDownloadSrc Demo.lib) "/tmp/astibundler/astilectron-0.6.0.zip"
              "/go/src/app/vendor/astilectron.zip" Demo.deniedWorld) as [H1 H2].
  destruct H2 as [-> _].
  - apply H1. vm_compute. reflexivity.
  - vm_compute. reflexivity.
Defined.

(** C2: on a cache miss a successful provisioning fetches once, into the
    cache path; with the cache entry in place a provisioning fetches
    nothing, whatever the server would now answer, writes the same vendor
    entry again and leaves the cache entry where it is; and right after the
    first one, with no cancellation and no outside failure, the second one
    succeeds. *)
Theorem cache_makes_provisioning_idempotent (b : Bundler) (src cache vend : string)
    (w0 w1 : World) :
  fs w0 !! cache = None →
  cache ∉ denied (host w0) →
  provisionVendorZip b src cache vend w0 = (w1, None) →
  (∃ body,
      remote (host w0) !! src = Some body
      ∧ events w1 = events w0 ++ [EvFetch src cache]
      ∧ fs w1 !! cache = Some (File 420 body)
      ∧ fs w1 !! vend = Some (File 420 body))
  ∧ (∀ w2 w3,
       denied (host w2) = denied (host w0) →
       fs w2 !! cache = fs w1 !! cache →
       provisionVendorZip b src cache vend w2 = (w3, None) →
       events w3 = events w2
       ∧ fs w3 !! vend = fs w1 !! vend
       ∧ fs w3 !! cache = fs w1 !! cache)
  ∧ (cancelAt (host w0) = None → faults (host w0) = ∅ →
     ∃ w3, provisionVendorZip b src cache vend w1 = (w3, None)).
Proof.
  intros Hmiss Hden Hrun.
  rewrite provisionVendorZip_unfold, Stat_result in Hrun. simpl in Hrun.
  rewrite bool_decide_eq_false_2, Hmiss in Hrun by done. simpl in Hrun.
  apply andThen_ok in Hrun as (wa & Hdl%wrapping_ok & Hrun).
  apply andThen_ok in Hrun as (wb & [-> _]%checkCtx_ok & Hrun).
  apply andThen_ok in Hrun as (wc & Hcp%wrapping_ok & [-> _]%checkCtx_ok).
  apply Download_ok in Hdl as (body & Hr & Hfa & Hea & Hha & Hka).
  apply Copy_ok in Hcp as (n & Hn & _ & Hv & Hec & Hhc & Hkc & Hfc).
  simpl in *. rewrite Hfa, lookup_insert_eq in Hn. injection Hn as <-.
  specialize (Hfc _ _ eq_refl).
  assert (fs wc !! cache = Some (File 420 body)) as Hc.
  { rewrite Hfc, Hfa. destruct (decide (vend = cache)) as [->|].
    - by rewrite lookup_insert_eq.
    - by rewrite lookup_insert_ne, lookup_insert_eq. }
  split_and!.
  - exists body. split_and!; [done| |done..]. by rewrite Hec, Hea.
  - intros w2 w3 Hd2 Hc2 Hrun2. rewrite Hc in Hc2. rewrite Hv, Hc.
    rewrite provisionVendorZip_unfold, Stat_result in Hrun2. simpl in Hrun2.
    rewrite Hd2, bool_decide_eq_false_2, Hc2 in Hrun2 by done. simpl in Hrun2.
    apply andThen_ok in Hrun2 as (? & [= <-] & Hrun2).
    apply andThen_ok in Hrun2 as (? & [-> _]%checkCtx_ok & Hrun2).
    apply andThen_ok in Hrun2 as (w5 & Hcp2%wrapping_ok & [-> _]%checkCtx_ok).
    apply Copy_ok in Hcp2 as (n & Hn & _ & Hv2 & He2 & _ & _ & Hf2).
    simpl in *. rewrite Hc2 in Hn. injection Hn as <-.
    specialize (Hf2 _ _ eq_refl). split_and!; [done..|].
    rewrite Hf2. destruct (decide (vend = cache)) as [->|].
    + by rewrite lookup_insert_eq.
    + by rewrite lookup_insert_ne.
  - intros Hcan Hf. rewrite provisionVendorZip_unfold, Stat_result. simpl.
    rewrite Hhc, Hha. simpl. rewrite bool_decide_eq_false_2, Hc by done. simpl.
    unfold andThen, wrapping, checkCtx, ctxErr, astios_Copy, ctxcall, syscall,
      place, fired, faulty. simpl.
    rewrite Hhc, Hha. simpl. rewrite Hcan, Hf.
    rewrite bool_decide_eq_false_2 by set_solver.
    rewrite bool_decide_eq_false_2, Hc, Hv by done. simpl.
    rewrite Hhc, Hha, Hcan. eauto.
Qed.

Lemma cache_makes_provisioning_idempotent_witness :
  ∃ body,
    remote Demo.machine !! AstilectronDownloadSrc Demo.lib = Some body
    ∧ events (provisionVendorZip (Demo.bundler (Demo.config [Demo.linux] ""))
                (AstilectronDownloadSrc Demo.lib)
                "/tmp/astibundler/astilectron-0.6.0.zip"
                "/go/src/app/vendor/astilectron.zip" Demo.world).1
      = [EvFetch (AstilectronDownloadSrc Demo.lib)
           "/tmp/astibundler/astilectron-0.6.0.zip"]
    ∧ fs (provisionVendorZip (Demo.bundler (Demo.config [Demo.linux] ""))
            (AstilectronDownloadSrc Demo.lib)
            "/tmp/astibundler/astilectron-0.6.0.zip"
            "/go/src/app/vendor/astilectron.zip" Demo.world).1
      !! "/tmp/astibundler/astilectron-0.6.0.zip" = Some (File 420 body)
    ∧ fs (provisionVendorZip (Demo.bundler (Demo.config [Demo.linux] ""))
            (AstilectronDownloadSrc Demo.lib)
            "/tmp/astibundler/astilectron-0.6.0.zip"
            "/go/src/app/vendor/astilectron.zip" Demo.world).1
      !! "/go/src/app/vendor/astilectron.zip" = Some (File 420 body).
Proof.
  refine (proj1 (cache_makes_provisioning_idempotent
                   (Demo.bundler (Demo.config [Demo.linux] ""))
                   (AstilectronDownloadSrc Demo.lib)
                   "/tmp/astibundler/astilectron-0.6.0.zip"
                   "/go/src/app/vendor/astilectron.zip" Demo.world _ _ _ _)).
  - vm_compute. reflexivity.
  - apply not_elem_of_empty.
  - vm_compute. reflexivity.
Defined.

Lemma eName_is_Base_environmentPath_witness :
  filepath.Base (environmentPath (Demo.bundler (Demo.config [Demo.tagged] "")) Demo.tagged)
  = "linux-gui-debug-amd64"
  ∧ eName Demo.tagged = "linux-gui-debug-amd64".
Proof.
  split; [|reflexivity].
  rewrite (eName_is_Base_environmentPath
             (Demo.bundler (Demo.config [Demo.tagged] "")) Demo.tagged);
    reflexivity.
Defined.

(** C10, as stated, fails: with the tags [a/b] on linux/amd64, an
    environment [New] accepts, [Bundle] matches the filter against
    [linux-a/b-amd64] while the folder [bundle] works in is
    [/out/linux-a/b-amd64], whose base name is [b-amd64]. *)
Lemma eName_differs_for_slashed_tags :
  New Demo.lib Demo.machine (Demo.config [Demo.slashed] "")
  = inl (Demo.bundler (Demo.config [Demo.slashed] ""))
  ∧ eName Demo.slashed = "linux-a/b-amd64"
  ∧ environmentPath (Demo.bundler (Demo.config [Demo.slashed] "")) Demo.slashed
    = "/out/linux-a/b-amd64"
  ∧ filepath.Base
      (environmentPath (Demo.bundler (Demo.config [Demo.slashed] "")) Demo.slashed)
    ≠ eName Demo.slashed.
Proof. split_and!; [reflexivity..|]. vm_compute. discriminate. Qed.

(** ** [Info.plist] *)

Lemma infoPlist_entries (appName iconExt : string) :
  infoPlist appName iconExt
  = plistDoc [("CFBundleIconFile", appName +:+ iconExt);
              ("CFBundleDisplayName", appName);
              ("CFBundleExecutable", appName);
              ("CFBundleName", appName);
              ("CFBundleIdentifier", "com." +:+ appName)].
Proof.
  unfold infoPlist, plistDoc, plistEntry. simpl. by rewrite !sapp_assoc.
Qed.

Lemma finishDarwin_plist (b : Bundler) (env bin : string) (w w' : World) :
  finishDarwin b env bin w = (w', None) →
  ∃ m, fs w' !! plistPath b env
       = Some (File m (infoPlist (appName b) (filepath.Ext (pathIconDarwin b)))).
Proof.
  unfold finishDarwin. intros H.
  do 4 apply andThen_ok in H as (? & _ & H).
  apply andThen_ok in H as (? & _ & H%wrapping_ok).
  apply WriteFile_ok in H as (m & -> & _). exists m. apply lookup_insert_eq.
Qed.

(** C8, as amended: the [Info.plist] a successful darwin finishing leaves
    always holds a [CFBundleIconFile] entry, whose value is the app name
    followed by the extension of the darwin icon path; with no darwin icon
    configured that extension is empty and the entry names the app name
    alone. *)
Theorem plist_always_names_an_icon (b : Bundler) (env bin : string) (w w' : World) :
  finishDarwin b env bin w = (w', None) →
  ∃ m rest,
    fs w' !! plistPath b env
    = Some (File m
              (plistDoc (("CFBundleIconFile",
                          appName b +:+ filepath.Ext (pathIconDarwin b)) :: rest)))
    ∧ (pathIconDarwin b = "" →
       appName b +:+ filepath.Ext (pathIconDarwin b) = appName b).
Proof.
  intros (m & Hm)%finishDarwin_plist. rewrite infoPlist_entries in Hm.
  eexists m, _. split; [exact Hm|]. intros ->. apply sapp_nil_r.
Qed.

Lemma plist_always_names_an_icon_witness :
  ∃ m rest,
    fs (finishDarwin (Demo.bundler (Demo.config [Demo.darwin] ""))
          "/out/darwin-amd64" "/out/darwin-amd64/binary" Demo.built).1
    !! "/out/darwin-amd64/Demo.app/Contents/Info.plist"
    = Some (File m (plistDoc (("CFBundleIconFile", "Demo") :: rest))).
Proof.
  destruct (plist_always_names_an_icon (Demo.bundler (Demo.config [Demo.darwin] ""))
              "/out/darwin-amd64" "/out/darwin-amd64/binary" Demo.built
              (finishDarwin (Demo.bundler (Demo.config [Demo.darwin] ""))
                 "/out/darwin-amd64" "/out/darwin-amd64/binary" Demo.built).1)
    as (m & rest & H & _).
  - vm_compute. reflexivity.
  - exists m, rest. exact H.
Defined.

(** C8, as stated, fails: with no darwin icon configured the [Info.plist]
    written still holds an icon-file entry. *)
Lemma plist_names_an_icon_without_icon :
  pathIconDarwin (Demo.bundler (Demo.config [Demo.darwin] "")) = ""
  ∧ ∃ w' m data,
      finishDarwin (Demo.bundler (Demo.config [Demo.darwin] ""))
        "/out/darwin-amd64" "/out/darwin-amd64/binary" Demo.built = (w', None)
      ∧ fs w' !! "/out/darwin-amd64/Demo.app/Contents/Info.plist"
        = Some (File m data)
      ∧ Str.contains data "<key>CFBundleIconFile</key>" = true.
Proof.
  split; [reflexivity|]. eexists _, _, _. split_and!; vm_compute; reflexivity.
Qed.

(** ** The paths of a bundle *)

Lemma plain_app (a x : string) :
  filepath.plain a = true → Str.hasSep x = false → filepath.plain (a +:+ x) = true.
Proof.
  intros (Hne & Hs & H1 & H2)%plain_spec Hx. apply plain_spec. split_and!.
  - by destruct a.
  - by rewrite hasSep_app, Hs, Hx.
  - destruct a as [|c1 [|c2 a]]; [done| |by destruct x].
    rewrite sapp_cons. intros [= -> ?]. done.
  - destruct a as [|c1 [|c2 [|c3 a]]]; [done| | |done].
    + rewrite sapp_cons. intros [= -> ?]. done.
    + rewrite !sapp_cons. intros [= -> -> ?]. done.
Qed.

Lemma Ext_sepfree (p : string) : Str.hasSep (filepath.Ext p) = false.
Proof.
  induction p as [|c p IH]; [done|]. simpl.
  destruct (existsb _ _) eqn:E; [done|].
  destruct (Str.isDot c) eqn:Hc; [|done]. simpl.
  assert (Str.isSep c = false) as ->.
  { unfold Str.isDot, Str.isSep in *. apply Ascii.eqb_eq in Hc as ->. done. }
  simpl. clear -E. induction p as [|x p IH]; [done|]. simpl in *.
  apply orb_false_elim in E as [[-> _]%orb_false_elim E]. by apply IH.
Qed.

Lemma dirsOf_under (p d : string) : d ∈ dirsOf p → under d p = true.
Proof.
  unfold dirsOf.
  intros [_ (l' & -> & [Hne [k Hk]]%elem_of_inits)%list_elem_of_fmap]%list_elem_of_filter.
  rewrite <- (join_split p), Hk. destruct k as [|x k].
  - rewrite List.app_nil_r. apply under_refl.
  - rewrite join_app by done. apply inside_under, inside_snoc.
Qed.

(** Entries of two different children of a directory are apart. *)
Lemma apart (d n1 n2 x y : string) :
  Str.hasSep n1 = false → Str.hasSep n2 = false → n1 ≠ n2 →
  under (d +:+ "/" +:+ n1) x = true → under (d +:+ "/" +:+ n2) y = true →
  under x y = false ∧ under y x = false ∧ x ≠ y.
Proof.
  intros H1 H2 Hne Hx Hy.
  pose proof (under_sibling d n1 n2 x H1 H2 Hne Hx) as Hx'.
  pose proof (under_sibling d n2 n1 y H2 H1 (not_eq_sym Hne) Hy) as Hy'.
  split_and!.
  - destruct (under x y) eqn:E; [|done].
    by rewrite (under_trans _ _ _ Hx E) in Hy'.
  - destruct (under y x) eqn:E; [|done].
    by rewrite (under_trans _ _ _ Hy E) in Hx'.
  - intros ->. congruence.
Qed.

Lemma app_dot_app_not_binary (a : string) : "binary" ≠ a +:+ ".app".
Proof. do 7 (destruct a as [|? a]; [done|]). done. Qed.

Lemma plain_sepfree (n : string) : filepath.plain n = true → Str.hasSep n = false.
Proof. by intros (_ & ? & _)%plain_spec. Qed.

(** Where [finishDarwin] works, spelled out. *)
Lemma darwin_paths (b : Bundler) (env : string) :
  filepath.cleanAbs env = true → filepath.plain (appName b) = true →
  let c := env +:+ "/" +:+ appName b +:+ ".app" +:+ "/" +:+ "Contents" in
  filepath.cleanAbs c = true
  ∧ contentsPath b env = c
  ∧ macOSPath b env = c +:+ "/" +:+ "MacOS"
  ∧ macOSBinaryPath b env = (c +:+ "/" +:+ "MacOS") +:+ "/" +:+ appName b
  ∧ resourcesPath b env = c +:+ "/" +:+ "Resources"
  ∧ iconPath b env
    = (c +:+ "/" +:+ "Resources") +:+ "/" +:+ appName b
      +:+ filepath.Ext (pathIconDarwin b)
  ∧ plistPath b env = c +:+ "/" +:+ "Info.plist"
  ∧ filepath.Join [env; "binary"] = env +:+ "/" +:+ "binary".
Proof.
  intros He Ha c.
  assert (filepath.plain (appName b +:+ ".app") = true) as Hap by (by apply plain_app).
  assert (contentsPath b env = c) as Hc.
  { unfold contentsPath. rewrite Join3 by done. unfold c. by rewrite !sapp_assoc. }
  assert (filepath.cleanAbs c = true) as Hcc.
  { replace c with ((env +:+ "/" +:+ (appName b +:+ ".app")) +:+ "/" +:+ "Contents")
      by (unfold c; by rewrite !sapp_assoc).
    apply cleanAbs_snoc; [|done]. by apply cleanAbs_snoc. }
  assert (macOSPath b env = c +:+ "/" +:+ "MacOS") as Hm.
  { unfold macOSPath. rewrite Hc. by apply Join2. }
  assert (resourcesPath b env = c +:+ "/" +:+ "Resources") as Hr.
  { unfold resourcesPath. rewrite Hc. by apply Join2. }
  split_and!; try done.
  - unfold macOSBinaryPath. rewrite Hm. apply Join2; [|done]. by apply cleanAbs_snoc.
  - unfold iconPath. rewrite Hr, Join2; [by rewrite !sapp_assoc| |].
    + by apply cleanAbs_snoc.
    + apply plain_app; [done|apply Ext_sepfree].
  - unfold plistPath. rewrite Hc. by apply Join2.
  - by apply Join2.
Qed.

Lemma snoc_nonempty (c n : string) : c +:+ "/" +:+ n ≠ "".
Proof. by intros [_ ?]%sapp_eq_nil. Qed.

Lemma MkdirAll_keeps d perm w w' r p n :
  os_MkdirAll d perm w = (w', r) → fs w !! p = Some n → fs w' !! p = Some n.
Proof.
  intros H Hl. by apply (keeps_MkdirAll (λ _, False) d perm w w' r p n H); [intros []|].
Qed.

(** C3: on a cleaned environment folder and with a plain app name, a
    successful darwin finishing leaves the folder
    [<env>/<AppName>.app/Contents/MacOS], in it the compiled binary under
    the app name with mode 0777 and no longer where the compiler wrote it,
    with a configured icon the folder [Contents/Resources] holding the icon
    under the app name plus the icon's extension, and [Contents/Info.plist]
    whose display name, executable and bundle name are the app name and
    whose identifier is [com.] followed by the app name. *)
Theorem darwin_bundle_layout (b : Bundler) (env : string) (w w' : World)
    (mode : N) (data : string) :
  filepath.cleanAbs env = true →
  filepath.plain (appName b) = true →
  fs w !! (env +:+ "/binary") = Some (File mode data) →
  under env (pathIconDarwin b) = false →
  finishDarwin b env (filepath.Join [env; "binary"]) w = (w', None) →
  fs w' !! (env +:+ "/" +:+ appName b +:+ ".app/Contents/MacOS") = Some Dir
  ∧ fs w' !! (env +:+ "/" +:+ appName b +:+ ".app/Contents/MacOS/" +:+ appName b)
    = Some (File 511 data)
  ∧ fs w' !! (env +:+ "/binary") = None
  ∧ (∀ n, pathIconDarwin b ≠ "" → fs w !! pathIconDarwin b = Some n →
       fs w' !! (env +:+ "/" +:+ appName b +:+ ".app/Contents/Resources") = Some Dir
       ∧ fs w' !! (env +:+ "/" +:+ appName b +:+ ".app/Contents/Resources/"
                   +:+ appName b +:+ filepath.Ext (pathIconDarwin b)) = Some n)
  ∧ ∃ m, fs w' !! (env +:+ "/" +:+ appName b +:+ ".app/Contents/Info.plist")
         = Some (File m
                   (plistDoc
                      [("CFBundleIconFile",
                        appName b +:+ filepath.Ext (pathIconDarwin b));
                       ("CFBundleDisplayName", appName b);
                       ("CFBundleExecutable", appName b);
                       ("CFBundleName", appName b);
                       ("CFBundleIdentifier", "com." +:+ appName b)])).
Proof.
  intros He Ha Hbin Hicon Hrun.
  destruct (darwin_paths b env He Ha) as (Hcc & Hc & Hm & Hmb & Hr & Hip & Hfp & Hb).
  pose proof (plain_sepfree _ Ha) as Has.
  set (C := env +:+ "/" +:+ appName b +:+ ".app" +:+ "/" +:+ "Contents") in *.
  set (M := C +:+ "/" +:+ "MacOS") in *.
  set (MB := M +:+ "/" +:+ appName b) in *.
  set (R := C +:+ "/" +:+ "Resources") in *.
  set (IP := R +:+ "/" +:+ appName b +:+ filepath.Ext (pathIconDarwin b)) in *.
  set (FP := C +:+ "/" +:+ "Info.plist") in *.
  set (B := env +:+ "/" +:+ "binary") in *.
  replace (env +:+ "/" +:+ appName b +:+ ".app/Contents/MacOS") with M
    by (unfold M, C; by rewrite !sapp_assoc).
  replace (env +:+ "/" +:+ appName b +:+ ".app/Contents/MacOS/" +:+ appName b) with MB
    by (unfold MB, M, C; by rewrite !sapp_assoc).
  replace (env +:+ "/" +:+ appName b +:+ ".app/Contents/Resources") with R
    by (unfold R, C; by rewrite !sapp_assoc).
  replace (env +:+ "/" +:+ appName b +:+ ".app/Contents/Resources/"
           +:+ appName b +:+ filepath.Ext (pathIconDarwin b)) with IP
    by (unfold IP, R, C; by rewrite !sapp_assoc).
  replace (env +:+ "/" +:+ appName b +:+ ".app/Contents/Info.plist") with FP
    by (unfold FP, C; by rewrite !sapp_assoc).
  change (env +:+ "/binary") with B in *.
  (* where the paths lie *)
  assert (under (C +:+ "/" +:+ "MacOS") M = true) as uM by apply under_refl.
  assert (under (C +:+ "/" +:+ "MacOS") MB = true) as uMB
    by apply inside_under, inside_snoc.
  assert (under (C +:+ "/" +:+ "Resources") R = true) as uR by apply under_refl.
  assert (under (C +:+ "/" +:+ "Resources") IP = true) as uIP
    by apply inside_under, inside_snoc.
  assert (under (C +:+ "/" +:+ "Info.plist") FP = true) as uFP by apply under_refl.
  assert (under (env +:+ "/" +:+ "binary") B = true) as uB by apply under_refl.
  assert (∀ x, under C x = true →
               under (env +:+ "/" +:+ (appName b +:+ ".app")) x = true) as uApp.
  { intros x Hx. eapply under_trans; [|done].
    apply inside_under, inside_spec. exists "Contents". unfold C.
    by rewrite !sapp_assoc. }
  assert (∀ n x, under (C +:+ "/" +:+ n) x = true → under C x = true) as uC.
  { intros n x Hx. eapply under_trans; [|done]. apply inside_under, inside_snoc. }
  assert (∀ x, under C x = true → under env x = true) as uEnv.
  { intros x Hx. eapply under_trans; [|by apply uApp].
    apply inside_under, inside_snoc. }
  assert (∀ x, under C x = true →
               under B x = false ∧ under x B = false ∧ B ≠ x) as aB.
  { intros x Hx. eapply apart; [..|exact uB|by apply uApp]; try done.
    - by rewrite hasSep_app, Has.
    - apply app_dot_app_not_binary. }
  (* the run, step by step *)
  unfold finishDarwin in Hrun. rewrite Hm, Hmb, Hr, Hip, Hfp, Hb in Hrun.
  apply andThen_ok in Hrun as (w1 & Hmk%wrapping_ok & Hrun).
  apply andThen_ok in Hrun as (w2 & Hmv%wrapping_ok & Hrun).
  apply andThen_ok in Hrun as (w3 & [-> _]%checkCtx_ok & Hrun).
  apply andThen_ok in Hrun as (w4 & Hch%wrapping_ok & Hrun).
  apply andThen_ok in Hrun as (w7 & Hic & Hwr%wrapping_ok).
  (* MkdirAll *)
  assert (fs w1 !! M = Some Dir) as HM1.
  { eapply MkdirAll_ok; [|done]. apply snoc_nonempty. }
  assert (fs w1 !! B = Some (File mode data)) as HB1.
  { by eapply MkdirAll_keeps. }
  (* Move *)
  pose proof (Move_ok _ _ _ _ Hmv) as (n & Hn & _ & Hf2).
  rewrite HB1 in Hn. injection Hn as <-. specialize (Hf2 _ _ eq_refl).
  destruct (aB MB (uC _ _ uMB)) as (aB1 & aB2 & aB3).
  destruct (aB M (uC _ _ uM)) as (aB4 & aB5 & aB6).
  assert (M ≠ MB) as HMMB.
  { intros Heq. pose proof (inside_snoc M (appName b)) as Hi.
    fold MB in Hi. rewrite <- Heq, inside_irrefl in Hi. done. }
  assert (fs w2 !! MB = Some (File mode data)) as HMB2
    by (by rewrite Hf2, lookup_insert_eq).
  assert (fs w2 !! B = None) as HB2
    by (by rewrite Hf2, lookup_insert_ne, lookup_delete_eq).
  assert (fs w2 !! M = Some Dir) as HM2.
  { by rewrite Hf2, lookup_insert_ne, lookup_delete_ne. }
  (* Chmod *)
  pose proof (Chmod_ok _ _ _ _ Hch) as [Hh4 [(m4 & d4 & Hl4 & Hf4)|[Hl4 _]]];
    simpl in Hl4; rewrite HMB2 in Hl4; [|done]. injection Hl4 as <- <-.
  simpl in Hf4.
  assert (fs w4 !! MB = Some (File 511 data)) as HMB4
    by (by rewrite Hf4, lookup_insert_eq).
  assert (fs w4 !! B = None) as HB4 by (by rewrite Hf4, lookup_insert_ne).
  assert (fs w4 !! M = Some Dir) as HM4 by (by rewrite Hf4, lookup_insert_ne).
  (* the plist, last *)
  pose proof (WriteFile_ok _ _ _ _ _ Hwr) as (mp & Hf' & _).
  destruct (apart C "MacOS" "Info.plist" _ _ eq_refl eq_refl ltac:(done) uM uFP)
    as (_ & _ & HMFP).
  destruct (apart C "MacOS" "Info.plist" _ _ eq_refl eq_refl ltac:(done) uMB uFP)
    as (_ & _ & HMBFP).
  destruct (apart C "Resources" "Info.plist" _ _ eq_refl eq_refl ltac:(done) uR uFP)
    as (_ & _ & HRFP).
  destruct (apart C "Resources" "Info.plist" _ _ eq_refl eq_refl ltac:(done) uIP uFP)
    as (_ & _ & HIPFP).
  destruct (aB FP (uC _ _ uFP)) as (_ & _ & HBFP).
  destruct (apart C "MacOS" "Resources" _ _ eq_refl eq_refl ltac:(done) uM uIP)
    as (_ & HIPM & _).
  destruct (apart C "MacOS" "Resources" _ _ eq_refl eq_refl ltac:(done) uMB uIP)
    as (_ & HIPMB & _).
  destruct (aB IP (uC _ _ uIP)) as (_ & HIPB & _).
  destruct (aB R (uC _ _ uR)) as (HBR & _ & _).
  (* the icon, when there is one *)
  assert (fs w7 !! M = Some Dir ∧ fs w7 !! MB = Some (File 511 data)
          ∧ fs w7 !! B = None
          ∧ ∀ n, pathIconDarwin b ≠ "" → fs w !! pathIconDarwin b = Some n →
                 fs w7 !! R = Some Dir ∧ fs w7 !! IP = Some n) as (HM7 & HMB7 & HB7 & HI7).
  { unfold nonEmpty in Hic. destruct (String.eqb_spec (pathIconDarwin b) "") as [Hno|Hyes];
      simpl in Hic.
    { injection Hic as <-. split_and!; try done. }
    apply andThen_ok in Hic as (w5 & Hmr%wrapping_ok & Hic).
    apply andThen_ok in Hic as (w6 & Hcp%wrapping_ok & [-> _]%checkCtx_ok).
    simpl. split_and!.
    - eapply keeps_Copy; [done|by rewrite HIPM|].
      by eapply MkdirAll_keeps.
    - eapply keeps_Copy; [done|by rewrite HIPMB|].
      by eapply MkdirAll_keeps.
    - destruct (fs w6 !! B) as [nb|] eqn:E; [|done]. exfalso.
      destruct (adds_Copy _ _ _ _ _ _ _ Hcp E) as [E5|E5]; [|by rewrite HIPB in E5].
      destruct (adds_MkdirAll _ _ _ _ _ _ _ Hmr E5) as [E4|E4%dirsOf_under];
        [congruence|by rewrite HBR in E4].
    - intros ni _ Hni.
      assert (fs w5 !! pathIconDarwin b = Some ni) as Hi5.
      { eapply MkdirAll_keeps; [done|].
        rewrite Hf4, lookup_insert_ne.
        2:{ intros Heq. rewrite <- Heq in Hicon. by rewrite (uEnv _ (uC _ _ uMB)) in Hicon. }
        eapply keeps_Move; [done| |by eapply MkdirAll_keeps].
        intros [Hu|Hu].
        - rewrite (under_trans env B _) in Hicon; [done|apply inside_under, inside_snoc|done].
        - rewrite (under_trans env MB _ (uEnv _ (uC _ _ uMB)) Hu) in Hicon. done. }
      pose proof (Copy_ok _ _ _ _ Hcp) as (n5 & Hn5 & _ & Hip6 & _).
      rewrite Hi5 in Hn5. injection Hn5 as <-. split; [|done].
      eapply keeps_Copy; [done| |].
      + destruct (under IP R) eqn:E; [|done].
        pose proof (inside_snoc R (appName b +:+ filepath.Ext (pathIconDarwin b))) as Hi.
        fold IP in Hi. apply under_spec in E as [E|E].
        * rewrite E, inside_irrefl in Hi. done.
        * apply inside_length in Hi, E. lia.
      + eapply MkdirAll_ok; [|done]. apply snoc_nonempty. }
  rewrite Hf'. split_and!.
  - by rewrite lookup_insert_ne.
  - by rewrite lookup_insert_ne.
  - by rewrite lookup_insert_ne.
  - intros ni Hyes Hni. destruct (HI7 ni Hyes Hni) as [HR7 HIP7].
    by rewrite !lookup_insert_ne.
  - exists mp. by rewrite lookup_insert_eq, infoPlist_entries.
Qed.

Lemma darwin_bundle_layout_witness :
  fs (finishDarwin (Demo.bundler (Demo.config [Demo.darwin] "/icons/demo.icns"))
        "/out/darwin-amd64" "/out/darwin-amd64/binary" Demo.built).1
  !! "/out/darwin-amd64/Demo.app/Contents/MacOS/Demo" = Some (File 511 "BINARY")
  ∧ fs (finishDarwin (Demo.bundler (Demo.config [Demo.darwin] "/icons/demo.icns"))
          "/out/darwin-amd64" "/out/darwin-amd64/binary" Demo.built).1
    !! "/out/darwin-amd64/Demo.app/Contents/Resources/Demo.icns"
    = Some (File 420 "ICON").
Proof.
  destruct (darwin_bundle_layout
              (Demo.bundler (Demo.config [Demo.darwin] "/icons/demo.icns"))
              "/out/darwin-amd64" Demo.built
              (finishDarwin (Demo.bundler (Demo.config [Demo.darwin] "/icons/demo.icns"))
                 "/out/darwin-amd64" "/out/darwin-amd64/binary" Demo.built).1
              493 "BINARY") as (_ & Hbin & _ & Hicon & _).
  - reflexivity.
  - reflexivity.
  - vm_compute. reflexivity.
  - reflexivity.
  - vm_compute. reflexivity.
  - split; [exact Hbin|].
    refine (proj2 (Hicon (File 420 "ICON") _ _)); [discriminate|vm_compute; reflexivity].
Defined.

(** ** The vendor folder *)




Lemma sameHost_provisionVendorZip (b : Bundler) (src cache vend : string) :
  sameHost (provisionVendorZip b src cache vend).
Proof.
  intros w w' r Hm. rewrite provisionVendorZip_unfold in Hm.
  change (host w) with (host (tick w)). revert Hm. generalize (tick w) as w0.
  intros w0. revert w0 w' r.
  change (sameHost
    ((if IsNotExist (os_Stat cache w).2
      then wrapping ("downloading " +:+ src +:+ " into " +:+ cache +:+ " failed")
             (astilectron_Download src cache)
      else ret)
     >> checkCtx
     >> wrapping ("copying " +:+ cache +:+ " to " +:+ vend +:+ " failed")
          (astios_Copy cache vend)
     >> checkCtx)).
  repeat apply sameHost_andThen.
  - destruct (IsNotExist _); [|apply sameHost_ret].
    apply sameHost_wrapping, sameHost_Download.
  - apply sameHost_checkCtx.
  - apply sameHost_wrapping, sameHost_Copy.
  - apply sameHost_checkCtx.
Qed.



(** ** Paths that lie apart *)




(** ** What one environment's bundling may create *)






(** ** The cache entries *)

Lemma sapp_inv_head (a x y : string) : a +:+ x = a +:+ y → x = y.
Proof.
  induction a as [|c a IH]; [done|]. rewrite !sapp_cons. intros [= H]. by apply IH.
Qed.

Lemma sapp_inv_tail (x y t : string) : x +:+ t = y +:+ t → x = y.
Proof.
  revert y. induction x as [|c x IH]; intros [|c' y] H.
  - done.
  - apply (f_equal String.length) in H. rewrite !sapp_length in H. simpl in H. lia.
  - apply (f_equal String.length) in H. rewrite !sapp_length in H. simpl in H. lia.
  - rewrite !sapp_cons in H. injection H as -> H. f_equal. by apply IH.
Qed.







(** What [provisionVendorZip] leaves in the vendor folder: the cache entry
    it found, or with none what the source serves. *)
Lemma provisionVendorZip_content (b : Bundler) (src cache vend : string) (w w' : World) :
  provisionVendorZip b src cache vend w = (w', None) →
  fs w' !! vend
  = match fs w !! cache with
    | Some n => Some n
    | None => File 420 <$> remote (host w) !! src
    end.
Proof.
  intros Hm. rewrite provisionVendorZip_unfold, Stat_result in Hm. simpl in Hm.
  apply andThen_ok in Hm as (w1 & Hdl & Hm).
  apply andThen_ok in Hm as (w2 & [-> _]%checkCtx_ok & Hm).
  apply andThen_ok in Hm as (w3 & Hcp%wrapping_ok & [-> _]%checkCtx_ok).
  apply Copy_ok in Hcp as (n & Hn & Hden & Hv & _). simpl in *.
  rewrite Hv. case_bool_decide as Hd.
  - injection Hdl as <-. simpl in Hden. done.
  - destruct (fs w !! cache) as [n0|] eqn:Hc; simpl in Hdl.
    + injection Hdl as <-. simpl in Hn. congruence.
    + apply wrapping_ok, Download_ok in Hdl as (body & Hr & Hfs & _). simpl in *.
      rewrite Hfs, lookup_insert_eq in Hn. rewrite Hr. simpl. congruence.
Qed.





Lemma sameHost_provisionVendorAstilectron A b : sameHost (provisionVendorAstilectron A b).
Proof.
  unfold provisionVendorAstilectron. apply sameHost_andThen.
  - destruct (nonEmpty _); [|apply sameHost_ret].
    apply sameHost_andThen; [|apply sameHost_checkCtx].
    apply sameHost_wrapping, sameHost_Zip.
  - apply sameHost_provisionVendorZip.
Qed.

Lemma sameHost_provisionVendor A b oS arch : sameHost (provisionVendor A b oS arch).
Proof.
  unfold provisionVendor, provisionVendorElectron.
  repeat apply sameHost_andThen; apply sameHost_wrapping.
  - apply sameHost_RemoveAll.
  - apply sameHost_MkdirAll.
  - apply sameHost_provisionVendorAstilectron.
  - apply sameHost_provisionVendorZip.
Qed.




(** ** Cancellation *)

Lemma cancellable_weaken s m : cancellable s m → cancellable false m.
Proof.
  intros H w n w0 r0 Hc Hm. destruct (H w n w0 r0 Hc Hm) as [?|[? _]]; [by left|].
  right. by split.
Qed.

Lemma cancellable_ret : cancellable false ret.
Proof. intros w n w0 r0 _ [= <- <-]. right. by split. Qed.

Lemma cancellable_fail e : cancellable false (fail e).
Proof. intros w n w0 r0 _ [= <- <-]. right. by split. Qed.

Lemma cancellable_checkCtx : cancellable true checkCtx.
Proof.
  intros w n w0 r0 Hc. unfold checkCtx, ctxErr, fired. rewrite Hc. intros [= <- <-].
  simpl. case_bool_decide.
  - left. by eexists _, _.
  - right. split; [done|]. intros _ _. simpl. lia.
Qed.

Lemma cancellable_andThen s m k :
  sameHost m → cancellable false m → cancellable s k → cancellable s (m >> k).
Proof.
  intros Hh Hm Hk w n w0 r0 Hc. unfold andThen.
  destruct (m w) as [w1 r1] eqn:E.
  destruct (Hm w n w1 r1 Hc E) as [(wc & e & -> & He)|[-> _]].
  { intros _. left. by eexists _, _. }
  destruct r1 as [e|].
  - intros [= <- <-]. right. by split.
  - intros Hk'. apply Hk; [|done]. by rewrite (Hh _ _ _ E).
Qed.

Lemma cancellable_wrapping s msg m : cancellable s m → cancellable s (wrapping msg m).
Proof.
  intros Hm w n w0 r0 Hc. unfold wrapping.
  destruct (m w) as [w1 r1] eqn:E.
  destruct (Hm w n w1 r1 Hc E) as [(wc & e & -> & He)|[-> Hs]].
  { intros _. left. by eexists _, _. }
  destruct r1 as [e|]; intros [= <- <-]; right; by split.
Qed.

Lemma cancellable_syscall op body : oblivious body → cancellable false (syscall op body).
Proof.
  intros Hb w n w0 r0 Hc. unfold syscall.
  change (faulty (cancelWorld n w)) with (faulty w). destruct (faulty w).
  - intros [= <- <-]. right. by split.
  - intros Hm. right. split; [|done].
    change (tick (cancelWorld n w)) with (cancelWorld n (tick w)).
    by rewrite Hb, Hm.
Qed.

Lemma cancellable_ctxcall op body : oblivious body → cancellable false (ctxcall op body).
Proof.
  intros Hb w n w0 r0 Hc. unfold ctxcall, fired. rewrite Hc. simpl.
  case_bool_decide.
  - intros _. left. by eexists _, _.
  - by apply cancellable_syscall.
Qed.

Ltac oblivious_tac :=
  intros n w; simpl; repeat case_match; simplify_eq/=; done.

Lemma oblivious_place src dst : oblivious (place src dst).
Proof. unfold place. oblivious_tac. Qed.

Lemma cancellable_Copy src dst : cancellable false (astios_Copy src dst).
Proof. apply cancellable_ctxcall, oblivious_place. Qed.

Lemma cancellable_Download src dst : cancellable false (astilectron_Download src dst).
Proof. apply cancellable_ctxcall. oblivious_tac. Qed.

Lemma cancellable_Zip src dst root : cancellable false (astizip_Zip src dst root).
Proof. apply cancellable_ctxcall. oblivious_tac. Qed.

Lemma cancellable_RemoveAll d : cancellable false (os_RemoveAll d).
Proof. apply cancellable_syscall. oblivious_tac. Qed.

Lemma cancellable_MkdirAll d perm : cancellable false (os_MkdirAll d perm).
Proof. apply cancellable_syscall. oblivious_tac. Qed.

Lemma cancellable_provisionVendorZip (b : Bundler) (src cache vend : string) :
  cancellable true (provisionVendorZip b src cache vend).
Proof.
  intros w n w0 r0 Hc Hm. rewrite !provisionVendorZip_unfold in *.
  change (os_Stat cache (cancelWorld n w)).2 with (os_Stat cache w).2.
  change (tick (cancelWorld n w)) with (cancelWorld n (tick w)).
  cut (cancellable true
    ((if IsNotExist (os_Stat cache w).2
      then wrapping ("downloading " +:+ src +:+ " into " +:+ cache +:+ " failed")
             (astilectron_Download src cache)
      else ret)
     >> checkCtx
     >> wrapping ("copying " +:+ cache +:+ " to " +:+ vend +:+ " failed")
          (astios_Copy cache vend)
     >> checkCtx)).
  { intros Hcomp. exact (Hcomp (tick w) n w0 r0 Hc Hm). }
  apply cancellable_andThen.
  { destruct (IsNotExist _); [apply sameHost_wrapping, sameHost_Download|apply sameHost_ret]. }
  { destruct (IsNotExist _); [apply cancellable_wrapping, cancellable_Download
                             |apply cancellable_ret]. }
  apply cancellable_andThen;
    [apply sameHost_checkCtx|apply (cancellable_weaken true), cancellable_checkCtx|].
  apply cancellable_andThen;
    [apply sameHost_wrapping, sameHost_Copy
    |apply cancellable_wrapping, cancellable_Copy|apply cancellable_checkCtx].
Qed.

Lemma cancellable_provisionVendor (A : Astilectron) (b : Bundler) (oS arch : string) :
  cancellable true (provisionVendor A b oS arch).
Proof.
  unfold provisionVendor.
  apply cancellable_andThen;
    [apply sameHost_wrapping, sameHost_RemoveAll
    |apply cancellable_wrapping, cancellable_RemoveAll|].
  apply cancellable_andThen;
    [apply sameHost_wrapping, sameHost_MkdirAll
    |apply cancellable_wrapping, cancellable_MkdirAll|].
  assert (sameHost
            (if nonEmpty (pathAstilectron b)
             then wrapping ("zipping " +:+ pathAstilectron b +:+ " into "
                            +:+ cacheAstilectron A b +:+ " failed")
                    (astizip_Zip (pathAstilectron b) (cacheAstilectron A b)
                       ("astilectron-" +:+ VersionAstilectron A))
                  >> checkCtx
             else ret)) as Hzh.
  { destruct (nonEmpty _); [|apply sameHost_ret].
    apply sameHost_andThen; [apply sameHost_wrapping, sameHost_Zip|apply sameHost_checkCtx]. }
  apply cancellable_andThen.
  - apply sameHost_wrapping, sameHost_andThen; [done|apply sameHost_provisionVendorZip].
  - apply cancellable_wrapping, cancellable_andThen; [done| |].
    + destruct (nonEmpty _); [|apply cancellable_ret].
      apply cancellable_andThen;
        [apply sameHost_wrapping, sameHost_Zip
        |apply cancellable_wrapping, cancellable_Zip
        |apply (cancellable_weaken true), cancellable_checkCtx].
    + apply (cancellable_weaken true), cancellable_provisionVendorZip.
  - apply cancellable_wrapping, cancellable_provisionVendorZip.
Qed.

(** C4: in [provisionVendorZip] the context is checked after the download
    (done or skipped) and after the copy, and a check that finds it
    cancelled returns the context's error itself and goes no further; and a
    provisioning that succeeds when nobody cancels it ends, when it is
    cancelled before any of its steps, with an error whose cause is the
    context's error. *)
Theorem cancellation_is_reported (A : Astilectron) (b : Bundler) :
  (∀ src cache vend w w1,
     (if IsNotExist (os_Stat cache w).2
      then wrapping ("downloading " +:+ src +:+ " into " +:+ cache +:+ " failed")
             (astilectron_Download src cache)
      else ret) (tick w) = (w1, None) →
     fired w1 = true →
     provisionVendorZip b src cache vend w = (tick w1, Some Canceled))
  ∧ (∀ src cache vend w w1 w2,
       (if IsNotExist (os_Stat cache w).2
        then wrapping ("downloading " +:+ src +:+ " into " +:+ cache +:+ " failed")
               (astilectron_Download src cache)
        else ret) (tick w) = (w1, None) →
       fired w1 = false →
       astios_Copy cache vend (tick w1) = (w2, None) →
       fired w2 = true →
       provisionVendorZip b src cache vend w = (tick w2, Some Canceled))
  ∧ (∀ oS arch w w0 n,
       cancelAt (host w) = None →
       provisionVendor A b oS arch w = (w0, None) →
       n < clock w0 →
       ∃ wc e, provisionVendor A b oS arch (cancelWorld n w) = (wc, Some e)
               ∧ Cause e = Canceled).
Proof.
  split_and!.
  - intros src cache vend w w1 Hd Hf. rewrite provisionVendorZip_unfold.
    unfold andThen at 1. rewrite Hd. unfold andThen, checkCtx, ctxErr. by rewrite Hf.
  - intros src cache vend w w1 w2 Hd Hf1 Hc Hf2. rewrite provisionVendorZip_unfold.
    unfold andThen at 1. rewrite Hd. unfold andThen at 1, checkCtx at 1, ctxErr.
    rewrite Hf1. unfold andThen, wrapping. rewrite Hc. unfold checkCtx, ctxErr.
    by rewrite Hf2.
  - intros oS arch w w0 n Hc Hrun Hn.
    destruct (cancellable_provisionVendor A b oS arch w n w0 None Hc Hrun)
      as [?|[_ Hk]]; [done|]. specialize (Hk eq_refl eq_refl). lia.
Qed.

Lemma cancellation_is_reported_witness :
  ∃ wc e,
    provisionVendor Demo.lib (Demo.bundler (Demo.config [Demo.linux] ""))
      "linux" "amd64" (cancelWorld 6 Demo.world) = (wc, Some e)
    ∧ Cause e = Canceled.
Proof.
  refine (proj2 (proj2 (cancellation_is_reported Demo.lib
                          (Demo.bundler (Demo.config [Demo.linux] ""))))
            "linux" "amd64" Demo.world
            (provisionVendor Demo.lib (Demo.bundler (Demo.config [Demo.linux] ""))
               "linux" "amd64" Demo.world).1 6 _ _ _).
  - reflexivity.
  - vm_compute. reflexivity.
  - vm_compute. lia.
Defined.

(** ** What one environment's bundling touches *)












(** ** The loop of [Bundle] *)









(** ** Cleaned paths stay cleaned *)

Lemma split_sepfree_all (p : string) :
  Forall (λ e, Str.hasSep e = false) (Str.split p).
Proof.
  induction p as [|c p IH]; [by repeat constructor|]. simpl.
  destruct (Str.isSep c) eqn:Hc; [by constructor|].
  destruct (Str.split p) as [|h t]; [by repeat constructor; simpl; rewrite Hc|].
  inversion IH; subst. constructor; [|done]. simpl. by rewrite Hc.
Qed.

Lemma cleanStep_rooted_plain (st : list string) (e : string) :
  Str.hasSep e = false →
  Forall (λ x, filepath.plain x = true) st →
  Forall (λ x, filepath.plain x = true) (filepath.cleanStep true st e).
Proof.
  intros He Hst. unfold filepath.cleanStep.
  destruct (String.eqb_spec e "") as [|H1]; [done|].
  destruct (String.eqb_spec e ".") as [|H2]; [done|].
  destruct (String.eqb_spec e "..") as [|H3].
  - destruct st as [|top rest]; [done|]. inversion Hst as [|? ? Htop Hrest]; subst.
    destruct (String.eqb_spec top "..") as [->|]; [done|done].
  - constructor; [|done]. by apply plain_spec.
Qed.

Lemma cleanStack_rooted_plain (l st : list string) :
  Forall (λ e, Str.hasSep e = false) l →
  Forall (λ x, filepath.plain x = true) st →
  Forall (λ x, filepath.plain x = true) (fold_left (filepath.cleanStep true) l st).
Proof.
  revert st. induction l as [|e l IH]; intros st Hl Hst; [done|].
  inversion Hl; subst. simpl. apply IH; [done|]. by apply cleanStep_rooted_plain.
Qed.

Lemma split_join_plain (l : list string) :
  l ≠ [] → Forall (λ x, filepath.plain x = true) l → Str.split (Str.join l) = l.
Proof.
  induction l as [|x l IH]; [done|]. intros _ Hl. inversion Hl as [|? ? Hx Hl']; subst.
  destruct l as [|y l].
  - simpl. apply split_sepfree. by apply plain_sepfree.
  - change (Str.join (x :: y :: l)) with (x +:+ "/" +:+ Str.join (y :: l)).
    rewrite split_app_sep, IH, split_sepfree by (done || by apply plain_sepfree). done.
Qed.

Lemma cleanStack_plain (rooted : bool) (l st : list string) :
  Forall (λ x, filepath.plain x = true) l →
  fold_left (filepath.cleanStep rooted) l st = rev l ++ st.
Proof.
  revert st. induction l as [|e l IH]; intros st Hl; [done|].
  inversion Hl; subst. simpl. rewrite IH, cleanStep_plain by done.
  by rewrite <- List.app_assoc.
Qed.

(** [Clean] of an absolute path is a fixed point of [Clean]. *)
Lemma Clean_idem_abs (p : string) :
  filepath.IsAbs p = true → filepath.Clean (filepath.Clean p) = filepath.Clean p.
Proof.
  intros Hp. unfold filepath.Clean at 2 3.
  destruct (String.eqb_spec p "") as [->|_]; [done|]. rewrite Hp.
  pose proof (cleanStack_rooted_plain (Str.split p) [] (split_sepfree_all p)
                (Forall_nil_2 _)) as Hst.
  set (st := fold_left _ _ _) in *.
  apply Forall_rev in Hst. destruct (rev st) as [|x l] eqn:E; [done|].
  unfold filepath.Clean.
  change (("/" +:+ Str.join (x :: l) =? "")%string) with false. cbv iota.
  change (filepath.IsAbs ("/" +:+ Str.join (x :: l))) with true. cbv iota.
  change (Str.split ("/" +:+ Str.join (x :: l)))
    with ("" :: Str.split (Str.join (x :: l))).
  rewrite (split_join_plain (x :: l) ltac:(done) Hst).
  change (fold_left (filepath.cleanStep true) ("" :: x :: l) [])
    with (fold_left (filepath.cleanStep true) (x :: l) []).
  rewrite (cleanStack_plain true (x :: l) [] Hst).
  by rewrite List.app_nil_r, rev_involutive.
Qed.

Lemma Clean_snoc_not_root (p n : string) :
  p ≠ "" → filepath.plain n = true → filepath.Clean (p +:+ "/" +:+ n) ≠ "/".
Proof.
  intros Hp Hn. rewrite Clean_snoc_stack by done.
  pose proof Hn as (Hne & Hs & _)%plain_spec.
  destruct (rev _) as [|x l].
  - simpl. destruct (filepath.IsAbs p); [by destruct n|].
    intros H. change (n = "/") in H. by subst.
  - rewrite join_snoc by done. destruct (filepath.IsAbs p).
    + intros [= H]. by apply snoc_nonempty in H.
    + destruct (Str.join (x :: l)) as [|c s].
      * intros [= H]. by destruct n.
      * rewrite sapp_cons. intros [= _ H]. by apply snoc_nonempty in H.
Qed.

(** Joining a plain element to an absolute path gives a cleaned absolute
    path below the root. *)
Lemma cleanAbs_Join2 (p n : string) :
  filepath.IsAbs p = true → filepath.plain n = true →
  filepath.cleanAbs (filepath.Join [p; n]) = true.
Proof.
  intros Hp Hn. assert (p ≠ "") as Hne by (by destruct p). simpl.
  destruct (String.eqb_spec p "") as [|_]; [done|].
  assert (filepath.IsAbs (p +:+ "/" +:+ n) = true) as Habs by (by rewrite IsAbs_app).
  apply cleanAbs_spec. split_and!.
  - by apply IsAbs_Clean.
  - by apply Clean_idem_abs.
  - by apply Clean_snoc_not_root.
Qed.

(** On a host whose working directory is absolute, the vendor folder of
    every bundler [New] builds is a cleaned absolute path. *)
Lemma New_pathVendor_clean (A : Astilectron) (h : Host) (c : Configuration)
    (b : Bundler) :
  filepath.IsAbs (getwd h).1 = true →
  New A h c = inl b →
  filepath.cleanAbs (pathVendor b) = true.
Proof.
  intros Hwd HN. unfold New in HN.
  destruct (List.find _ _); [done|].
  destruct (absPath h (AstilectronPath c) None) as [? [?|]]; [done|].
  destruct (absPath h (CachePath c) _) as [? [?|]]; [done|].
  destruct (absPath h (IconPathDarwin c) None) as [? [?|]]; [done|].
  destruct (absPath h (IconPathLinux c) None) as [? [?|]]; [done|].
  destruct (absPath h (IconPathWindows c) None) as [? [?|]]; [done|].
  destruct (absPath h (InputPath c) _) as [pIn [?|]] eqn:Hin; [done|].
  destruct (absPath h (OutputPath c) _) as [? [?|]]; [done|].
  injection HN as <-.
  change (filepath.cleanAbs (filepath.Join [pIn; "vendor"]) = true).
  apply cleanAbs_Join2; [|done].
  unfold absPath, os_Getwd in Hin. destruct (nonEmpty _).
  - destruct (filepath.Abs (getwd h) (InputPath c)) as [o [e|]] eqn:E; [done|].
    injection Hin as <-. destruct (getwd h) as [wd e]. by eapply IsAbs_Abs.
  - destruct (getwd h) as [wd [e|]]; [done|]. by injection Hin as <-.
Qed.

(** * Further properties of the code *)

(** ** [New] *)

Lemma find_first {X} (f : X → bool) (l1 l2 : list X) (x : X) :
  Forall (λ y, f y = false) l1 → f x = true → List.find f (l1 ++ x :: l2) = Some x.
Proof.
  intros H Hx. induction H as [|y l1 Hy _ IH]; simpl; [by rewrite Hx|by rewrite Hy].
Qed.

Lemma find_none_all {X} (f : X → bool) (l : list X) :
  List.find f l = None → Forall (λ y, f y = false) l.
Proof.
  induction l as [|y l IH]; simpl; [by constructor|].
  destruct (f y) eqn:E; [done|]. intros H. constructor; auto.
Qed.

Ltac New_inl HN :=
  unfold New in HN;
  destruct (List.find _ _) eqn:Hfind; [done|];
  destruct (absPath _ (AstilectronPath _) None) as [pA [?|]] eqn:HpA; [done|];
  destruct (absPath _ (CachePath _) _) as [pC [?|]] eqn:HpC; [done|];
  destruct (absPath _ (IconPathDarwin _) None) as [pD [?|]] eqn:HpD; [done|];
  destruct (absPath _ (IconPathLinux _) None) as [pL [?|]] eqn:HpL; [done|];
  destruct (absPath _ (IconPathWindows _) None) as [pW [?|]] eqn:HpW; [done|];
  destruct (absPath _ (InputPath _) _) as [pI [?|]] eqn:HpI; [done|];
  destruct (absPath _ (OutputPath _) _) as [pO [?|]] eqn:HpO; [done|];
  injection HN as <-.

(** X1: a bundler is built only from environments whose OS the library knows,
    and it keeps them as they are; the first environment with an unknown OS
    ends the construction with an error that names that OS, before any path
    is resolved. *)
Theorem New_validates_OS (A : Astilectron) (h : Host) (c : Configuration) :
  (∀ b, New A h c = inl b →
        environments b = Environments c
        ∧ Forall (λ e, IsValidOS A (OS e) = true) (environments b))
  ∧ (∀ es1 e es2,
       Environments c = es1 ++ e :: es2 →
       Forall (λ e', IsValidOS A (OS e') = true) es1 →
       IsValidOS A (OS e) = false →
       New A h c = inr (Errorf ("OS " +:+ OS e +:+ " is invalid"))).
Proof.
  split.
  - intros b HN. New_inl HN. split; [done|]. simpl.
    apply find_none_all in Hfind. eapply Forall_impl; [done|].
    simpl. intros e He. by apply negb_false_iff in He.
  - intros es1 e es2 Hes H1 He. unfold New. rewrite Hes.
    rewrite (find_first _ es1 es2 e); [done| |by rewrite He].
    eapply Forall_impl; [done|]. simpl. by intros e' ->.
Qed.

Lemma New_validates_OS_witness :
  New Demo.lib Demo.machine
    (Demo.config [Demo.linux; mkEnv "amd64" "freebsd" ""; Demo.darwin] "")
  = inr (Errorf "OS freebsd is invalid").
Proof.
  refine (proj2 (New_validates_OS Demo.lib Demo.machine
                   (Demo.config [Demo.linux; mkEnv "amd64" "freebsd" ""; Demo.darwin] ""))
            [Demo.linux] (mkEnv "amd64" "freebsd" "") [Demo.darwin] _ _ _).
  - reflexivity.
  - by repeat constructor.
  - reflexivity.
Defined.

Lemma absPath_optional (h : Host) (p o : string) :
  filepath.IsAbs (getwd h).1 = true →
  absPath h p None = (o, None) → o = "" ∨ filepath.IsAbs o = true.
Proof.
  intros Hwd. unfold absPath. destruct (nonEmpty p); [|simpl; intros [= ?]; subst; by left].
  destruct (filepath.Abs (getwd h) p) as [o' [e|]] eqn:E; [done|].
  intros [= <-]. right. destruct (getwd h) as [wd e]. by eapply IsAbs_Abs.
Qed.

Lemma absPath_required (h : Host) (p o : string)
    (fn : Host → string * option error) :
  filepath.IsAbs (getwd h).1 = true →
  filepath.IsAbs (fn h).1 = true →
  absPath h p (Some fn) = (o, None) → filepath.IsAbs o = true.
Proof.
  intros Hwd Hfn. unfold absPath. destruct (nonEmpty p).
  - destruct (filepath.Abs (getwd h) p) as [o' [e|]] eqn:E; [done|].
    intros [= <-]. destruct (getwd h) as [wd e]. eapply IsAbs_Abs; [exact Hwd|exact E].
  - simpl in Hfn. destruct (fn h) as [o' [e|]]; [done|]. by intros [= <-].
Qed.

(** X2: on a host whose working directory and temporary directory are
    absolute, every path of a bundler [New] builds is absolute, the four
    optional ones (framework override and icons) being absolute or empty,
    and the vendor and resources folders are the cleaned children [vendor]
    and [resources] of the input folder. *)
Theorem New_paths_are_absolute (A : Astilectron) (h : Host) (c : Configuration)
    (b : Bundler) :
  filepath.IsAbs (getwd h).1 = true →
  filepath.IsAbs (tempDir h) = true →
  New A h c = inl b →
  filepath.IsAbs (pathInput b) = true
  ∧ filepath.IsAbs (pathOutput b) = true
  ∧ filepath.IsAbs (pathCache b) = true
  ∧ Forall (λ p, p = "" ∨ filepath.IsAbs p = true)
      [pathAstilectron b; pathIconDarwin b; pathIconLinux b; pathIconWindows b]
  ∧ pathVendor b = filepath.Join [pathInput b; "vendor"]
  ∧ filepath.cleanAbs (pathVendor b) = true
  ∧ pathResources b = filepath.Join [pathInput b; "resources"]
  ∧ filepath.cleanAbs (pathResources b) = true.
Proof.
  intros Hwd Htmp HN. New_inl HN.
  assert (filepath.IsAbs pI = true) as HI by (by eapply absPath_required).
  change (filepath.IsAbs pI = true ∧ filepath.IsAbs pO = true
          ∧ filepath.IsAbs pC = true
          ∧ Forall (λ p, p = "" ∨ filepath.IsAbs p = true) [pA; pD; pL; pW]
          ∧ filepath.Join [pI; "vendor"] = filepath.Join [pI; "vendor"]
          ∧ filepath.cleanAbs (filepath.Join [pI; "vendor"]) = true
          ∧ filepath.Join [pI; "resources"] = filepath.Join [pI; "resources"]
          ∧ filepath.cleanAbs (filepath.Join [pI; "resources"]) = true).
  split_and!; try done.
  - by eapply absPath_required.
  - eapply absPath_required; [done| |done]. by apply IsAbs_Join2.
  - do 4 (constructor; [by eapply absPath_optional|]). constructor.
  - by apply cleanAbs_Join2.
  - by apply cleanAbs_Join2.
Qed.

Lemma New_paths_are_absolute_witness :
  pathVendor (Demo.bundler (Demo.config [Demo.linux] "icon.icns")) = "/go/src/app/vendor"
  ∧ pathIconDarwin (Demo.bundler (Demo.config [Demo.linux] "icon.icns"))
    = "/go/src/app/icon.icns"
  ∧ filepath.IsAbs (pathCache (Demo.bundler (Demo.config [Demo.linux] "icon.icns")))
    = true.
Proof.
  destruct (New_paths_are_absolute Demo.lib Demo.machine
              (Demo.config [Demo.linux] "icon.icns")
              (Demo.bundler (Demo.config [Demo.linux] "icon.icns")))
    as (_ & _ & Hc & _); [reflexivity..|].
  split_and!; [reflexivity|reflexivity|exact Hc].
Defined.

(** X3: when the working directory cannot be had and no input path is
    configured, [New] fails, and the cause of its error is the cause of the
    failure of [os.Getwd]. *)
Theorem New_needs_a_working_directory (A : Astilectron) (h : Host) (c : Configuration)
    (d : string) (e : error) :
  getwd h = (d, Some e) →
  Forall (λ env, IsValidOS A (OS env) = true) (Environments c) →
  InputPath c = "" →
  ∃ err, New A h c = inr err ∧ Cause err = Cause e.
Proof.
  intros Hwd Hvalid Hin.
  assert (∀ p fn o err, absPath h p fn = (o, Some err) →
            (∀ f, fn = Some f → ∀ o' e', f h = (o', Some e') → e' = e) →
            Cause err = Cause e) as Hfail.
  { intros p fn o err. unfold absPath, filepath.Abs. rewrite Hwd.
    destruct (nonEmpty p).
    - destruct (filepath.IsAbs p); [done|]. by intros [= _ <-].
    - destruct fn as [f|]; [|done]. intros H Hf.
      destruct (f h) as [o' [e'|]] eqn:E; [|done]. injection H as _ <-.
      simpl. by rewrite (Hf f eq_refl _ _ E). }
  unfold New.
  assert (List.find (λ env, negb (IsValidOS A (OS env))) (Environments c) = None) as ->.
  { induction Hvalid as [|x l Hx _ IH]; [done|]. simpl. by rewrite Hx. }
  destruct (absPath h (AstilectronPath c) None) as [? [err|]] eqn:E1;
    [eexists; split; [done|]; eapply Hfail; [done|]; by intros ? [=]|].
  destruct (absPath h (CachePath c) _) as [? [err|]] eqn:E2;
    [eexists; split; [done|]; eapply Hfail; [done|]; by intros ? [= <-] ? ? [=]|].
  destruct (absPath h (IconPathDarwin c) None) as [? [err|]] eqn:E3;
    [eexists; split; [done|]; eapply Hfail; [done|]; by intros ? [=]|].
  destruct (absPath h (IconPathLinux c) None) as [? [err|]] eqn:E4;
    [eexists; split; [done|]; eapply Hfail; [done|]; by intros ? [=]|].
  destruct (absPath h (IconPathWindows c) None) as [? [err|]] eqn:E5;
    [eexists; split; [done|]; eapply Hfail; [done|]; by intros ? [=]|].
  rewrite Hin. unfold absPath at 1. simpl. unfold os_Getwd. rewrite Hwd.
  eexists. split; done.
Qed.

Lemma New_needs_a_working_directory_witness :
  ∃ err,
    New Demo.lib
      (mkHost (environ Demo.machine) ("", Some (ErrNotExist ".")) "/tmp" ""
         ∅ ∅ None ∅)
      (Demo.config [Demo.linux] "") = inr err
    ∧ Cause err = ErrNotExist ".".
Proof.
  refine (New_needs_a_working_directory Demo.lib _ (Demo.config [Demo.linux] "")
            "" (ErrNotExist ".") _ _ _).
  - reflexivity.
  - by repeat constructor.
  - reflexivity.
Defined.

(** ** [reset] and [ClearCache] *)

Lemma mkdirs_file ds (m : gmap string node) d mode data :
  d ∈ ds → m !! d = Some (File mode data) →
  ∃ d' m', mkdirs ds m = (m', Some (ErrNotDir d')).
Proof.
  revert m. induction ds as [|x ds IH]; intros m; [by intros ?%elem_of_nil|].
  intros Hd Hm. simpl. destruct (m !! x) as [[]|] eqn:Hx; [by eexists _, _|..].
  - apply elem_of_cons in Hd as [->|Hd]; [congruence|]. by apply IH.
  - apply elem_of_cons in Hd as [->|Hd]; [congruence|]. apply IH; [done|].
    rewrite lookup_insert_ne; [done|]. intros ->. congruence.
Qed.

(** X4: [reset] creates the cache folder and the output folder and clears
    nothing: whatever the outcome, every entry that existed is still there
    and nothing is logged.  When the cache path is taken by a file it fails
    on that first folder, with [ENOTDIR] as the cause, and the output folder
    is not tried. *)
Theorem reset_creates_and_never_clears (b : Bundler) (w w' : World) (r : option error) :
  reset b w = (w', r) →
  (∀ p n, fs w !! p = Some n → fs w' !! p = Some n)
  ∧ events w' = events w
  ∧ (r = None → pathCache b ≠ "" → pathOutput b ≠ "" →
     fs w' !! pathCache b = Some Dir ∧ fs w' !! pathOutput b = Some Dir)
  ∧ (∀ mode data, pathCache b ≠ "" → faulty w = false →
       fs w !! pathCache b = Some (File mode data) →
       clock w' = S (clock w)
       ∧ ∃ d, r = Some (Wrap (ErrNotDir d) ("mkdirall " +:+ pathCache b +:+ " failed"))).
Proof.
  intros Hrun. unfold reset in Hrun. simpl in Hrun.
  assert (∀ d w1 w2 r', os_MkdirAll d 511 w1 = (w2, r') → events w2 = events w1) as Hev.
  { intros d w1 w2 r'. unfold os_MkdirAll, syscall. destruct (faulty w1); [by intros [= <- _]|].
    destruct (mkdirs _ _) as [m e]. by intros [= <- _]. }
  unfold andThen at 1, wrapping at 1 in Hrun.
  destruct (os_MkdirAll (pathCache b) 511 w) as [w1 [e1|]] eqn:E1.
  - injection Hrun as <- <-. split_and!.
    + intros p n. by eapply MkdirAll_keeps.
    + by eapply Hev.
    + done.
    + intros mode data Hne Hf Hfile. unfold os_MkdirAll, syscall in E1.
      rewrite Hf in E1.
      destruct (mkdirs_file (dirsOf (pathCache b)) (fs (tick w)) (pathCache b) mode data)
        as (d & m' & Hmk); [by apply dirsOf_self|done|].
      rewrite Hmk in E1. injection E1 as <- <-. split; [done|]. by exists d.
  - unfold andThen, wrapping, ret in Hrun.
    destruct (os_MkdirAll (pathOutput b) 511 w1) as [w2 [e2|]] eqn:E2;
      injection Hrun as <- <-.
    + split_and!; [|by rewrite (Hev _ _ _ _ E2), (Hev _ _ _ _ E1)|done|].
      * intros p n Hp. eapply MkdirAll_keeps; [done|]. by eapply MkdirAll_keeps.
      * intros mode data Hne Hf Hfile. exfalso.
        pose proof (MkdirAll_ok _ _ _ _ Hne E1) as Hdir.
        pose proof (MkdirAll_keeps _ _ _ _ _ _ _ E1 Hfile). congruence.
    + split_and!; [|by rewrite (Hev _ _ _ _ E2), (Hev _ _ _ _ E1)| |].
      * intros p n Hp. eapply MkdirAll_keeps; [done|]. by eapply MkdirAll_keeps.
      * intros _ Hc Ho. split; [|by eapply MkdirAll_ok].
        eapply MkdirAll_keeps; [done|]. by eapply MkdirAll_ok.
      * intros mode data Hne Hf Hfile. exfalso.
        pose proof (MkdirAll_ok _ _ _ _ Hne E1) as Hdir.
        pose proof (MkdirAll_keeps _ _ _ _ _ _ _ E1 Hfile). congruence.
Qed.

Lemma reset_creates_and_never_clears_witness :
  fs (reset (Demo.bundler (Demo.config [Demo.linux] "")) Demo.world).1
  !! "/tmp/astibundler" = Some Dir
  ∧ fs (reset (Demo.bundler (Demo.config [Demo.linux] "")) Demo.world).1
    !! "/out" = Some Dir.
Proof.
  refine (proj1 (proj2 (proj2 (reset_creates_and_never_clears
            (Demo.bundler (Demo.config [Demo.linux] "")) Demo.world
            (reset (Demo.bundler (Demo.config [Demo.linux] "")) Demo.world).1 None _)))
            eq_refl _ _).
  - vm_compute. reflexivity.
  - discriminate.
  - discriminate.
Defined.

Lemma provisionVendorZip_miss (b : Bundler) (src cache vend : string) (w w' : World) :
  fs w !! cache = None → cache ∉ denied (host w) →
  provisionVendorZip b src cache vend w = (w', None) →
  events w' = events w ++ [EvFetch src cache].
Proof.
  intros Hmiss Hden Hrun.
  rewrite provisionVendorZip_unfold, Stat_result in Hrun. simpl in Hrun.
  rewrite bool_decide_eq_false_2, Hmiss in Hrun by done. simpl in Hrun.
  apply andThen_ok in Hrun as (wa & Hdl%wrapping_ok & Hrun).
  apply andThen_ok in Hrun as (wb & [-> _]%checkCtx_ok & Hrun).
  apply andThen_ok in Hrun as (wc & Hcp%wrapping_ok & [-> _]%checkCtx_ok).
  apply Download_ok in Hdl as (body & _ & _ & Hea & _).
  apply Copy_ok in Hcp as (n & _ & _ & _ & Hec & _).
  simpl in *. by rewrite Hec, Hea.
Qed.

(** X5: after [ClearCache] nothing is left of the cache folder, and nothing
    outside it is touched; a provisioning that then succeeds for a key
    below it fetches the archive again. *)
Theorem ClearCache_forces_a_fresh_fetch (b : Bundler) (src cache vend : string)
    (w w1 w2 : World) :
  pathCache b ≠ "" →
  under (pathCache b) cache = true →
  cache ∉ denied (host w) →
  ClearCache b w = (w1, None) →
  provisionVendorZip b src cache vend w1 = (w2, None) →
  (∀ p, under (pathCache b) p = true → fs w1 !! p = None)
  ∧ (∀ p n, under (pathCache b) p = false → fs w !! p = Some n → fs w1 !! p = Some n)
  ∧ events w2 = events w1 ++ [EvFetch src cache].
Proof.
  intros Hne Hu Hden Hcc%wrapping_ok Hrun. split_and!.
  - intros p Hp. by eapply RemoveAll_gone.
  - intros p n Hp Hl. eapply keeps_RemoveAll; [done| |done]. by rewrite Hp.
  - apply (provisionVendorZip_miss b src cache vend w1 w2);
      [|by rewrite (sameHost_RemoveAll _ _ _ _ Hcc)|done].
    by eapply RemoveAll_gone.
Qed.

Lemma ClearCache_forces_a_fresh_fetch_witness :
  events
    (provisionVendorZip (Demo.bundler (Demo.config [Demo.linux] ""))
       (AstilectronDownloadSrc Demo.lib) "/tmp/astibundler/astilectron-0.6.0.zip"
       "/go/src/app/vendor/astilectron.zip"
       (ClearCache (Demo.bundler (Demo.config [Demo.linux] ""))
          (provisionVendorZip (Demo.bundler (Demo.config [Demo.linux] ""))
             (AstilectronDownloadSrc Demo.lib) "/tmp/astibundler/astilectron-0.6.0.zip"
             "/go/src/app/vendor/astilectron.zip" Demo.world).1).1).1
  = events
      (ClearCache (Demo.bundler (Demo.config [Demo.linux] ""))
         (provisionVendorZip (Demo.bundler (Demo.config [Demo.linux] ""))
            (AstilectronDownloadSrc Demo.lib) "/tmp/astibundler/astilectron-0.6.0.zip"
            "/go/src/app/vendor/astilectron.zip" Demo.world).1).1
    ++ [EvFetch (AstilectronDownloadSrc Demo.lib)
          "/tmp/astibundler/astilectron-0.6.0.zip"].
Proof.
  refine (proj2 (proj2 (ClearCache_forces_a_fresh_fetch
            (Demo.bundler (Demo.config [Demo.linux] ""))
            (AstilectronDownloadSrc Demo.lib) "/tmp/astibundler/astilectron-0.6.0.zip"
            "/go/src/app/vendor/astilectron.zip"
            (provisionVendorZip (Demo.bundler (Demo.config [Demo.linux] ""))
               (AstilectronDownloadSrc Demo.lib) "/tmp/astibundler/astilectron-0.6.0.zip"
               "/go/src/app/vendor/astilectron.zip" Demo.world).1 _ _ _ _ _ _ _))).
  - discriminate.
  - reflexivity.
  - apply not_elem_of_empty.
  - vm_compute. reflexivity.
  - vm_compute. reflexivity.
Defined.

(** ** The environment filter *)

(** X6: with a filter set and a pattern the matcher accepts, [Bundle]'s loop
    does exactly what it would do on the list of the matching environments
    alone: an environment that does not match costs nothing; and when none
    matches the loop leaves the world as it is. *)
Theorem filter_skips_at_no_cost (A : Astilectron)
    (rx : string → string → bool * option error) (b : Bundler)
    (es : list ConfigurationEnvironment) (w : World) :
  environmentFilter b ≠ "" →
  Forall (λ e, (rx (environmentFilter b) (eName e)).2 = None) es →
  bundleEach A rx b es w
  = bundleEach A rx b
      (List.filter (λ e, (rx (environmentFilter b) (eName e)).1) es) w
  ∧ (Forall (λ e, (rx (environmentFilter b) (eName e)).1 = false) es →
     bundleEach A rx b es w = (w, None)).
Proof.
  intros Hf%String.eqb_neq Hes. split.
  - revert w. induction Hes as [|e es He _ IH]; intros w; [done|].
    simpl. rewrite Hf. simpl.
    destruct (rx (environmentFilter b) (eName e)) as [m o] eqn:E. simpl in He. subst o.
    destruct m; simpl; [|apply IH].
    rewrite Hf, E. simpl. unfold andThen.
    destruct (wrapping _ (bundle A b e) w) as [w1 [err|]]; [done|]. apply IH.
  - intros Hno. revert w. induction Hes as [|e es He _ IH]; intros w; [done|].
    inversion Hno as [|? ? Hm Hno']; subst. simpl. rewrite Hf. simpl.
    destruct (rx (environmentFilter b) (eName e)) as [m o]. simpl in *. subst.
    simpl. by apply IH.
Qed.

Lemma filter_skips_at_no_cost_witness :
  bundleEach Demo.lib Demo.matchLiteral
    (withFilter "windows" (Demo.bundler (Demo.config [Demo.linux; Demo.darwin] "")))
    [Demo.linux; Demo.darwin] Demo.world
  = (Demo.world, None).
Proof.
  refine (proj2 (filter_skips_at_no_cost Demo.lib Demo.matchLiteral
                   (withFilter "windows" (Demo.bundler (Demo.config [Demo.linux; Demo.darwin] "")))
                   [Demo.linux; Demo.darwin] Demo.world _ _) _).
  - discriminate.
  - by repeat constructor.
  - by repeat constructor.
Defined.

(** X7: with no filter set the matcher is never consulted: the loop does the
    same whatever the matcher would answer. *)
Theorem no_filter_never_matches (A : Astilectron)
    (rx rx' : string → string → bool * option error) (b : Bundler)
    (es : list ConfigurationEnvironment) (w : World) :
  environmentFilter b = "" →
  bundleEach A rx b es w = bundleEach A rx' b es w.
Proof.
  intros Hf. revert w. induction es as [|e es IH]; intros w; [done|].
  simpl. rewrite Hf. simpl. unfold andThen.
  destruct (wrapping _ (bundle A b e) w) as [w1 [err|]]; [done|]. apply IH.
Qed.

Lemma no_filter_never_matches_witness :
  bundleEach Demo.lib Demo.matchLiteral
    (Demo.bundler (Demo.config [Demo.linux] "")) [Demo.linux] Demo.world
  = bundleEach Demo.lib (λ _ _, (false, Some (ErrIO "regexp")))
      (Demo.bundler (Demo.config [Demo.linux] "")) [Demo.linux] Demo.world.
Proof.
  apply (no_filter_never_matches Demo.lib Demo.matchLiteral
           (λ _ _, (false, Some (ErrIO "regexp")))
           (Demo.bundler (Demo.config [Demo.linux] "")) [Demo.linux] Demo.world).
  reflexivity.
Defined.

(** X8: a pattern the matcher rejects ends [Bundle] at the first environment:
    the folders of [reset] exist by then, and nothing else has been done. *)
Theorem bad_filter_stops_at_the_first_environment (A : Astilectron)
    (rx : string → string → bool * option error) (b : Bundler)
    (e : ConfigurationEnvironment) (rest : list ConfigurationEnvironment)
    (w w0 : World) (m : bool) (err : error) :
  environments b = e :: rest →
  environmentFilter b ≠ "" →
  rx (environmentFilter b) (eName e) = (m, Some err) →
  reset b w = (w0, None) →
  Bundle A rx b w = (w0, Some (Wrap err "environment matching failed")).
Proof.
  intros Hes Hf%String.eqb_neq Hrx Hreset. unfold Bundle, andThen, wrapping.
  rewrite Hreset, Hes. simpl. by rewrite Hf, Hrx.
Qed.

Lemma bad_filter_stops_at_the_first_environment_witness :
  Bundle Demo.lib (λ _ _, (false, Some (ErrIO "missing closing )")))
    (withFilter "windows" (Demo.bundler (Demo.config [Demo.linux; Demo.darwin] ""))) Demo.world
  = ((reset (withFilter "windows" (Demo.bundler (Demo.config [Demo.linux; Demo.darwin] ""))) Demo.world).1,
     Some (Wrap (ErrIO "missing closing )") "environment matching failed")).
Proof.
  apply (bad_filter_stops_at_the_first_environment Demo.lib _ _ Demo.linux [Demo.darwin]
           _ _ false).
  - reflexivity.
  - discriminate.
  - reflexivity.
  - vm_compute. reflexivity.
Defined.

(** ** An OS with no finisher *)

(** X9: for an OS other than darwin, linux and windows [bundle] never
    succeeds; when all its steps up to and including the compiler run go
    through, the compiler has been started and the error is the unwrapped
    "not yet implemented" one. *)
Theorem bundle_refuses_other_OS (A : Astilectron) (b : Bundler)
    (e : ConfigurationEnvironment) (w : World) :
  OS e ≠ "darwin" → OS e ≠ "linux" → OS e ≠ "windows" →
  (bundle A b e w).2 ≠ None
  ∧ ∀ w' err, bundle A b e w = (w', Some err) →
      ¬ (∃ c msg, err = Wrap c msg) →
      err = Errorf ("OS " +:+ OS e +:+ " is not yet implemented")
      ∧ ∃ c, EvExec c ∈ events w'.
Proof.
  intros Hd%String.eqb_neq Hl%String.eqb_neq Hw%String.eqb_neq.
  unfold bundle, finish. rewrite Hd, Hl, Hw.
  set (env := environmentPath b e).
  set (pre := wrapping ("removing " +:+ env +:+ " failed") (os_RemoveAll env)).
  set (mk := wrapping ("mkdirall " +:+ env +:+ " failed") (os_MkdirAll env 511)).
  set (bd := wrapping "binding data failed" (BindData A b (OS e) (Arch e) (Tags e))).
  set (bin := filepath.Join [env; "binary"]).
  unfold andThen, ret, fail.
  assert (∀ msg (m : io) w1 w2 err, wrapping msg m w1 = (w2, Some err) →
            ∃ c msg', err = Wrap c msg') as Hwrapped.
  { intros msg m w1 w2 err. unfold wrapping. destruct (m w1) as [? [?|]]; [|done].
    intros [= _ <-]. eauto. }
  destruct (pre w) as [w1 [e1|]] eqn:E1.
  { split; [done|]. intros ? ? [= <- <-] Hn. exfalso. eauto. }
  destruct (mk w1) as [w2 [e2|]] eqn:E2.
  { split; [done|]. intros ? ? [= <- <-] Hn. exfalso. eauto. }
  destruct (bd w2) as [w3 [e3|]] eqn:E3.
  { split; [done|]. intros ? ? [= <- <-] Hn. exfalso. eauto. }
  destruct (build b e bin w3) as [w4 [e4|]] eqn:E4.
  { split; [done|]. intros ? ? [= <- <-] Hn. exfalso. apply Hn.
    unfold build in E4. destruct (exec_CombinedOutput _ _) as [? [? [?|]]]; [|done].
    injection E4 as _ <-. eauto. }
  split; [done|]. intros ? ? [= <- <-] _. split; [done|].
  unfold build, exec_CombinedOutput in E4. rewrite buildCmd_outputArg in E4.
  exists (buildCmd b e (host w3) bin).
  repeat case_match; simplify_eq/=; apply elem_of_app; right; by left.
Qed.

Lemma bundle_refuses_other_OS_witness :
  (bundle Demo.lib (Demo.bundler (Demo.config [Demo.linux] ""))
     (mkEnv "amd64" "freebsd" "") Demo.world).2 ≠ None.
Proof.
  refine (proj1 (bundle_refuses_other_OS Demo.lib
                   (Demo.bundler (Demo.config [Demo.linux] ""))
                   (mkEnv "amd64" "freebsd" "") Demo.world _ _ _)); discriminate.
Defined.

(** ** The calls to the network and to the tools *)

Lemma emits_silent (m : io) :
  (∀ w w' r, m w = (w', r) → events w' = events w) → emits [] m.
Proof.
  intros H w w' r Hm. exists []. by rewrite List.app_nil_r, (H _ _ _ Hm).
Qed.
Lemma emits_weaken full full' m : full `sublist_of` full' → emits full m → emits full' m.
Proof.
  intros Hs H w w' r Hm. destruct (H _ _ _ Hm) as (l & ? & ?).
  exists l. split; [done|]. by etrans.
Qed.
Lemma emits_ret : emits [] ret.
Proof. apply emits_silent. by intros w w' r [= <- _]. Qed.
Lemma emits_fail e : emits [] (fail e).
Proof. apply emits_silent. by intros w w' r [= <- _]. Qed.
Lemma emits_checkCtx : emits [] checkCtx.
Proof. apply emits_silent. by intros w w' r [= <- _]. Qed.
Lemma emits_andThen f1 f2 m k : emits f1 m → emits f2 k → emits (f1 ++ f2) (m >> k).
Proof.
  intros Hm Hk w w' r. unfold andThen. destruct (m w) as [w1 [e|]] eqn:E.
  - intros [= <- _]. destruct (Hm _ _ _ E) as (l & ? & ?). exists l.
    split; [done|]. by apply sublist_inserts_r.
  - intros Hk'. destruct (Hm _ _ _ E) as (l1 & H1 & ?).
    destruct (Hk _ _ _ Hk') as (l2 & H2 & ?). exists (l1 ++ l2).
    split; [by rewrite H2, H1, <- List.app_assoc|]. by apply sublist_app.
Qed.
Lemma emits_wrapping full msg m : emits full m → emits full (wrapping msg m).
Proof.
  intros H w w' r. unfold wrapping. destruct (m w) as [w1 [e|]] eqn:E.
  - intros [= <- _]. eauto.
  - intros [= <- _]. eauto.
Qed.
Lemma emits_syscall full op body : emits full body → emits full (syscall op body).
Proof.
  intros H w w' r. unfold syscall. destruct (faulty w).
  - intros [= <- _]. exists []. split; [by rewrite List.app_nil_r|apply sublist_nil_l].
  - intros Hb. by apply (H _ _ _ Hb).
Qed.
Lemma emits_ctxcall full op body : emits full body → emits full (ctxcall op body).
Proof.
  intros H w w' r. unfold ctxcall. destruct (fired w).
  - intros [= <- _]. exists []. split; [by rewrite List.app_nil_r|apply sublist_nil_l].
  - by apply emits_syscall.
Qed.

Ltac silent_body := apply emits_silent; intros w w' r Hm; by io_cases.

Lemma emits_RemoveAll p : emits [] (os_RemoveAll p).
Proof. apply emits_syscall. silent_body. Qed.
Lemma emits_MkdirAll p perm : emits [] (os_MkdirAll p perm).
Proof.
  apply emits_syscall, emits_silent. intros w w' r Hm.
  destruct (mkdirs _ _) in Hm. by simplify_eq.
Qed.
Lemma emits_Chmod p mode : emits [] (os_Chmod p mode).
Proof. apply emits_syscall. silent_body. Qed.
Lemma emits_WriteFile p data perm : emits [] (ioutil_WriteFile p data perm).
Proof. apply emits_syscall. silent_body. Qed.
Lemma emits_place src dst : emits [] (place src dst).
Proof. apply emits_silent. intros w w' r Hm. unfold place in Hm. by io_cases. Qed.
Lemma emits_Copy src dst : emits [] (astios_Copy src dst).
Proof. apply emits_ctxcall, emits_place. Qed.
Lemma emits_Move src dst : emits [] (astios_Move src dst).
Proof.
  apply emits_ctxcall, emits_silent. intros w w' r Hm.
  destruct (place src dst w) as [w1 r1] eqn:Hp.
  destruct (emits_place _ _ _ _ _ Hp) as (l & Hl & ->%sublist_nil_r).
  rewrite List.app_nil_r in Hl. by io_cases.
Qed.
Lemma emits_Zip src dst root : emits [] (astizip_Zip src dst root).
Proof. apply emits_ctxcall. silent_body. Qed.
Lemma emits_Download src dst : emits [EvFetch src dst] (astilectron_Download src dst).
Proof.
  apply emits_ctxcall. intros w w' r Hm. exists [EvFetch src dst]. split; [|done].
  by io_cases.
Qed.
Lemma emits_Translate c : emits [EvTranslate c] (bindata_Translate c).
Proof.
  apply emits_syscall. intros w w' r Hm. exists [EvTranslate c]. split; [|done].
  by io_cases.
Qed.
Lemma emits_Embed out arch icon : emits [EvRsrc out arch icon] (rsrc_Embed out arch icon).
Proof.
  apply emits_syscall. intros w w' r Hm. exists [EvRsrc out arch icon]. split; [|done].
  by io_cases.
Qed.

Lemma emits_nil m w w' r : emits [] m → m w = (w', r) → events w' = events w.
Proof.
  intros H Hm. destruct (H _ _ _ Hm) as (l & Hl & ->%sublist_nil_r).
  by rewrite List.app_nil_r in Hl.
Qed.

Lemma andThen_emits_at f1 f2 (m k : io) w w' r :
  emits f1 m →
  (∀ w1, m w = (w1, None) → k w1 = (w', r) →
         ∃ l, events w' = events w1 ++ l ∧ l `sublist_of` f2) →
  (m >> k) w = (w', r) →
  ∃ l, events w' = events w ++ l ∧ l `sublist_of` f1 ++ f2.
Proof.
  intros Hm Hk. unfold andThen. destruct (m w) as [w1 [e|]] eqn:E.
  - intros [= <- _]. destruct (Hm _ _ _ E) as (l & ? & ?). exists l.
    split; [done|]. by apply sublist_inserts_r.
  - intros Hk'. destruct (Hm _ _ _ E) as (l1 & H1 & ?).
    destruct (Hk _ eq_refl Hk') as (l2 & H2 & ?). exists (l1 ++ l2).
    split; [by rewrite H2, H1, <- List.app_assoc|]. by apply sublist_app.
Qed.

Lemma Zip_ok src dst root w w' :
  astizip_Zip src dst root w = (w', None) →
  fs w' !! dst = Some (File 420 (root +:+ "=" +:+ render (subtree src (fs w))))
  ∧ host w' = host w.
Proof.
  intros (_ & _ & H)%ctxcall_ok. simpl in H.
  destruct (fs w !! src); [|done].
  destruct (fs w !! dst) as [[]|]; simplify_eq/=; by rewrite lookup_insert_eq.
Qed.

Lemma Translate_ok c w w' :
  bindata_Translate c w = (w', None) → events w' = events w ++ [EvTranslate c].
Proof. intros [_ H]%syscall_ok. simpl in H. by io_cases. Qed.

Lemma Embed_ok out arch icon w w' :
  rsrc_Embed out arch icon w = (w', None) → events w' = events w ++ [EvRsrc out arch icon].
Proof. intros [_ H]%syscall_ok. simpl in H. by io_cases. Qed.

Lemma build_events b e bin w w' r :
  build b e bin w = (w', r) →
  events w' = events w ++ [EvExec (buildCmd b e (host w) bin)].
Proof.
  unfold build, exec_CombinedOutput. rewrite buildCmd_outputArg. intros Hm. by io_cases.
Qed.

Lemma emits_provisionVendorZip b src cache vend :
  emits [EvFetch src cache] (provisionVendorZip b src cache vend).
Proof.
  intros w w' r Hm. rewrite provisionVendorZip_unfold in Hm.
  change (events w) with (events (tick w)). revert Hm. generalize (tick w) as w0.
  intros w0. revert w0 w' r.
  change (emits [EvFetch src cache]
    ((if IsNotExist (os_Stat cache w).2
      then wrapping ("downloading " +:+ src +:+ " into " +:+ cache +:+ " failed")
             (astilectron_Download src cache)
      else ret)
     >> checkCtx
     >> wrapping ("copying " +:+ cache +:+ " to " +:+ vend +:+ " failed")
          (astios_Copy cache vend)
     >> checkCtx)).
  apply (emits_andThen [EvFetch src cache] []).
  - destruct (IsNotExist _).
    + apply emits_wrapping, emits_Download.
    + eapply emits_weaken; [|apply emits_ret]. apply sublist_nil_l.
  - apply (emits_andThen [] []); [apply emits_checkCtx|].
    apply (emits_andThen [] []); [|apply emits_checkCtx].
    apply emits_wrapping, emits_Copy.
Qed.

(** With the cache entry in place, or its stat refused, nothing is fetched. *)
Lemma provisionVendorZip_hit b src cache vend w w' r :
  is_Some (fs w !! cache) ∨ cache ∈ denied (host w) →
  provisionVendorZip b src cache vend w = (w', r) →
  events w' = events w.
Proof.
  intros Hc Hm. rewrite provisionVendorZip_unfold in Hm.
  assert (IsNotExist (os_Stat cache w).2 = false) as Hs.
  { rewrite Stat_result. simpl. case_bool_decide; [done|].
    destruct Hc as [[n Hn]|]; [|done]. by rewrite Hn. }
  rewrite Hs in Hm. change (events w) with (events (tick w)).
  eapply emits_nil; [|exact Hm].
  apply (emits_andThen [] []); [apply emits_ret|].
  apply (emits_andThen [] []); [apply emits_checkCtx|].
  apply (emits_andThen [] []); [|apply emits_checkCtx].
  apply emits_wrapping, emits_Copy.
Qed.

Lemma emits_provisionVendorAstilectron A b :
  emits (if nonEmpty (pathAstilectron b) then []
         else [EvFetch (AstilectronDownloadSrc A) (cacheAstilectron A b)])
    (provisionVendorAstilectron A b).
Proof.
  unfold provisionVendorAstilectron. destruct (nonEmpty (pathAstilectron b)).
  - apply emits_silent. intros w w' r. unfold andThen at 1.
    destruct ((wrapping _ (astizip_Zip _ _ _) >> checkCtx) w) as [w1 [e|]] eqn:E.
    + intros [= <- _]. eapply emits_nil; [|exact E].
      apply (emits_andThen [] []); [|apply emits_checkCtx].
      apply emits_wrapping, emits_Zip.
    + intros Hm. pose proof E as E'.
      apply andThen_ok in E as (w0 & Hz%wrapping_ok & [-> _]%checkCtx_ok).
      apply Zip_ok in Hz as [Hz _].
      change (fs w0) with (fs (tick w0)) in Hz.
      rewrite (provisionVendorZip_hit _ _ _ _ _ _ _ (or_introl (mk_is_Some _ _ Hz)) Hm).
      eapply emits_nil; [|exact E'].
      apply (emits_andThen [] []); [|apply emits_checkCtx].
      apply emits_wrapping, emits_Zip.
  - apply (emits_andThen [] [_]); [apply emits_ret|apply emits_provisionVendorZip].
Qed.

Lemma emits_provisionVendor A b oS arch :
  emits (fetches A b oS arch) (provisionVendor A b oS arch).
Proof.
  unfold provisionVendor, fetches.
  apply (emits_andThen [] _); [apply emits_wrapping, emits_RemoveAll|].
  apply (emits_andThen [] _); [apply emits_wrapping, emits_MkdirAll|].
  apply emits_andThen; apply emits_wrapping.
  - apply emits_provisionVendorAstilectron.
  - apply emits_provisionVendorZip.
Qed.

Lemma emits_BindData A b os arch tags :
  emits (fetches A b os arch ++ [EvTranslate (bindataConfig b os)])
    (BindData A b os arch tags).
Proof.
  unfold BindData. apply emits_andThen.
  - apply emits_wrapping, emits_provisionVendor.
  - apply emits_Translate.
Qed.

Lemma emits_finish b e env bin : emits [] (finish b e env bin).
Proof.
  unfold finish, finishDarwin, finishLinux, finishWindows.
  repeat case_match;
    repeat (first [ apply emits_fail | apply emits_ret | apply emits_checkCtx
                  | apply emits_wrapping
                  | apply emits_Move | apply emits_Copy | apply emits_MkdirAll
                  | apply emits_Chmod | apply emits_WriteFile
                  | apply (emits_andThen [] []) ]).
Qed.

Lemma sameHost_BindData A b os arch tags : sameHost (BindData A b os arch tags).
Proof.
  unfold BindData. apply sameHost_andThen;
    [apply sameHost_wrapping, sameHost_provisionVendor|apply sameHost_Translate].
Qed.

Lemma sameHost_addWindowsSyso b arch : sameHost (addWindowsSyso b arch).
Proof.
  unfold addWindowsSyso. destruct (nonEmpty _); [|apply sameHost_ret].
  apply sameHost_wrapping, sameHost_Embed.
Qed.

Lemma emits_addWindowsSyso b arch :
  emits (if nonEmpty (pathIconWindows b)
         then [EvRsrc (filepath.Join [pathInput b; "windows.syso"]) arch (pathIconWindows b)]
         else [])
    (addWindowsSyso b arch).
Proof.
  unfold addWindowsSyso. destruct (nonEmpty _); [|apply emits_ret].
  apply emits_wrapping, emits_Embed.
Qed.

(** ** What one [bundle] calls *)

(** X10: whatever way a [bundle] ends, what it has called of the network and of
    the tools is a selection of [bundleCalls], in that order and each at
    most once: nothing but the two archives is fetched, the icon embedder
    runs for windows with an icon only, and no other process than the one
    compiler command is started.  A [bundle] that succeeds has run the
    embedding generator, the icon embedder where it applies and the
    compiler; only the fetches depend on the cache. *)
Theorem bundle_calls_out_in_order (A : Astilectron) (b : Bundler)
    (e : ConfigurationEnvironment) (w w' : World) (r : option error) :
  bundle A b e w = (w', r) →
  ∃ l, events w' = events w ++ l
       ∧ l `sublist_of` bundleCalls A b e (host w)
       ∧ (r = None →
          ∃ fetched,
            fetched `sublist_of` fetches A b (OS e) (Arch e)
            ∧ l = fetched
                  ++ [EvTranslate (bindataConfig b (OS e))]
                  ++ (if String.eqb (OS e) "windows" && nonEmpty (pathIconWindows b)
                      then [EvRsrc (filepath.Join [pathInput b; "windows.syso"]) (Arch e)
                              (pathIconWindows b)]
                      else [])
                  ++ [EvExec (buildCmd b e (host w)
                                (filepath.Join [environmentPath b e; "binary"]))]).
Proof.
  intros Hm.
  assert (∃ l, events w' = events w ++ l ∧ l `sublist_of` bundleCalls A b e (host w))
    as (l & Hl & Hsub).
  { assert (bundleCalls A b e (host w)
            = [] ++ [] ++ (fetches A b (OS e) (Arch e) ++ [EvTranslate (bindataConfig b (OS e))])
              ++ (if String.eqb (OS e) "windows"
                  then if nonEmpty (pathIconWindows b)
                       then [EvRsrc (filepath.Join [pathInput b; "windows.syso"]) (Arch e)
                               (pathIconWindows b)]
                       else []
                  else [])
              ++ [EvExec (buildCmd b e (host w)
                            (filepath.Join [environmentPath b e; "binary"]))]) as ->.
    { unfold bundleCalls, fetches. simpl. rewrite <- !List.app_assoc. simpl.
      by destruct (String.eqb (OS e) "windows"). }
    revert Hm. unfold bundle. intros Hm.
    eapply andThen_emits_at in Hm;
      [exact Hm|apply emits_wrapping, emits_RemoveAll|]. clear Hm.
    intros w1 H1%wrapping_ok%sameHost_RemoveAll Hm. simpl in H1.
    eapply andThen_emits_at in Hm;
      [exact Hm|apply emits_wrapping, emits_MkdirAll|]. clear Hm.
    intros w2 H2%wrapping_ok%sameHost_MkdirAll Hm. simpl in H2.
    eapply andThen_emits_at in Hm;
      [exact Hm|apply emits_wrapping, emits_BindData|]. clear Hm.
    intros w3 H3%wrapping_ok%sameHost_BindData Hm.
    eapply andThen_emits_at in Hm; [exact Hm| |]; clear Hm.
    { destruct (String.eqb (OS e) "windows"); [|apply emits_ret].
      apply emits_wrapping, emits_addWindowsSyso. }
    intros w4 H4 Hm.
    assert (host w4 = host w3) as H4'.
    { destruct (String.eqb (OS e) "windows").
      - by apply wrapping_ok, sameHost_addWindowsSyso in H4.
      - by injection H4 as <-. }
    unfold andThen in Hm.
    destruct (build b e _ w4) as [w5 r5] eqn:E5.
    pose proof (build_events _ _ _ _ _ _ E5) as Hev.
    rewrite H4', H3, H2, H1 in Hev.
    destruct r5 as [err|].
    - injection Hm as <- _. by eexists.
    - apply (emits_nil _ _ _ _ (emits_finish _ _ _ _)) in Hm. rewrite Hm. by eexists. }
  exists l. split_and!; [done..|]. intros ->.
  unfold bundle in Hm.
  apply andThen_ok in Hm as (w1 & H1%wrapping_ok & Hm).
  apply andThen_ok in Hm as (w2 & H2%wrapping_ok & Hm).
  apply andThen_ok in Hm as (w3 & H3%wrapping_ok & Hm).
  apply andThen_ok in Hm as (w4 & H4 & Hm).
  apply andThen_ok in Hm as (w5 & H5 & Hm).
  unfold BindData in H3. apply andThen_ok in H3 as (w2' & Hpv%wrapping_ok & Htr).
  pose proof (emits_nil _ _ _ _ (emits_RemoveAll _) H1) as E1.
  pose proof (emits_nil _ _ _ _ (emits_MkdirAll _ _) H2) as E2.
  destruct (emits_provisionVendor _ _ _ _ _ _ _ Hpv) as (fetched & Ef & Hf).
  pose proof (Translate_ok _ _ _ Htr) as E3.
  pose proof (build_events _ _ _ _ _ _ H5) as E5.
  pose proof (emits_nil _ _ _ _ (emits_finish _ _ _ _) Hm) as E6.
  apply sameHost_RemoveAll in H1. apply sameHost_MkdirAll in H2.
  apply sameHost_provisionVendor in Hpv. apply sameHost_Translate in Htr.
  exists fetched. split; [done|].
  apply (app_inv_head (events w)). rewrite <- Hl, E6, E5.
  destruct (String.eqb (OS e) "windows"); simpl.
  - apply wrapping_ok in H4. pose proof (sameHost_addWindowsSyso _ _ _ _ _ H4) as Hh.
    rewrite Hh, Htr, Hpv, H2, H1. unfold addWindowsSyso in H4.
    destruct (nonEmpty (pathIconWindows b)).
    + apply wrapping_ok, Embed_ok in H4. rewrite H4, E3, Ef, E2, E1.
      by rewrite <- !List.app_assoc.
    + injection H4 as <-. rewrite E3, Ef, E2, E1. by rewrite <- !List.app_assoc.
  - injection H4 as <-. rewrite Htr, Hpv, H2, H1, E3, Ef, E2, E1.
    by rewrite <- !List.app_assoc.
Qed.

Lemma bundle_calls_out_in_order_witness :
  ∃ l, events (bundle Demo.lib (Demo.bundler (Demo.config [Demo.linux] "")) Demo.linux
                 Demo.world).1
       = events Demo.world ++ l
       ∧ l `sublist_of` bundleCalls Demo.lib (Demo.bundler (Demo.config [Demo.linux] ""))
                          Demo.linux (host Demo.world).
Proof.
  destruct (bundle_calls_out_in_order Demo.lib (Demo.bundler (Demo.config [Demo.linux] ""))
              Demo.linux Demo.world
              (bundle Demo.lib (Demo.bundler (Demo.config [Demo.linux] "")) Demo.linux
                 Demo.world).1
              (bundle Demo.lib (Demo.bundler (Demo.config [Demo.linux] "")) Demo.linux
                 Demo.world).2
              (surjective_pairing _)) as (l & Hl & Hs & _).
  exists l. exact (conj Hl Hs).
Defined.

(** ** The command *)

(** X11: the environments the command hands to [New] are never empty; the
    configured ones come first, as configured; what follows them is what
    the toggles add, and the environment of the host is there only when
    the configuration lists none and no toggle is set. *)
Theorem environments_keep_the_configuration (f : main.Flags) (GOARCH GOOS : string)
    (envs : list ConfigurationEnvironment) :
  main.environments f GOARCH GOOS envs ≠ []
  ∧ envs `prefix_of` main.environments f GOARCH GOOS envs
  ∧ (∀ e, e ∈ main.environments f GOARCH GOOS envs →
          e ∈ envs
          ∨ (main.darwin f = true ∧ e = mkEnv "amd64" "darwin" "")
          ∨ (main.linux f = true ∧ e = mkEnv "amd64" "linux" "")
          ∨ (main.windows f = true ∧ e = mkEnv "amd64" "windows" "")
          ∨ (envs = [] ∧ main.darwin f = false ∧ main.linux f = false
             ∧ main.windows f = false ∧ e = mkEnv GOARCH GOOS "")).
Proof.
  unfold main.environments.
  destruct (main.darwin f), (main.linux f), (main.windows f), envs as [|e0 envs];
    simpl; rewrite ?List.app_nil_r, <- ?List.app_assoc; simpl;
    rewrite ?length_app; simpl; rewrite ?Nat.add_succ_r; simpl.
  all: split_and!;
    [done
    |try (by apply prefix_nil); try (by eexists); try done
    |intros e; rewrite ?elem_of_cons, ?elem_of_app, ?elem_of_cons, ?elem_of_nil;
     intuition auto].
Qed.

(** X12: an environment with an OS the library does not know, anywhere in the
    configuration, ends the command before anything is done, whatever the
    flags and the subcommand, the clearing of the cache included: the world
    is as it was and the error names the first such OS. *)
Theorem run_refuses_an_unknown_OS (A : Astilectron)
    (rx : string → string → bool * option error) (f : main.Flags)
    (GOARCH GOOS s : string) (c : Configuration)
    (es1 es2 : list ConfigurationEnvironment) (e : ConfigurationEnvironment) (w : World) :
  Environments c = es1 ++ e :: es2 →
  Forall (λ e', IsValidOS A (OS e') = true) es1 →
  IsValidOS A (OS e) = false →
  main.run A rx f GOARCH GOOS s c w
  = (w, Some (Wrap (Errorf ("OS " +:+ OS e +:+ " is invalid"))
                "building bundler failed")).
Proof.
  intros Hes H1 He. unfold main.run.
  assert (∃ more, Environments (main.configure f GOARCH GOOS c) = es1 ++ e :: more)
    as [more Hc].
  { simpl. unfold main.environments. rewrite Hes.
    destruct (main.darwin f), (main.linux f), (main.windows f);
      rewrite <- ?List.app_assoc; simpl; rewrite ?length_app; simpl;
      rewrite ?Nat.add_succ_r; simpl; by eexists. }
  unfold New. rewrite Hc, (find_first _ es1 more e); [done| |by rewrite He].
  eapply Forall_impl; [done|]. simpl. by intros e' ->.
Qed.

Lemma run_refuses_an_unknown_OS_witness :
  main.run Demo.lib Demo.matchLiteral (main.mkFlags "" false true false "") "amd64" "linux"
    "cc" (Demo.config [Demo.linux; mkEnv "amd64" "freebsd" ""] "") Demo.world
  = (Demo.world, Some (Wrap (Errorf "OS freebsd is invalid") "building bundler failed")).
Proof.
  apply (run_refuses_an_unknown_OS Demo.lib Demo.matchLiteral _ "amd64" "linux" "cc"
           (Demo.config [Demo.linux; mkEnv "amd64" "freebsd" ""] "")
           [Demo.linux] [] (mkEnv "amd64" "freebsd" "") Demo.world).
  - reflexivity.
  - by repeat constructor.
  - reflexivity.
Defined.

(** X13: the subcommands [bd] and [cc] never start the compiler: [bd] fetches at
    most the two archives of the OS and architecture of the host and runs
    the embedding generator for that OS at most once, whatever environments
    are configured; [cc] calls nothing outside the file system and leaves
    every entry outside the cache folder as it was. *)
Theorem subcommands_never_compile (A : Astilectron)
    (rx : string → string → bool * option error) (f : main.Flags)
    (GOARCH GOOS : string) (c : Configuration) (b : Bundler)
    (w w' : World) (r : option error) :
  New A (host w) (main.configure f GOARCH GOOS c) = inl b →
  (main.run A rx f GOARCH GOOS "bd" c w = (w', r) →
   ∃ l, events w' = events w ++ l
        ∧ l `sublist_of` fetches A b GOOS GOARCH ++ [EvTranslate (bindataConfig b GOOS)])
  ∧ (main.run A rx f GOARCH GOOS "cc" c w = (w', r) →
     events w' = events w
     ∧ ∀ p n, under (pathCache b) p = false → fs w !! p = Some n → fs w' !! p = Some n).
Proof.
  intros HN. unfold main.run. rewrite HN. unfold main.dispatch. simpl. split.
  - intros Hm. eapply emits_wrapping; [apply emits_BindData|exact Hm].
  - intros Hm. split.
    + eapply emits_nil; [|exact Hm]. unfold ClearCache.
      apply emits_wrapping, emits_wrapping, emits_RemoveAll.
    + intros p n Hp Hl. eapply (keeps_wrapping _ _ _ (keeps_wrapping _ _ _ (keeps_RemoveAll _)));
        [exact Hm| |exact Hl]. simpl. congruence.
Qed.

Lemma subcommands_never_compile_witness :
  ∃ l, events (main.run Demo.lib Demo.matchLiteral (main.mkFlags "" true false true "")
                 "amd64" "linux" "bd" (Demo.config [Demo.darwin] "") Demo.world).1
       = events Demo.world ++ l
       ∧ l `sublist_of`
           fetches Demo.lib
             (Demo.bundler (main.configure (main.mkFlags "" true false true "")
                              "amd64" "linux" (Demo.config [Demo.darwin] "")))
             "linux" "amd64"
           ++ [EvTranslate
                 (bindataConfig
                    (Demo.bundler (main.configure (main.mkFlags "" true false true "")
                                     "amd64" "linux" (Demo.config [Demo.darwin] "")))
                    "linux")].
Proof.
  destruct (subcommands_never_compile Demo.lib Demo.matchLiteral
              (main.mkFlags "" true false true "") "amd64" "linux"
              (Demo.config [Demo.darwin] "")
              (Demo.bundler (main.configure (main.mkFlags "" true false true "")
                               "amd64" "linux" (Demo.config [Demo.darwin] "")))
              Demo.world
              (main.run Demo.lib Demo.matchLiteral (main.mkFlags "" true false true "")
                 "amd64" "linux" "bd" (Demo.config [Demo.darwin] "") Demo.world).1
              (main.run Demo.lib Demo.matchLiteral (main.mkFlags "" true false true "")
                 "amd64" "linux" "bd" (Demo.config [Demo.darwin] "") Demo.world).2)
    as [Hbd _].
  - reflexivity.
  - destruct (Hbd (surjective_pairing _)) as (l & Hl & Hs). exists l. exact (conj Hl Hs).
Defined.

(** ** The bind file *)

(** X14: each OS has a bind file of its own: with a cleaned absolute bind folder
    and OS names that hold no separator, two OS are given the same file
    only when they are the same OS.  The architecture and the build tags
    play no part in the name, so two environments of one OS share the
    file. *)
Theorem bind_file_per_OS (b : Bundler) (os1 os2 : string) :
  filepath.cleanAbs (pathBindOutput b) = true →
  Str.hasSep os1 = false → Str.hasSep os2 = false →
  os1 ≠ os2 →
  bindata.Output (bindataConfig b os1) ≠ bindata.Output (bindataConfig b os2).
Proof.
  intros Hc H1 H2 Hne H. apply Hne.
  change (filepath.Join [pathBindOutput b; "bind_" +:+ os1 +:+ ".go"]
          = filepath.Join [pathBindOutput b; "bind_" +:+ os2 +:+ ".go"]) in H.
  assert (∀ os, Str.hasSep os = false → filepath.plain ("bind_" +:+ os +:+ ".go") = true)
    as Hp.
  { intros os Hos. apply plain_app; [done|]. by rewrite hasSep_app, Hos. }
  rewrite (Join2 _ _ Hc (Hp _ H1)), (Join2 _ _ Hc (Hp _ H2)) in H.
  apply sapp_inv_head, (sapp_inv_head "/"), (sapp_inv_head "bind_") in H.
  by apply sapp_inv_tail in H.
Qed.

Lemma bind_file_per_OS_witness :
  bindata.Output (bindataConfig (Demo.bundler (Demo.config [Demo.linux] "")) "linux")
  ≠ bindata.Output (bindataConfig (Demo.bundler (Demo.config [Demo.linux] "")) "darwin").
Proof.
  apply (bind_file_per_OS (Demo.bundler (Demo.config [Demo.linux] "")) "linux" "darwin").
  - reflexivity.
  - reflexivity.
  - reflexivity.
  - discriminate.
Defined.

(** ** [finishLinux] and [finishWindows] *)

(** X15: on linux and windows a successful finish has moved the binary the
    compiler wrote to the environment's folder under the app name (with
    [.exe] on windows), content and mode as they were; the file [binary] is
    gone (unless that is the app's name) and nothing else has changed. *)
Theorem finish_moves_the_binary (b : Bundler) (e : ConfigurationEnvironment)
    (env : string) (w w' : World) (m : N) (d : string) :
  filepath.cleanAbs env = true →
  filepath.plain (appName b) = true →
  OS e = "linux" ∨ OS e = "windows" →
  fs w !! (env +:+ "/" +:+ "binary") = Some (File m d) →
  finish b e env (filepath.Join [env; "binary"]) w = (w', None) →
  let name := appName b +:+ (if String.eqb (OS e) "windows" then ".exe" else "") in
  fs w' !! (env +:+ "/" +:+ name) = Some (File m d)
  ∧ (name ≠ "binary" → fs w' !! (env +:+ "/" +:+ "binary") = None)
  ∧ ∀ p, p ≠ env +:+ "/" +:+ "binary" → p ≠ env +:+ "/" +:+ name →
         fs w' !! p = fs w !! p.
Proof.
  intros He Ha Hos Hbin Hm name.
  assert (finish b e env (filepath.Join [env; "binary"])
          = wrapping ("moving " +:+ env +:+ "/" +:+ "binary" +:+ " to "
                      +:+ env +:+ "/" +:+ name +:+ " failed")
              (astios_Move (env +:+ "/" +:+ "binary") (env +:+ "/" +:+ name))
            >> checkCtx) as Hf.
  { unfold finish, name. destruct Hos as [Ho|Ho]; rewrite Ho.
    - change (String.eqb "linux" "darwin") with false.
      change (String.eqb "linux" "linux") with true.
      change (String.eqb "linux" "windows") with false. cbv iota.
      unfold finishLinux. rewrite sapp_nil_r, !Join2 by done. by rewrite !sapp_assoc.
    - change (String.eqb "windows" "darwin") with false.
      change (String.eqb "windows" "linux") with false.
      change (String.eqb "windows" "windows") with true. cbv iota.
      unfold finishWindows. rewrite !Join2; [|done|by apply plain_app|done..].
      by rewrite !sapp_assoc. }
  rewrite Hf in Hm.
  apply andThen_ok in Hm as (w1 & Hmv%wrapping_ok & [-> _]%checkCtx_ok).
  apply Move_ok in Hmv as (n & Hn & Hdst & Hfs).
  rewrite Hbin in Hn. injection Hn as <-. specialize (Hfs m d eq_refl). simpl.
  split_and!.
  - done.
  - intros Hne. rewrite Hfs, lookup_insert_ne, lookup_delete_eq; [done|].
    intros H. apply sapp_inv_head, (sapp_inv_head "/") in H. done.
  - intros p Hp1 Hp2. by rewrite Hfs, lookup_insert_ne, lookup_delete_ne.
Qed.

Lemma finish_moves_the_binary_witness :
  fs (finish (Demo.bundler (Demo.config [Demo.windows] "")) Demo.windows "/out/windows-amd64"
        "/out/windows-amd64/binary"
        (setFs (<["/out/windows-amd64/binary" := File 493 "BINARY"]> (fs Demo.world))
           Demo.world)).1
  !! "/out/windows-amd64/Demo.exe" = Some (File 493 "BINARY").
Proof.
  refine (proj1 (finish_moves_the_binary (Demo.bundler (Demo.config [Demo.windows] ""))
                   Demo.windows "/out/windows-amd64"
                   (setFs (<["/out/windows-amd64/binary" := File 493 "BINARY"]>
                             (fs Demo.world)) Demo.world)
                   _ 493 "BINARY" _ _ _ _ _)).
  - reflexivity.
  - reflexivity.
  - right. reflexivity.
  - vm_compute. reflexivity.
  - vm_compute. reflexivity.
Defined.

(** ** A local copy of the framework *)

(** X16: with a local copy of the framework configured nothing is fetched for
    it, whatever the cache holds: the copy is archived over the cache entry
    on every run, and on success the vendor folder holds that archive, the
    folder as it was when the provisioning began. *)
Theorem local_framework_is_never_fetched (A : Astilectron) (b : Bundler)
    (w w' : World) (r : option error) :
  nonEmpty (pathAstilectron b) = true →
  provisionVendorAstilectron A b w = (w', r) →
  events w' = events w
  ∧ (r = None →
     fs w' !! filepath.Join [pathVendor b; zipNameAstilectron A]
     = Some (File 420 (("astilectron-" +:+ VersionAstilectron A) +:+ "="
                       +:+ render (subtree (pathAstilectron b) (fs w))))).
Proof.
  intros Hl Hm. split.
  - pose proof (emits_provisionVendorAstilectron A b) as He. rewrite Hl in He.
    by eapply emits_nil.
  - intros ->. unfold provisionVendorAstilectron in Hm. rewrite Hl in Hm.
    apply andThen_ok in Hm as (w1 & Hz & Hm).
    apply andThen_ok in Hz as (w0 & Hz%wrapping_ok & [-> _]%checkCtx_ok).
    apply Zip_ok in Hz as [Hz _].
    rewrite (provisionVendorZip_content _ _ _ _ _ _ Hm). simpl. by rewrite Hz.
Qed.

Lemma local_framework_is_never_fetched_witness :
  events (provisionVendorAstilectron Demo.lib
            (withAstilectron "/go/src/app/resources"
               (Demo.bundler (Demo.config [Demo.linux] ""))) Demo.world).1
  = events Demo.world.
Proof.
  refine (proj1 (local_framework_is_never_fetched Demo.lib
                   (withAstilectron "/go/src/app/resources"
                      (Demo.bundler (Demo.config [Demo.linux] ""))) Demo.world _ _
                   _ (surjective_pairing _))).
  reflexivity.
Defined.
